(** * Timed role waiting (cogs/waiting.py): a shallow embedding

    The cog [TimedRoleWaiting] opens a channel at a configured time of day,
    buffers the messages that arrive, grants a role to the first [max_users]
    of them and locks the channel again; a daily reset takes the roles back.

    The embedding threads one [World] value through every handler: the
    [role_waiting] table, the [_message_queue] dictionary of the cog, the part
    of the Discord cache the handlers read, and the trace of calls issued so
    far.  Calls to the platform may fail; their outcome is read from an
    oracle indexed by the position of the call in the trace, so that a
    statement quantified over the oracle covers every behaviour of the
    platform.  Calls to the store are taken to succeed. *)

From Stdlib Require Import ZArith Lia Ascii String DecimalString.
From stdpp Require Import base option list sorting gmap strings.

Local Open Scope Z_scope.

(** ** Data model (models/waiting.py) *)

Module Models.

(** [RoleWaiting]: one row of table [role_waiting].  Snowflakes and the
    primary key are integers; a date is a day number; [trigger_time] is the
    string the code stores. *)
Record RoleWaiting := {
  id : Z;
  guild_id : Z;
  channel_id : Z;
  role_id : Z;
  trigger_time : string;
  max_users : Z;
  given_users : list Z;
  is_active : bool;
  created_at : Z;
  last_triggered : option Z;
  ping_role_id : option Z;
  ping_type : string
}.

(** The one field of model [Guild] that the cog reads, with its key. *)
Record Guild := {
  guild_pk : Z;
  is_premium : bool
}.

End Models.
Export Models.

#[global] Instance RoleWaiting_eq_dec : EqDecision RoleWaiting.
Proof. solve_decision. Defined.

(** Field assignments [waiting.f = v] on a row object. *)
Definition set_given_users (l : list Z) (w : RoleWaiting) : RoleWaiting :=
  {| id := id w; guild_id := guild_id w; channel_id := channel_id w;
     role_id := role_id w; trigger_time := trigger_time w;
     max_users := max_users w; given_users := l; is_active := is_active w;
     created_at := created_at w; last_triggered := last_triggered w;
     ping_role_id := ping_role_id w; ping_type := ping_type w |}.

Definition set_last_triggered (d : option Z) (w : RoleWaiting) : RoleWaiting :=
  {| id := id w; guild_id := guild_id w; channel_id := channel_id w;
     role_id := role_id w; trigger_time := trigger_time w;
     max_users := max_users w; given_users := given_users w;
     is_active := is_active w; created_at := created_at w;
     last_triggered := d;
     ping_role_id := ping_role_id w; ping_type := ping_type w |}.

(** ** Python built-ins *)

(** [int(s)], [s.strip()] and [s.lower()] are built-ins of the interpreter,
    defined on every Unicode string.  The handlers are written over this
    interface; [ascii_builtins] below implements it for ASCII text. *)
Class PyStr := {
  py_int : string -> option Z;
  py_strip : string -> string;
  py_lower : string -> string
}.

(** [s.split(sep)] for a one-character separator: always at least one
    field, empty fields kept. *)
Fixpoint py_split (sep : ascii) (s : string) : list string :=
  match s with
  | EmptyString => [EmptyString]
  | String c s' =>
      if Ascii.eqb c sep then EmptyString :: py_split sep s'
      else match py_split sep s' with
           | [] => [String c EmptyString]
           | f :: fs => String c f :: fs
           end
  end.

(** [f"{n:02d}"]: decimal digits, sign first, zero-padded to width two. *)
Definition fmt_02d (n : Z) : string :=
  let digits := NilZero.string_of_uint (N.to_uint (Z.abs_N n)) in
  if n <? 0 then ("-" ++ digits)%string
  else
    (if (String.length digits <? 2)%nat then "0" ++ digits else digits)%string.

(** [l[:k]]: a negative bound counts from the end. *)
Definition py_slice_to {A} (l : list A) (k : Z) : list A :=
  if 0 <=? k then take (Z.to_nat k) l
  else take (length l - Z.to_nat (- k))%nat l.

(** [l[k:]], the complement of [l[:k]]. *)
Definition py_slice_from {A} (l : list A) (k : Z) : list A :=
  if 0 <=? k then drop (Z.to_nat k) l
  else drop (length l - Z.to_nat (- k))%nat l.

(** [list.sort(key=lambda x: x[1])] on the buffered [(author, created_at)]
    pairs.  The built-in sort is stable; insertion from the right, placing
    an entry before the first one that is not earlier, is the stable sort. *)
Fixpoint insert_by_timestamp (x : Z * Z) (l : list (Z * Z)) : list (Z * Z) :=
  match l with
  | [] => [x]
  | y :: l' => if x.2 <=? y.2 then x :: y :: l' else y :: insert_by_timestamp x l'
  end.

Fixpoint sort_by_timestamp (l : list (Z * Z)) : list (Z * Z) :=
  match l with
  | [] => []
  | x :: l' => insert_by_timestamp x (sort_by_timestamp l')
  end.

(** ** The platform and the state of the cog *)

(** [ping_mention] of the opening announcement. *)
Inductive Mention :=
| NoMention
| AtHere
| AtEveryone
| RoleMention (role : Z).

(** The embeds the handlers post in the waiting channel. *)
Inductive Embed :=
| WaitingOpened (role max_users : Z) (ping : Mention)
| WaitingClosed (winners : list Z)
| BetterLuck (losers : list Z).

(** Calls to the Discord API.  [author_send] is the direct message. *)
Inductive Call :=
| set_permissions (channel : Z) (send_messages : bool)
| add_roles (member role : Z)
| remove_roles (member role : Z)
| channel_send (channel : Z) (embed : Embed)
| author_send (member : Z).

#[global] Instance Mention_eq_dec : EqDecision Mention.
Proof. solve_decision. Defined.
#[global] Instance Embed_eq_dec : EqDecision Embed.
Proof. solve_decision. Defined.
#[global] Instance Call_eq_dec : EqDecision Call.
Proof. solve_decision. Defined.

(** What a handler did, oldest first: writes to the store, and calls to the
    platform with whether they returned ([true]) or raised ([false]). *)
Inductive Event :=
| Saved (waiting : RoleWaiting)
| Created (waiting : RoleWaiting)
| Api (call : Call) (ok : bool).

(** The part of the Discord cache that the handlers read: which guilds,
    channels, roles and members resolve, who holds which role, and the
    [send_messages] overwrite of the default role per channel. *)
Record Cache := {
  guilds : list Z;
  channels : list (Z * Z);
  roles : list (Z * Z);
  members : list (Z * Z);
  member_roles : list (Z * Z);
  overwrites : gmap Z bool
}.

Record World := {
  db : list RoleWaiting;
  next_id : Z;
  guild_rows : list Guild;
  message_queue : gmap Z (list (Z * Z));
  cache : Cache;
  trace : list Event;
  outcome : nat -> Call -> bool
}.

Definition get_guild (c : Cache) (g : Z) : bool := bool_decide (g ∈ guilds c).
Definition get_channel (c : Cache) (g ch : Z) : bool := bool_decide ((g, ch) ∈ channels c).
Definition get_role (c : Cache) (g r : Z) : bool := bool_decide ((g, r) ∈ roles c).
Definition get_member (c : Cache) (g m : Z) : bool := bool_decide ((g, m) ∈ members c).

(** [role in member.roles] *)
Definition has_role (c : Cache) (m r : Z) : bool := bool_decide ((m, r) ∈ member_roles c).

Definition set_member_roles (l : list (Z * Z)) (c : Cache) : Cache :=
  {| guilds := guilds c; channels := channels c; roles := roles c;
     members := members c; member_roles := l; overwrites := overwrites c |}.

Definition set_overwrites (o : gmap Z bool) (c : Cache) : Cache :=
  {| guilds := guilds c; channels := channels c; roles := roles c;
     members := members c; member_roles := member_roles c; overwrites := o |}.

(** The effect of a call that returned. *)
Definition apply_call (c : Call) (k : Cache) : Cache :=
  match c with
  | set_permissions ch b => set_overwrites (<[ch := b]> (overwrites k)) k
  | add_roles m r =>
      if has_role k m r then k else set_member_roles (member_roles k ++ [(m, r)]) k
  | remove_roles m r =>
      set_member_roles (filter (λ p, p ≠ (m, r)) (member_roles k)) k
  | channel_send _ _ => k
  | author_send _ => k
  end.

Definition set_db (d : list RoleWaiting) (σ : World) : World :=
  {| db := d; next_id := next_id σ; guild_rows := guild_rows σ;
     message_queue := message_queue σ; cache := cache σ; trace := trace σ;
     outcome := outcome σ |}.

Definition set_message_queue (q : gmap Z (list (Z * Z))) (σ : World) : World :=
  {| db := db σ; next_id := next_id σ; guild_rows := guild_rows σ;
     message_queue := q; cache := cache σ; trace := trace σ;
     outcome := outcome σ |}.

Definition log (e : Event) (σ : World) : World :=
  {| db := db σ; next_id := next_id σ; guild_rows := guild_rows σ;
     message_queue := message_queue σ; cache := cache σ;
     trace := trace σ ++ [e]; outcome := outcome σ |}.

(** One awaited API call: the oracle, asked at the current length of the
    trace, decides whether it returns; if it does, the cache follows. *)
Definition call (c : Call) (σ : World) : bool * World :=
  let ok := outcome σ (length (trace σ)) c in
  (ok,
   {| db := db σ; next_id := next_id σ; guild_rows := guild_rows σ;
      message_queue := message_queue σ;
      cache := if ok then apply_call c (cache σ) else cache σ;
      trace := trace σ ++ [Api c ok]; outcome := outcome σ |}).

(** [await waiting.save()]: the row with this primary key is overwritten. *)
Definition save (waiting : RoleWaiting) (σ : World) : World :=
  log (Saved waiting)
      (set_db ((λ r, if id r =? id waiting then waiting else r) <$> db σ) σ).

(** ** Activation (activate_waiting, check_waiting) *)

Definition ping_mention (waiting : RoleWaiting) (c : Cache) : Mention :=
  if String.eqb (ping_type waiting) "here" then AtHere
  else if String.eqb (ping_type waiting) "everyone" then AtEveryone
  else if String.eqb (ping_type waiting) "role" then
    match ping_role_id waiting with
    | Some r =>
        if (r =? 0) then NoMention
        else if get_role c (guild_id waiting) r then RoleMention r
        else NoMention
    | None => NoMention
    end
  else NoMention.

Definition activate_waiting (waiting : RoleWaiting) (current_date : Z)
    (σ : World) : World :=
  if negb (get_guild (cache σ) (guild_id waiting)) then σ
  else if negb (get_channel (cache σ) (guild_id waiting) (channel_id waiting)) then σ
  else if negb (get_role (cache σ) (guild_id waiting) (role_id waiting)) then σ
  else
    (* Reset for new day *)
    let waiting := set_last_triggered (Some current_date) (set_given_users [] waiting) in
    let σ := save waiting σ in
    (* Initialize message queue for this channel *)
    let σ := set_message_queue (<[channel_id waiting := []]> (message_queue σ)) σ in
    (* Open channel *)
    let '(ok, σ) := call (set_permissions (channel_id waiting) true) σ in
    if negb ok then σ
    else
      (* Send announcement; a failure is swallowed *)
      (call (channel_send (channel_id waiting)
               (WaitingOpened (role_id waiting) (max_users waiting)
                  (ping_mention waiting (cache σ)))) σ).2.

(** [trigger_hour, trigger_minute = map(int, s.split(":"))]: exactly two
    fields, both integers; anything else raises. *)
Definition parse_time `{PyStr} (s : string) : option (Z * Z) :=
  match py_int <$> py_split ":" s with
  | [Some hour; Some minute] => Some (hour, minute)
  | _ => None
  end.

(** The body of the loop of [check_waiting]. *)
Definition check_one `{PyStr} (current_date current_hour current_minute : Z)
    (waiting : RoleWaiting) (σ : World) : World :=
  match parse_time (trigger_time waiting) with
  | None => σ
  | Some (trigger_hour, trigger_minute) =>
      let time_matches :=
        (current_hour =? trigger_hour) && (current_minute =? trigger_minute) in
      let already_triggered :=
        bool_decide (last_triggered waiting = Some current_date) in
      if already_triggered then σ
      else if time_matches then activate_waiting waiting current_date σ
      else σ
  end.

Definition check_waiting `{PyStr} (current_date current_hour current_minute : Z)
    (σ : World) : World :=
  foldl (λ σ waiting, check_one current_date current_hour current_minute waiting σ)
        σ (filter is_active (db σ)).

(** ** Daily reset (daily_reset) *)

(** Remove role from all users who got it. *)
Fixpoint take_back (guild role : Z) (users : list Z) (σ : World) : World :=
  match users with
  | [] => σ
  | user_id :: rest =>
      let σ :=
        if get_member (cache σ) guild user_id && has_role (cache σ) user_id role
        then (call (remove_roles user_id role) σ).2
        else σ in
      take_back guild role rest σ
  end.

(** The body of the loop of [daily_reset]. *)
Definition reset_one (waiting : RoleWaiting) (σ : World) : World :=
  if negb (get_guild (cache σ) (guild_id waiting)) then σ
  else
    let σ :=
      if get_role (cache σ) (guild_id waiting) (role_id waiting)
      then take_back (guild_id waiting) (role_id waiting) (given_users waiting) σ
      else σ in
    (* Reset database *)
    let waiting := set_last_triggered None (set_given_users [] waiting) in
    let σ := save waiting σ in
    (* Lock channel *)
    if get_channel (cache σ) (guild_id waiting) (channel_id waiting)
    then (call (set_permissions (channel_id waiting) false) σ).2
    else σ.

Definition daily_reset (hour minute : Z) (σ : World) : World :=
  if (hour =? 4) && (minute <? 5)
  then foldl (λ σ waiting, reset_one waiting σ) σ (filter is_active (db σ))
  else σ.

(** ** Allocation (on_message) *)

Module Message.
(** The fields of [discord.Message] that the listener reads: [message.guild]
    ([None] in a direct message), [message.channel.id], [message.author.id],
    [message.author.bot] and [message.created_at]. *)
Record t := {
  guild : option Z;
  channel : Z;
  author : Z;
  bot : bool;
  created_at : Z
}.
End Message.

(** The winners and losers computed from the sorted queue.  Members compare
    by id, so [author not in winners] is membership of the id. *)
Definition winners_of (queue : list (Z * Z)) (max_users : Z) : list Z :=
  (py_slice_to queue max_users).*1.

Definition losers_of (queue : list (Z * Z)) (max_users : Z) : list Z :=
  let winners := winners_of queue max_users in
  let all_participants := queue.*1 in
  filter (λ author, author ∉ winners) all_participants.

(** The split as a function of the buffer as it stands when the limit is
    reached: sort, then winners and losers. *)
Definition closure_split (buffer : list (Z * Z)) (max_users : Z) : list Z * list Z :=
  let queue := sort_by_timestamp buffer in
  (winners_of queue max_users, losers_of queue max_users).

(** Give roles to winners: the id is appended only when [add_roles]
    returned; an exception is swallowed and the loop goes on. *)
Fixpoint give_roles (winners : list Z) (role : Z) (waiting : RoleWaiting)
    (σ : World) : RoleWaiting * World :=
  match winners with
  | [] => (waiting, σ)
  | winner :: rest =>
      let '(ok, σ) := call (add_roles winner role) σ in
      let waiting :=
        if ok then set_given_users (given_users waiting ++ [winner]) waiting
        else waiting in
      give_roles rest role waiting σ
  end.

(** The block under [if len(queue) >= waiting.max_users], [queue] being the
    buffer of the channel after the append.  The boolean is [true] when an
    exception left the handler: an announcement that could not be sent. *)
Definition close_channel (channel : Z) (waiting : RoleWaiting)
    (queue : list (Z * Z)) (σ : World) : bool * World :=
  (* Lock channel immediately *)
  let σ := (call (set_permissions channel false) σ).2 in
  (* Sort by timestamp (first come first serve) *)
  let queue := sort_by_timestamp queue in
  let σ := set_message_queue (<[channel := queue]> (message_queue σ)) σ in
  (* Take only the first max_users *)
  let winners := winners_of queue (max_users waiting) in
  let losers := losers_of queue (max_users waiting) in
  (* Give roles to winners *)
  let '(waiting, σ) := give_roles winners (role_id waiting) waiting σ in
  let σ := save waiting σ in
  (* Announce results *)
  let '(ok, σ) := call (channel_send channel (WaitingClosed winners)) σ in
  if negb ok then (true, σ)
  else
    (* Tag losers if any *)
    let '(ok, σ) :=
      match losers with
      | [] => (true, σ)
      | _ :: _ => call (channel_send channel (BetterLuck losers)) σ
      end in
    if negb ok then (true, σ)
    else
      (* Clear queue *)
      (false, set_message_queue (<[channel := []]> (message_queue σ)) σ).

(** The body of the loop over the configurations of the channel. *)
Definition on_message_one (message : Message.t) (guild current_date : Z)
    (waiting : RoleWaiting) (σ : World) : bool * World :=
  let channel := Message.channel message in
  let author := Message.author message in
  (* Check if waiting has been triggered today *)
  if negb (bool_decide (last_triggered waiting = Some current_date)) then (false, σ)
  else if negb (get_role (cache σ) guild (role_id waiting)) then (false, σ)
  (* Check if user already has the role - DM them *)
  else if has_role (cache σ) author (role_id waiting)
  then (false, (call (author_send author) σ).2)
  (* Check if user already got role today *)
  else if bool_decide (author ∈ given_users waiting) then (false, σ)
  else
    (* Add to message queue *)
    let queue :=
      default [] (message_queue σ !! channel)
        ++ [(author, Message.created_at message)] in
    let σ := set_message_queue (<[channel := queue]> (message_queue σ)) σ in
    (* Check if we've reached the limit *)
    if Z.of_nat (length queue) >=? max_users waiting
    then close_channel channel waiting queue σ
    else (false, σ).

Fixpoint on_message_loop (message : Message.t) (guild current_date : Z)
    (waitings : list RoleWaiting) (σ : World) : World :=
  match waitings with
  | [] => σ
  | waiting :: rest =>
      let '(raised, σ) := on_message_one message guild current_date waiting σ in
      if raised then σ else on_message_loop message guild current_date rest σ
  end.

(** The configurations of a channel: the filter of [on_message]. *)
Definition waitings_of (guild channel : Z) (d : list RoleWaiting) : list RoleWaiting :=
  filter (λ w, guild_id w = guild ∧ channel_id w = channel ∧ is_active w) d.

Definition on_message (message : Message.t) (current_date : Z) (σ : World) : World :=
  match Message.guild message with
  | None => σ
  | Some guild =>
      if Message.bot message then σ
      else
        on_message_loop message guild current_date
          (waitings_of guild (Message.channel message) (db σ)) σ
  end.

(** A burst: the messages are handled one after the other. *)
Definition on_messages (messages : list Message.t) (current_date : Z) (σ : World) : World :=
  foldl (λ σ message, on_message message current_date σ) σ messages.

(** ** Manual trigger (wait_test) *)

Inductive Reply :=
| NoConfigFound (waiting_id : Z)
| ManuallyTriggered (waiting_id : Z).

Definition wait_test (ctx_guild waiting_id current_date : Z) (σ : World) : Reply * World :=
  match filter (λ w, id w = waiting_id ∧ guild_id w = ctx_guild) (db σ) with
  | [] => (NoConfigFound waiting_id, σ)
  | waiting :: _ =>
      (ManuallyTriggered waiting_id, activate_waiting waiting current_date σ)
  end.

(** ** Setup wizard (wait_setup) *)

Module Ctx.
(** The invocation context: the guild and author of the command, the
    converters of discord.py resolved against that guild, and the two
    hierarchy tests [role >= ctx.guild.me.top_role] and
    [role >= ctx.author.top_role]. *)
Record t := {
  guild : Z;
  author : Z;
  owner_id : Z;
  TextChannelConverter : string -> option Z;
  RoleConverter : string -> option Z;
  above_me : Z -> bool;
  above_author : Z -> bool
}.
End Ctx.

(** What [bot.wait_for('message', timeout=60.0)] yields at each of the five
    prompts: the content of the reply, or [None] for [asyncio.TimeoutError]. *)
Record Answers := {
  channel_msg : option string;
  time_msg : option string;
  role_msg : option string;
  limit_msg : option string;
  ping_msg : option string
}.

Inductive SetupResult :=
| GuildDoesNotExist
| FreeLimitReached (current_count : Z)
| TimeoutCancelled
| InvalidChannel
| InvalidTimeFormat
| InvalidRole
| RoleAboveMe (role : Z)
| RoleAboveAuthor (role : Z)
| InvalidNumber
| InvalidPingInput
| FailedToLock
| SetupComplete (waiting : RoleWaiting).

(** [return await ctx.error(...)] inside the wizard: the first error ends
    the command. *)
#[global] Instance wizard_bind : MBind (sum SetupResult) :=
  λ A B f m, match m with inl err => inl err | inr a => f a end.

Definition wait_for (msg : option string) : SetupResult + string :=
  match msg with
  | None => inl TimeoutCancelled
  | Some content => inr content
  end.

Definition convert {A} (c : option A) (err : SetupResult) : SetupResult + A :=
  match c with
  | None => inl err
  | Some a => inr a
  end.

Definition require (b : bool) (err : SetupResult) : SetupResult + unit :=
  if b then inr tt else inl err.

(** Step 2: the trigger time, normalised to [HH:MM]. *)
Definition ask_time `{PyStr} (ans : Answers) : SetupResult + string :=
  content ← wait_for (time_msg ans);
  '(hour, minute) ← convert (parse_time (py_strip content)) InvalidTimeFormat;
  require ((0 <=? hour) && (hour <=? 23) && (0 <=? minute) && (minute <=? 59))
        InvalidTimeFormat;;
  inr (fmt_02d hour ++ ":" ++ fmt_02d minute)%string.

(** Step 4: the user limit. *)
Definition ask_limit `{PyStr} (ans : Answers) : SetupResult + Z :=
  content ← wait_for (limit_msg ans);
  user_limit ← convert (py_int (py_strip content)) InvalidNumber;
  require (negb ((user_limit <? 1) || (user_limit >? 1000))) InvalidNumber;;
  inr user_limit.

(** Step 3: the role, below the bot and below the author unless the author
    owns the guild. *)
Definition ask_role (ctx : Ctx.t) (ans : Answers) : SetupResult + Z :=
  content ← wait_for (role_msg ans);
  role ← convert (Ctx.RoleConverter ctx content) InvalidRole;
  require (negb (Ctx.above_me ctx role)) (RoleAboveMe role);;
  require (negb (Ctx.above_author ctx role
                       && negb (Ctx.author ctx =? Ctx.owner_id ctx)))
        (RoleAboveAuthor role);;
  inr role.

(** Step 5: the ping; a timeout here falls back to [here]. *)
Definition ask_ping `{PyStr} (ctx : Ctx.t) (ans : Answers)
    : SetupResult + (option Z * string) :=
  match ping_msg ans with
  | None => inr (None, "here"%string)
  | Some content =>
      let ping_input := py_lower (py_strip content) in
      if String.eqb ping_input "here" then inr (None, "here"%string)
      else if String.eqb ping_input "everyone" then inr (None, "everyone"%string)
      else if String.eqb ping_input "none" then inr (None, "none"%string)
      else
        ping_role ← convert (Ctx.RoleConverter ctx content) InvalidPingInput;
        inr (Some ping_role, "role"%string)
  end.

(** [Guild.get(pk=...)] *)
Definition Guild_get (pk : Z) (σ : World) : option Guild :=
  head (filter (λ g, guild_pk g = pk) (guild_rows σ)).

(** [RoleWaiting.filter(guild_id=...).count()] *)
Definition count_waitings (guild : Z) (σ : World) : Z :=
  Z.of_nat (length (filter (λ w, guild_id w = guild) (db σ))).

(** [RoleWaiting.create(...)]: the next primary key, the defaults of the
    model for the fields that are not passed. *)
Definition create (guild channel role : Z) (trigger_time : string)
    (max_users : Z) (ping_role_id : option Z) (ping_type : string) (now : Z)
    (σ : World) : RoleWaiting * World :=
  let waiting :=
    {| id := next_id σ; guild_id := guild; channel_id := channel;
       role_id := role; trigger_time := trigger_time; max_users := max_users;
       given_users := []; is_active := true; created_at := now;
       last_triggered := None; ping_role_id := ping_role_id;
       ping_type := ping_type |} in
  (waiting,
   {| db := db σ ++ [waiting]; next_id := next_id σ + 1;
      guild_rows := guild_rows σ; message_queue := message_queue σ;
      cache := cache σ; trace := trace σ ++ [Created waiting];
      outcome := outcome σ |}).

(** The five prompts of the wizard, in order, after the premium check. *)
Definition wizard `{PyStr} (ctx : Ctx.t) (ans : Answers)
    : SetupResult + (Z * string * Z * Z * (option Z * string)) :=
  (* Step 1: Channel *)
  content ← wait_for (channel_msg ans);
  channel ← convert (Ctx.TextChannelConverter ctx content) InvalidChannel;
  (* Step 2: Time *)
  trigger_time_str ← ask_time ans;
  (* Step 3: Role *)
  role ← ask_role ctx ans;
  (* Step 4: User limit *)
  user_limit ← ask_limit ans;
  (* Step 5: Ping type *)
  ping ← ask_ping ctx ans;
  inr (channel, trigger_time_str, role, user_limit, ping).

Definition wait_setup `{PyStr} (ctx : Ctx.t) (ans : Answers) (now : Z)
    (σ : World) : SetupResult * World :=
  (* Check premium limit *)
  match Guild_get (Ctx.guild ctx) σ with
  | None => (GuildDoesNotExist, σ)
  | Some guild_data =>
      let current_count := count_waitings (Ctx.guild ctx) σ in
      if negb (is_premium guild_data) && (current_count >=? 2)
      then (FreeLimitReached current_count, σ)
      else
        match wizard ctx ans with
        | inl err => (err, σ)
        | inr (channel, trigger_time_str, role, user_limit, (ping_role_id, ping_type)) =>
            (* Lock channel initially *)
            let '(ok, σ) := call (set_permissions channel false) σ in
            if negb ok then (FailedToLock, σ)
            else
              (* Create waiting entry *)
              let '(waiting, σ) :=
                create (Ctx.guild ctx) channel role trigger_time_str user_limit
                  ping_role_id ping_type now σ in
              (SetupComplete waiting, σ)
        end
  end.

(** ** The built-ins on ASCII text *)

(** [int], [str.strip] and [str.lower] as they act on strings of ASCII
    characters.  On other text Python accepts more: [int] also reads the
    decimal digits of other scripts and [strip] also removes white space
    such as U+00A0.  What is stated about replies typed by users is
    therefore stated over the class [PyStr]; this instance is for the
    strings that the cog writes itself, which are ASCII, and for concrete
    runs. *)

(** [str.isspace] below 128: blank, tab to carriage return, and the four
    separators 28 to 31. *)
Definition is_space (c : ascii) : bool :=
  let n := nat_of_ascii c in
  ((n =? 32) || ((9 <=? n) && (n <=? 13)) || ((28 <=? n) && (n <=? 31)))%nat.

Definition digit_value (c : ascii) : option Z :=
  let n := nat_of_ascii c in
  if ((48 <=? n) && (n <=? 57))%nat then Some (Z.of_nat n - 48) else None.

Fixpoint lstrip (s : list ascii) : list ascii :=
  match s with
  | c :: s' => if is_space c then lstrip s' else s
  | [] => []
  end.

(** [str.strip()] of ASCII text. *)
Definition ascii_strip (s : string) : string :=
  string_of_list_ascii
    (reverse (lstrip (reverse (lstrip (list_ascii_of_string s))))).

Definition ascii_lower (s : string) : string :=
  string_of_list_ascii
    ((λ c, let n := nat_of_ascii c in
           if ((65 <=? n) && (n <=? 90))%nat then ascii_of_nat (n + 32) else c)
       <$> list_ascii_of_string s).

(** Decimal digits, single underscores allowed between two digits. *)
Fixpoint digits_value (acc : Z) (after_digit : bool) (s : list ascii) : option Z :=
  match s with
  | [] => if after_digit then Some acc else None
  | c :: s' =>
      match digit_value c with
      | Some d => digits_value (10 * acc + d) true s'
      | None =>
          if Ascii.eqb c "_" && after_digit then digits_value acc false s'
          else None
      end
  end.

(** [int(s)] of ASCII text: optional sign, then decimal digits. *)
Definition ascii_int (s : string) : option Z :=
  match list_ascii_of_string (ascii_strip s) with
  | c :: s' =>
      if Ascii.eqb c "+" then digits_value 0 false s'
      else if Ascii.eqb c "-" then Z.opp <$> digits_value 0 false s'
      else digits_value 0 false (c :: s')
  | [] => None
  end.

Definition ascii_builtins : PyStr :=
  {| py_int := ascii_int; py_strip := ascii_strip; py_lower := ascii_lower |}.


(** ** Administrative commands (wait_delete, wait_clear, wait_takeback,
       wait_takeback_all, wait_edit) *)

(** [RoleWaiting.filter(id=waiting_id, guild_id=ctx.guild.id).first()] *)
Definition find_waiting (ctx_guild waiting_id : Z) (σ : World) : option RoleWaiting :=
  head (filter (λ w, id w = waiting_id ∧ guild_id w = ctx_guild) (db σ)).

(** [await waiting.delete()]: the rows with this primary key go. *)
Definition delete_row (waiting : RoleWaiting) (σ : World) : World :=
  set_db (filter (λ r, id r ≠ id waiting) (db σ)) σ.

Inductive DeleteResult :=
| DeleteNoConfig (waiting_id : Z)
| Stopped (waiting_id : Z).

Definition wait_delete (ctx_guild waiting_id : Z) (σ : World) : DeleteResult * World :=
  match find_waiting ctx_guild waiting_id σ with
  | None => (DeleteNoConfig waiting_id, σ)
  | Some waiting => (Stopped waiting_id, delete_row waiting σ)
  end.

Inductive ClearResult :=
| NothingToClear
| ClearCancelled
| StoppedAll (count : Z).

(** [prompt] is the answer to [ctx.prompt], asked only when there is
    something to clear. *)
Definition wait_clear (ctx_guild : Z) (prompt : bool) (σ : World) : ClearResult * World :=
  let count := count_waitings ctx_guild σ in
  if count =? 0 then (NothingToClear, σ)
  else if negb prompt then (ClearCancelled, σ)
  else
    (* RoleWaiting.filter(guild_id=ctx.guild.id).delete() *)
    (StoppedAll count, set_db (filter (λ r, guild_id r ≠ ctx_guild) (db σ)) σ).

(** The loop of the two takeback commands: [removed_count] goes up when
    [remove_roles] returned; an exception is swallowed. *)
Fixpoint take_back_count (guild role : Z) (users : list Z) (removed_count : Z)
    (σ : World) : Z * World :=
  match users with
  | [] => (removed_count, σ)
  | user_id :: rest =>
      if get_member (cache σ) guild user_id && has_role (cache σ) user_id role
      then
        let '(ok, σ) := call (remove_roles user_id role) σ in
        take_back_count guild role rest
          (if ok then removed_count + 1 else removed_count) σ
      else take_back_count guild role rest removed_count σ
  end.

Inductive TakebackResult :=
| TakebackNoConfig (waiting_id : Z)
| NoUsersYet
| RoleNotFound
| Removed (role removed_count : Z).

Definition wait_takeback (ctx_guild waiting_id : Z) (σ : World) : TakebackResult * World :=
  match find_waiting ctx_guild waiting_id σ with
  | None => (TakebackNoConfig waiting_id, σ)
  | Some waiting =>
      match given_users waiting with
      | [] => (NoUsersYet, σ)
      | _ :: _ =>
          if negb (get_role (cache σ) ctx_guild (role_id waiting)) then (RoleNotFound, σ)
          else
            let '(removed_count, σ) :=
              take_back_count ctx_guild (role_id waiting) (given_users waiting) 0 σ in
            let waiting := set_given_users [] waiting in
            (Removed (role_id waiting) removed_count, save waiting σ)
      end
  end.

Inductive TakebackAllResult :=
| NoConfigsInServer
| NoUsersAnywhere
| TakebackAllCancelled
| TakebackAllCompleted (total_removed configs_processed : Z).

(** The loop over the configurations of the guild. *)
Fixpoint takeback_all_loop (ctx_guild : Z) (waitings : list RoleWaiting)
    (total_removed configs_processed : Z) (σ : World) : Z * Z * World :=
  match waitings with
  | [] => (total_removed, configs_processed, σ)
  | waiting :: rest =>
      match given_users waiting with
      | [] => takeback_all_loop ctx_guild rest total_removed configs_processed σ
      | _ :: _ =>
          if negb (get_role (cache σ) ctx_guild (role_id waiting))
          then takeback_all_loop ctx_guild rest total_removed configs_processed σ
          else
            let '(total_removed, σ) :=
              take_back_count ctx_guild (role_id waiting) (given_users waiting)
                total_removed σ in
            (* Reset the waiting config *)
            let σ := save (set_given_users [] waiting) σ in
            takeback_all_loop ctx_guild rest total_removed (configs_processed + 1) σ
      end
  end.

(** [sum(len(w.given_users) for w in waitings if w.given_users)] *)
Definition total_users_with_roles (waitings : list RoleWaiting) : Z :=
  foldr (λ w acc, Z.of_nat (length (given_users w)) + acc) 0 waitings.

Definition wait_takeback_all (ctx_guild : Z) (prompt : bool) (σ : World)
    : TakebackAllResult * World :=
  let waitings := filter (λ w, guild_id w = ctx_guild) (db σ) in
  match waitings with
  | [] => (NoConfigsInServer, σ)
  | _ :: _ =>
      if total_users_with_roles waitings =? 0 then (NoUsersAnywhere, σ)
      else if negb prompt then (TakebackAllCancelled, σ)
      else
        let '(total_removed, configs_processed, σ) :=
          takeback_all_loop ctx_guild waitings 0 0 σ in
        (TakebackAllCompleted total_removed configs_processed, σ)
  end.

(** Field assignments of [wait_edit]. *)
Definition set_channel_id (c : Z) (w : RoleWaiting) : RoleWaiting :=
  {| id := id w; guild_id := guild_id w; channel_id := c;
     role_id := role_id w; trigger_time := trigger_time w;
     max_users := max_users w; given_users := given_users w;
     is_active := is_active w; Models.created_at := Models.created_at w;
     last_triggered := last_triggered w;
     ping_role_id := ping_role_id w; ping_type := ping_type w |}.

Definition set_trigger_time (t : string) (w : RoleWaiting) : RoleWaiting :=
  {| id := id w; guild_id := guild_id w; channel_id := channel_id w;
     role_id := role_id w; trigger_time := t;
     max_users := max_users w; given_users := given_users w;
     is_active := is_active w; Models.created_at := Models.created_at w;
     last_triggered := last_triggered w;
     ping_role_id := ping_role_id w; ping_type := ping_type w |}.

Definition set_role_id (r : Z) (w : RoleWaiting) : RoleWaiting :=
  {| id := id w; guild_id := guild_id w; channel_id := channel_id w;
     role_id := r; trigger_time := trigger_time w;
     max_users := max_users w; given_users := given_users w;
     is_active := is_active w; Models.created_at := Models.created_at w;
     last_triggered := last_triggered w;
     ping_role_id := ping_role_id w; ping_type := ping_type w |}.

Definition set_max_users (n : Z) (w : RoleWaiting) : RoleWaiting :=
  {| id := id w; guild_id := guild_id w; channel_id := channel_id w;
     role_id := role_id w; trigger_time := trigger_time w;
     max_users := n; given_users := given_users w;
     is_active := is_active w; Models.created_at := Models.created_at w;
     last_triggered := last_triggered w;
     ping_role_id := ping_role_id w; ping_type := ping_type w |}.

Definition set_ping (t : string) (r : option Z) (w : RoleWaiting) : RoleWaiting :=
  {| id := id w; guild_id := guild_id w; channel_id := channel_id w;
     role_id := role_id w; trigger_time := trigger_time w;
     max_users := max_users w; given_users := given_users w;
     is_active := is_active w; Models.created_at := Models.created_at w;
     last_triggered := last_triggered w;
     ping_role_id := r; ping_type := t |}.

Inductive EditResult :=
| EditNoConfig (waiting_id : Z)
| EditTimeout
| EditCancelled
| EditInvalidChannel
| EditInvalidTime
| EditInvalidRole
| EditRoleAboveMe
| EditInvalidNumber
| EditInvalidInput
| EditInvalidOption
| Updated (waiting : RoleWaiting).

(** The new value of the field chosen by [edit_choice], read from the
    reply [value_msg] ([None]: the prompt timed out). *)
Definition edited `{PyStr} (ctx : Ctx.t) (edit_choice : string)
    (value_msg : option string) (waiting : RoleWaiting) : EditResult + RoleWaiting :=
  if String.eqb edit_choice "channel" then
    match value_msg with
    | None => inl EditTimeout
    | Some content =>
        match Ctx.TextChannelConverter ctx content with
        | None => inl EditInvalidChannel
        | Some new_channel => inr (set_channel_id new_channel waiting)
        end
    end
  else if String.eqb edit_choice "time" then
    match value_msg with
    | None => inl EditTimeout
    | Some content =>
        match parse_time (py_strip content) with
        | None => inl EditInvalidTime
        | Some (hour, minute) =>
            if (0 <=? hour) && (hour <=? 23) && (0 <=? minute) && (minute <=? 59)
            then inr (set_trigger_time (fmt_02d hour ++ ":" ++ fmt_02d minute)%string
                        waiting)
            else inl EditInvalidTime
        end
    end
  else if String.eqb edit_choice "role" then
    match value_msg with
    | None => inl EditTimeout
    | Some content =>
        match Ctx.RoleConverter ctx content with
        | None => inl EditInvalidRole
        | Some new_role =>
            if Ctx.above_me ctx new_role then inl EditRoleAboveMe
            else inr (set_role_id new_role waiting)
        end
    end
  else if String.eqb edit_choice "limit" then
    match value_msg with
    | None => inl EditTimeout
    | Some content =>
        match py_int (py_strip content) with
        | None => inl EditInvalidNumber
        | Some new_limit =>
            if (new_limit <? 1) || (new_limit >? 1000) then inl EditInvalidNumber
            else inr (set_max_users new_limit waiting)
        end
    end
  else if String.eqb edit_choice "ping" then
    match value_msg with
    | None => inl EditTimeout
    | Some content =>
        let ping_input := py_lower (py_strip content) in
        if String.eqb ping_input "here" then inr (set_ping "here" None waiting)
        else if String.eqb ping_input "everyone" then inr (set_ping "everyone" None waiting)
        else if String.eqb ping_input "none" then inr (set_ping "none" None waiting)
        else
          match Ctx.RoleConverter ctx content with
          | None => inl EditInvalidInput
          | Some ping_role => inr (set_ping "role" (Some ping_role) waiting)
          end
    end
  else inl EditInvalidOption.

Definition wait_edit `{PyStr} (ctx : Ctx.t) (waiting_id : Z)
    (choice_msg value_msg : option string) (σ : World) : EditResult * World :=
  match find_waiting (Ctx.guild ctx) waiting_id σ with
  | None => (EditNoConfig waiting_id, σ)
  | Some waiting =>
      match choice_msg with
      | None => (EditTimeout, σ)
      | Some content =>
          let edit_choice := py_lower (py_strip content) in
          if String.eqb edit_choice "cancel" then (EditCancelled, σ)
          else
            match edited ctx edit_choice value_msg waiting with
            | inl err => (err, σ)
            | inr waiting => (Updated waiting, save waiting σ)
            end
      end
  end.

(** ** The cog as a whole *)

(** What can happen to the cog: the two timers, a message, a command. *)
Inductive Command :=
| CheckWaiting (current_date current_hour current_minute : Z)
| DailyReset (hour minute : Z)
| OnMessage (message : Message.t) (current_date : Z)
| WaitSetup (ctx : Ctx.t) (ans : Answers) (now : Z)
| WaitEdit (ctx : Ctx.t) (waiting_id : Z) (choice_msg value_msg : option string)
| WaitDelete (ctx_guild waiting_id : Z)
| WaitClear (ctx_guild : Z) (prompt : bool)
| WaitTakeback (ctx_guild waiting_id : Z)
| WaitTakebackAll (ctx_guild : Z) (prompt : bool)
| WaitTest (ctx_guild waiting_id current_date : Z).

Definition run `{PyStr} (c : Command) (σ : World) : World :=
  match c with
  | CheckWaiting d h m => check_waiting d h m σ
  | DailyReset h m => daily_reset h m σ
  | OnMessage message d => on_message message d σ
  | WaitSetup ctx ans now => (wait_setup ctx ans now σ).2
  | WaitEdit ctx waiting_id choice value => (wait_edit ctx waiting_id choice value σ).2
  | WaitDelete g waiting_id => (wait_delete g waiting_id σ).2
  | WaitClear g prompt => (wait_clear g prompt σ).2
  | WaitTakeback g waiting_id => (wait_takeback g waiting_id σ).2
  | WaitTakebackAll g prompt => (wait_takeback_all g prompt σ).2
  | WaitTest g waiting_id d => (wait_test g waiting_id d σ).2
  end.

(** A history of the cog. *)
Definition run_all `{PyStr} (cs : list Command) (σ : World) : World :=
  foldl (λ σ c, run c σ) σ cs.

(** * The vocabulary of the statements *)

(** Buffer entries in timestamp order. *)
Definition earlier_eq (x y : Z * Z) : Prop := x.2 <= y.2.

(** The split in the words of the specification: sort, the first
    [max_users] entries are the winners, the remaining ones the losers. *)
Definition spec_split (buffer : list (Z * Z)) (max_users : Z) : list Z * list Z :=
  let queue := sort_by_timestamp buffer in
  ((take (Z.to_nat max_users) queue).*1, (drop (Z.to_nat max_users) queue).*1).

(** The grant attempts of [give_roles], as they reach the trace: one
    [add_roles] per winner, in order, the [n]-th call of the handler asking
    the oracle at position [n]. *)
Fixpoint grant_events (o : nat → Call → bool) (n : nat) (winners : list Z)
    (role : Z) : list Event :=
  match winners with
  | [] => []
  | winner :: rest =>
      Api (add_roles winner role) (o n (add_roles winner role))
      :: grant_events o (S n) rest role
  end.

(** The members whose [add_roles] returned, in the order of the calls. *)
Definition successful_grants (events : list Event) : list Z :=
  omap (λ e, match e with
             | Api (add_roles member _) true => Some member
             | _ => None
             end) events.

(** Two caches that resolve the same guilds, channels, roles and members:
    an API call changes [member_roles] and [overwrites] only. *)
Definition same_guild_view (k k' : Cache) : Prop :=
  guilds k' = guilds k ∧ channels k' = channels k ∧ roles k' = roles k
  ∧ members k' = members k.

(** The table after [waiting.save()]. *)
Definition overwrite_row (waiting : RoleWaiting) (d : list RoleWaiting) : list RoleWaiting :=
  (λ row, if id row =? id waiting then waiting else row) <$> d.

(** The guild, the channel and the role of a configuration are all in the
    cache: [activate_waiting] does not return early. *)
Definition resolves (waiting : RoleWaiting) (σ : World) : Prop :=
  get_guild (cache σ) (guild_id waiting) = true
  ∧ get_channel (cache σ) (guild_id waiting) (channel_id waiting) = true
  ∧ get_role (cache σ) (guild_id waiting) (role_id waiting) = true.

(** What [activate_waiting] writes into a row. *)
Definition activated (current_date : Z) (waiting : RoleWaiting) : RoleWaiting :=
  set_last_triggered (Some current_date) (set_given_users [] waiting).

(** What [daily_reset] writes into a row. *)
Definition reset_row (waiting : RoleWaiting) : RoleWaiting :=
  set_last_triggered None (set_given_users [] waiting).








(** A reply to the time prompt that is accepted: two fields around one
    colon, both integers, an hour and a minute of the day. *)
Definition time_accepted `{PyStr} (content : string) : Prop :=
  ∃ a b hour minute,
    py_split ":" (py_strip content) = [a; b]
    ∧ py_int a = Some hour ∧ py_int b = Some minute
    ∧ 0 <= hour <= 23 ∧ 0 <= minute <= 59.

(** A reply to the limit prompt that is accepted: an integer from 1 to
    1000. *)
Definition limit_accepted `{PyStr} (content : string) : Prop :=
  ∃ user_limit, py_int (py_strip content) = Some user_limit ∧ 1 <= user_limit <= 1000.

(** Both replies were given and accepted. *)
Definition valid_input `{PyStr} (ans : Answers) : Prop :=
  (∃ t, time_msg ans = Some t ∧ time_accepted t)
  ∧ (∃ l, limit_msg ans = Some l ∧ limit_accepted l).

(** The errors of the prompts that come before the time prompt, and before
    the limit prompt. *)
Definition stops_before_time (res : SetupResult) : Prop :=
  res = TimeoutCancelled ∨ res = InvalidChannel.

Definition stops_before_limit (res : SetupResult) : Prop :=
  stops_before_time res ∨ res = InvalidTimeFormat ∨ res = InvalidRole
  ∨ (∃ role, res = RoleAboveMe role) ∨ (∃ role, res = RoleAboveAuthor role).

(** ** Vocabulary of the further properties *)

(** What the timers, the listener, the manual trigger and the takebacks do
    to a row: open it for a date, reset it, clear its grants, or append
    grants to it while it is open. *)
Definition row_step (w w' : RoleWaiting) : Prop :=
  (∃ current_date, w' = activated current_date w)
  ∨ w' = reset_row w
  ∨ w' = set_given_users [] w
  ∨ (∃ current_date granted,
       last_triggered w = Some current_date
       ∧ w' = set_given_users (given_users w ++ granted) w).

(** What the listener does to a row: it appends grants while the row is
    open for the current date. *)
Definition granted_more (current_date : Z) (w w' : RoleWaiting) : Prop :=
  ∃ granted,
    last_triggered w = Some current_date
    ∧ w' = set_given_users (given_users w ++ granted) w.

(** [d'] comes from the table [d] by saving, in order, new states of some
    of the rows [ws], each related to the row by [R]. *)
Inductive overwrites_of (R : RoleWaiting → RoleWaiting → Prop)
    : list RoleWaiting → list RoleWaiting → list RoleWaiting → Prop :=
| overwrites_done ws d : overwrites_of R ws d d
| overwrites_skip w ws d d' : overwrites_of R ws d d' → overwrites_of R (w :: ws) d d'
| overwrites_save w w' ws d d' :
    R w w' → overwrites_of R ws (overwrite_row w' d) d' →
    overwrites_of R (w :: ws) d d'.

(** Primary keys are unique and below the next key of the sequence. *)
Definition ids_fresh (σ : World) : Prop :=
  NoDup (id <$> db σ) ∧ ∀ r, r ∈ db σ → id r < next_id σ.

(** A row as the wizard and the edit command leave it: a limit from 1 to
    1000, active, a trigger time that the scheduler can read as an hour and
    a minute of the day, one of the four ping types with a ping role
    exactly for type [role]; and grants only on a row that has been
    opened. *)
Definition row_ok `{PyStr} (r : RoleWaiting) : Prop :=
  1 <= max_users r <= 1000
  ∧ is_active r = true
  ∧ (∃ hour minute, parse_time (trigger_time r) = Some (hour, minute)
                    ∧ 0 <= hour <= 23 ∧ 0 <= minute <= 59)
  ∧ (ping_type r = "role"%string ∧ ping_role_id r ≠ None
     ∨ ping_type r ∈ ["here"; "everyone"; "none"]%string ∧ ping_role_id r = None)
  ∧ (given_users r ≠ [] → last_triggered r ≠ None).

(** The commands that never create, delete or edit a configuration. *)
Definition housekeeping (c : Command) : bool :=
  match c with
  | CheckWaiting _ _ _ | DailyReset _ _ | OnMessage _ _
  | WaitTakeback _ _ | WaitTakebackAll _ _ | WaitTest _ _ _ => true
  | WaitSetup _ _ _ | WaitEdit _ _ _ _ | WaitDelete _ _ | WaitClear _ _ => false
  end.

(** The [remove_roles] calls of a stretch of trace that returned. *)
Definition successful_removals (events : list Event) : list (Z * Z) :=
  omap (λ e, match e with
             | Api (remove_roles member role) true => Some (member, role)
             | _ => None
             end) events.

(** A [remove_roles] call for the role [role] and one of [users]. *)
Definition removal_of (role : Z) (users : list Z) (e : Event) : Prop :=
  ∃ user ok, e = Api (remove_roles user role) ok ∧ user ∈ users.

(** The scheduler opens this row at this tick. *)
Definition due `{PyStr} (current_date current_hour current_minute : Z) (k : Cache)
    (w : RoleWaiting) : bool :=
  match parse_time (trigger_time w) with
  | None => false
  | Some (trigger_hour, trigger_minute) =>
      negb (bool_decide (last_triggered w = Some current_date))
      && (current_hour =? trigger_hour) && (current_minute =? trigger_minute)
      && get_guild k (guild_id w)
      && get_channel k (guild_id w) (channel_id w)
      && get_role k (guild_id w) (role_id w)
  end.

(** From one world to a later one nobody gained a role: the guilds list the
    same objects, every role held afterwards was held before, and the
    trace only grew. *)
Definition only_revokes (σ σ' : World) : Prop :=
  same_guild_view (cache σ) (cache σ')
  ∧ (∀ member role,
       has_role (cache σ') member role = true → has_role (cache σ) member role = true)
  ∧ trace σ `prefix_of` trace σ'.

(** Between the two worlds the platform refused to take the role back from
    the member. *)
Definition refused_removal (member role : Z) (σ σ' : World) : Prop :=
  ∃ i, (length (trace σ) ≤ i)%nat
       ∧ trace σ' !! i = Some (Api (remove_roles member role) false).

(** The rows saved in a stretch of trace, oldest first. *)
Definition saved_rows (events : list Event) : list RoleWaiting :=
  omap (λ e, match e with Saved w => Some w | _ => None end) events.

(** A configuration of the channel does not take this message: it was not
    opened on the current date, or its role is gone, or the author is in
    its list already and does not hold the role. *)
Definition closed_to (message : Message.t) (guild current_date : Z) (k : Cache)
    (w : RoleWaiting) : Prop :=
  last_triggered w ≠ Some current_date
  ∨ get_role k guild (role_id w) = false
  ∨ (has_role k (Message.author message) (role_id w) = false
     ∧ Message.author message ∈ given_users w).

(** The one law of [int] that the cog relies on between its writers and
    its reader: [int] reads back the two digits that [:02d] wrote. *)
Definition int_reads_02d `{PyStr} : Prop :=
  ∀ n, 0 <= n <= 59 → py_int (fmt_02d n) = Some n.

(** ** Concrete worlds *)

Module Demo.

(** Guild 10 with channel 20, roles 30 and 31 and members 1 to 4.  A
    configuration of channel 20, opened on day 100. *)
Definition config (pk role limit : Z) : RoleWaiting :=
  {| id := pk; guild_id := 10; channel_id := 20; role_id := role;
     trigger_time := "13:57"; max_users := limit; given_users := [];
     is_active := true; Models.created_at := 0; last_triggered := Some 100;
     ping_role_id := None; ping_type := "here" |}.

(** The usual one: role 30 for the first two. *)
Definition waiting : RoleWaiting := config 1 30 2.

(** The cache: nobody holds a role yet, channel 20 is open. *)
Definition discord : Cache :=
  {| guilds := [10]; channels := [(10, 20)]; roles := [(10, 30); (10, 31)];
     members := [(10, 1); (10, 2); (10, 3); (10, 4)];
     member_roles := []; overwrites := {[20 := true]} |}.

(** Every call to the platform returns. *)
Definition all_ok : nat → Call → bool := λ _ _, true.

(** The platform refuses exactly the calls selected by [bad]. *)
Definition refusing (bad : Call → bool) : nat → Call → bool := λ _ c, negb (bad c).

(** A world with the given table and oracle: guild 10 is free, guild 11
    premium; the buffer of channel 20 is the fresh one of an activation. *)
Definition world (rows : list RoleWaiting) (o : nat → Call → bool) : World :=
  {| db := rows; next_id := 3;
     guild_rows := [{| guild_pk := 10; is_premium := false |};
                    {| guild_pk := 11; is_premium := true |}];
     message_queue := {[20 := []]}; cache := discord; trace := [];
     outcome := o |}.

(** A message of a member in channel 20. *)
Definition message (author timestamp : Z) : Message.t :=
  {| Message.guild := Some 10; Message.channel := 20;
     Message.author := author; Message.bot := false;
     Message.created_at := timestamp |}.

End Demo.

Module DemoSetup.

(** The command is run by the owner of guild [guild]; [#waiting] converts
    to channel 20 and [@idp] to role 30, which is below everyone. *)
Definition ctx (guild : Z) : Ctx.t :=
  {| Ctx.guild := guild; Ctx.author := 1; Ctx.owner_id := 1;
     Ctx.TextChannelConverter :=
       λ s, if String.eqb s "#waiting" then Some 20 else None;
     Ctx.RoleConverter := λ s, if String.eqb s "@idp" then Some 30 else None;
     Ctx.above_me := λ _, false; Ctx.above_author := λ _, false |}.

(** Replies to the five prompts, the time and the limit left open. *)
Definition answers (time limit : string) : Answers :=
  {| channel_msg := Some "#waiting"%string; time_msg := Some time;
     role_msg := Some "@idp"%string; limit_msg := Some limit;
     ping_msg := Some "none"%string |}.

(** A stopped configuration of guild [guild]. *)
Definition stopped (pk guild : Z) : RoleWaiting :=
  {| id := pk; guild_id := guild; channel_id := 20; role_id := 30;
     trigger_time := "13:57"; max_users := 2; given_users := [];
     is_active := false; Models.created_at := 0; last_triggered := None;
     ping_role_id := None; ping_type := "here" |}.

End DemoSetup.

(** * Properties *)

(** ** The sort of the buffer is the stable ascending sort *)

Lemma insert_by_timestamp_perm x l : insert_by_timestamp x l ≡ₚ x :: l.
Proof.
  induction l as [|y l IH]; simpl; [done|].
  destruct (x.2 <=? y.2); [done|].
  rewrite IH. apply Permutation_swap.
Qed.

Lemma sort_by_timestamp_perm l : sort_by_timestamp l ≡ₚ l.
Proof.
  induction l as [|x l IH]; simpl; [done|].
  by rewrite insert_by_timestamp_perm, IH.
Qed.

Lemma sort_by_timestamp_length l : length (sort_by_timestamp l) = length l.
Proof. by rewrite sort_by_timestamp_perm. Qed.

Lemma insert_by_timestamp_sorted x l :
  StronglySorted earlier_eq l → StronglySorted earlier_eq (insert_by_timestamp x l).
Proof.
  induction 1 as [|y l Hl IH Hy]; simpl.
  - repeat constructor.
  - destruct (Z.leb_spec (x.2) (y.2)) as [Hle|Hgt].
    + constructor; [by constructor|].
      constructor; [done|].
      eapply Forall_impl; [exact Hy|]. unfold earlier_eq. intros z Hz. lia.
    + constructor; [done|].
      rewrite insert_by_timestamp_perm. constructor; [|done].
      unfold earlier_eq. lia.
Qed.

Lemma sort_by_timestamp_sorted l : StronglySorted earlier_eq (sort_by_timestamp l).
Proof.
  induction l as [|x l IH]; simpl; [constructor|].
  by apply insert_by_timestamp_sorted.
Qed.

(** Stability: the entries of any one timestamp keep their buffer order. *)
Lemma insert_by_timestamp_stable t x l :
  filter (λ e : Z * Z, e.2 = t) (insert_by_timestamp x l)
  = filter (λ e : Z * Z, e.2 = t) (x :: l).
Proof.
  induction l as [|y l IH]; simpl; [done|].
  destruct (Z.leb_spec (x.2) (y.2)) as [Hle|Hgt]; [done|].
  rewrite (filter_cons _ y), IH, !filter_cons.
  repeat case_decide; try done; lia.
Qed.

Lemma sort_by_timestamp_stable t l :
  filter (λ e : Z * Z, e.2 = t) (sort_by_timestamp l)
  = filter (λ e : Z * Z, e.2 = t) l.
Proof.
  induction l as [|x l IH]; simpl; [done|].
  by rewrite insert_by_timestamp_stable, !filter_cons, IH.
Qed.

(** ** C4: the winner/loser split *)

Lemma py_slice_nonneg {A} (l : list A) k :
  0 <= k → py_slice_to l k = take (Z.to_nat k) l.
Proof. intros Hk. unfold py_slice_to. by destruct (Z.leb_spec 0 k); [|lia]. Qed.

Lemma filter_not_in_self (l : list Z) : filter (λ a, a ∉ l) l = [].
Proof.
  assert (∀ l', l' ⊆ l → filter (λ a, a ∉ l) l' = []) as H.
  { induction l' as [|a l' IH]; intros Hsub; [done|].
    rewrite filter_cons_False by (intros Hn; apply Hn, Hsub; left).
    apply IH. intros b Hb. apply Hsub. by right. }
  by apply H.
Qed.

Lemma filter_not_in_disjoint (l l' : list Z) :
  (∀ a, a ∈ l' → a ∉ l) → filter (λ a, a ∉ l) l' = l'.
Proof.
  induction l' as [|a l' IH]; intros Hd; [done|].
  rewrite filter_cons_True by (apply Hd; left).
  f_equal. apply IH. intros b Hb. apply Hd. by right.
Qed.

(** The losers are the authors of the entries after the winners, without
    those who are also among the winners. *)
Lemma losers_of_rest queue max_users :
  0 <= max_users →
  losers_of queue max_users
  = filter (λ a, a ∉ winners_of queue max_users)
           (drop (Z.to_nat max_users) queue).*1.
Proof.
  intros Hk. unfold losers_of, winners_of. rewrite py_slice_nonneg by done.
  set (winners := (take (Z.to_nat max_users) queue).*1).
  assert (queue.*1 = winners ++ (drop (Z.to_nat max_users) queue).*1) as ->.
  { unfold winners. by rewrite <-fmap_app, take_drop. }
  by rewrite filter_app, filter_not_in_self.
Qed.

(** C4, counterexample: a participant buffered twice, once inside the first
    [max_users] entries and once after them, is a winner and is not a
    loser, whereas "the rest" contains that participant.  Such a buffer
    arises when two configurations share a channel: member 7 sends one
    message, it is buffered for the configuration of limit five and again
    for the one of limit one, which closes with 7 as its winner and
    announces no loser. *)
Lemma split_rest_counterexample :
  let shared := [Demo.config 1 31 5; Demo.config 2 30 1] in
  let σ' := on_message (Demo.message 7 5) 100 (Demo.world shared Demo.all_ok) in
  closure_split [(7, 5); (7, 5)] 1 = ([7], [])
  ∧ spec_split [(7, 5); (7, 5)] 1 = ([7], [7])
  ∧ closure_split [(7, 5); (7, 5)] 1 ≠ spec_split [(7, 5); (7, 5)] 1
  ∧ trace σ'
    = [Api (set_permissions 20 false) true; Api (add_roles 7 30) true;
       Saved (set_given_users [7] (Demo.config 2 30 1));
       Api (channel_send 20 (WaitingClosed [7])) true].
Proof. by vm_compute. Qed.

(** C4 (amended): the split at closure is a function of the buffer and of
    [max_users] alone.  The queue it works on is the stable ascending sort
    of the buffer by timestamp: a permutation of the buffer, ascending, the
    entries of equal timestamp in buffer order.  The winners are the authors
    of its first [max_users] entries; the losers are the authors of the
    remaining entries who are not among the winners, which is all of the
    remaining entries when no participant is buffered twice. *)
Theorem closure_split_deterministic buffer max_users :
  0 <= max_users →
  let queue := sort_by_timestamp buffer in
  let rest := (drop (Z.to_nat max_users) queue).*1 in
  (∀ buffer' max_users',
     buffer' = buffer → max_users' = max_users →
     closure_split buffer' max_users' = closure_split buffer max_users)
  ∧ queue ≡ₚ buffer
  ∧ StronglySorted earlier_eq queue
  ∧ (∀ t, filter (λ e : Z * Z, e.2 = t) queue = filter (λ e : Z * Z, e.2 = t) buffer)
  ∧ (closure_split buffer max_users).1 = (take (Z.to_nat max_users) queue).*1
  ∧ (closure_split buffer max_users).2
    = filter (λ a, a ∉ (closure_split buffer max_users).1) rest
  ∧ (NoDup buffer.*1 → closure_split buffer max_users = spec_split buffer max_users).
Proof.
  intros Hk queue rest. repeat split.
  - by intros ?? -> ->.
  - apply sort_by_timestamp_perm.
  - apply sort_by_timestamp_sorted.
  - intros t. apply sort_by_timestamp_stable.
  - unfold closure_split, winners_of. simpl. by rewrite py_slice_nonneg.
  - unfold closure_split. simpl. by apply losers_of_rest.
  - intros Hnd. unfold closure_split, spec_split. fold queue.
    rewrite losers_of_rest by done. unfold winners_of.
    rewrite py_slice_nonneg by done. f_equal.
    apply filter_not_in_disjoint.
    assert (NoDup queue.*1) as Hq.
    { unfold queue. by rewrite sort_by_timestamp_perm. }
    rewrite <-(take_drop (Z.to_nat max_users) queue), fmap_app in Hq.
    apply NoDup_app in Hq as (_ & Hdis & _).
    intros a Ha Hw. by apply (Hdis a).
Qed.

Lemma closure_split_deterministic_witness :
  closure_split [(1, 5); (2, 3); (3, 5); (4, 3)] 2 = ([2; 4], [1; 3])
  ∧ closure_split [(1, 5); (2, 3); (3, 5); (4, 3)] 2
    = spec_split [(1, 5); (2, 3); (3, 5); (4, 3)] 2.
Proof.
  split; [reflexivity|].
  apply (closure_split_deterministic [(1, 5); (2, 3); (3, 5); (4, 3)] 2); [lia|].
  apply (bool_decide_unpack _). vm_compute. reflexivity.
Defined.

(** ** How the handlers move the world *)

Lemma set_given_users_id w : set_given_users (given_users w) w = w.
Proof. by destruct w. Qed.

Lemma set_last_triggered_id w : set_last_triggered (last_triggered w) w = w.
Proof. by destruct w. Qed.

Lemma grant_events_length o n winners role :
  length (grant_events o n winners role) = length winners.
Proof. revert n. induction winners; intros; simpl; by f_equal. Qed.

Lemma grant_events_attempts o n winners role :
  Forall2 (λ winner e, ∃ ok, e = Api (add_roles winner role) ok)
          winners (grant_events o n winners role).
Proof.
  revert n. induction winners; intros; simpl; constructor; eauto.
Qed.


Lemma successful_grants_app e1 e2 :
  successful_grants (e1 ++ e2) = successful_grants e1 ++ successful_grants e2.
Proof. apply omap_app. Qed.

Lemma same_guild_view_refl k : same_guild_view k k.
Proof. by repeat split. Qed.

Lemma same_guild_view_trans k1 k2 k3 :
  same_guild_view k1 k2 → same_guild_view k2 k3 → same_guild_view k1 k3.
Proof.
  intros (?&?&?&?) (?&?&?&?). repeat split; congruence.
Qed.

Lemma apply_call_guild_view c k : same_guild_view k (apply_call c k).
Proof.
  destruct c as [| m r | | |]; simpl; try (by repeat split).
  by destruct (has_role k m r).
Qed.

Lemma call_guild_view c σ : same_guild_view (cache σ) (cache (call c σ).2).
Proof.
  simpl. destruct (outcome σ _ c);
    [apply apply_call_guild_view | apply same_guild_view_refl].
Qed.

Lemma get_guild_view k k' g : same_guild_view k k' → get_guild k' g = get_guild k g.
Proof. intros (Hg&_). unfold get_guild. by rewrite Hg. Qed.

Lemma get_channel_view k k' g c :
  same_guild_view k k' → get_channel k' g c = get_channel k g c.
Proof. intros (_&Hc&_). unfold get_channel. by rewrite Hc. Qed.

Lemma get_role_view k k' g r : same_guild_view k k' → get_role k' g r = get_role k g r.
Proof. intros (_&_&Hr&_). unfold get_role. by rewrite Hr. Qed.

Lemma give_roles_spec winners role waiting σ :
  let r := give_roles winners role waiting σ in
  let grants := grant_events (outcome σ) (length (trace σ)) winners role in
  r.1 = set_given_users (given_users waiting ++ successful_grants grants) waiting
  ∧ trace r.2 = trace σ ++ grants
  ∧ db r.2 = db σ
  ∧ next_id r.2 = next_id σ
  ∧ guild_rows r.2 = guild_rows σ
  ∧ message_queue r.2 = message_queue σ
  ∧ outcome r.2 = outcome σ
  ∧ same_guild_view (cache σ) (cache r.2)
  ∧ overwrites (cache r.2) = overwrites (cache σ).
Proof.
  revert waiting σ. induction winners as [|w ws IH]; intros waiting σ.
  - simpl. rewrite !app_nil_r, set_given_users_id.
    by split_and!.
  - cbn [give_roles grant_events].
    destruct (call (add_roles w role) σ) as [ok σ1] eqn:Hcall.
    assert (ok = outcome σ (length (trace σ)) (add_roles w role)) as Hok
      by (by inversion Hcall).
    assert (σ1 = (call (add_roles w role) σ).2) as Hσ1 by (by rewrite Hcall).
    specialize (IH (if ok then set_given_users (given_users waiting ++ [w]) waiting
                    else waiting) σ1).
    cbv zeta in IH. destruct IH as (E1&E2&E3&E4&E5&E6&E7&E8&E9).
    assert (trace σ1 = trace σ ++ [Api (add_roles w role) ok]) as Ht
      by (by inversion Hcall).
    assert (outcome σ1 = outcome σ) as Ho by (by inversion Hcall).
    rewrite Ht, Ho, length_app in E1, E2. simpl in E1, E2.
    replace (length (trace σ) + 1)%nat with (S (length (trace σ))) in E1, E2 by lia.
    cbv zeta. rewrite E1, E2, E3, E4, E5, E6, E7, E9, <-Hok.
    split_and!.
    + unfold successful_grants. simpl. fold successful_grants.
      destruct ok; simpl; [|done].
      destruct waiting; simpl. by rewrite <-app_assoc.
    + by rewrite <-app_assoc.
    + by inversion Hcall.
    + by inversion Hcall.
    + by inversion Hcall.
    + by inversion Hcall.
    + by inversion Hcall.
    + eapply same_guild_view_trans; [|exact E8]. subst σ1. apply call_guild_view.
    + inversion Hcall. simpl. destruct (outcome σ _ _); [|done].
      simpl. by destruct (has_role _ _ _).
Qed.

Lemma save_db waiting σ : db (save waiting σ) = overwrite_row waiting (db σ).
Proof. done. Qed.

Lemma call_spec c σ :
  let r := call c σ in
  trace r.2 = trace σ ++ [Api c r.1]
  ∧ r.1 = outcome σ (length (trace σ)) c
  ∧ db r.2 = db σ
  ∧ next_id r.2 = next_id σ
  ∧ guild_rows r.2 = guild_rows σ
  ∧ message_queue r.2 = message_queue σ
  ∧ outcome r.2 = outcome σ
  ∧ same_guild_view (cache σ) (cache r.2).
Proof. split_and!; try done. apply call_guild_view. Qed.

Lemma call_send_cache ch e σ : cache (call (channel_send ch e) σ).2 = cache σ.
Proof. simpl. by destruct (outcome σ _ _). Qed.


Lemma close_channel_spec channel waiting buffer σ :
  let queue := sort_by_timestamp buffer in
  let winners := winners_of queue (max_users waiting) in
  let losers := losers_of queue (max_users waiting) in
  let n := length (trace σ) in
  let lock_ok := outcome σ n (set_permissions channel false) in
  let grants := grant_events (outcome σ) (S n) winners (role_id waiting) in
  let waiting' :=
    set_given_users (given_users waiting ++ successful_grants grants) waiting in
  let r := close_channel channel waiting buffer σ in
  ∃ sent_ok rest,
    trace r.2
    = trace σ ++ Api (set_permissions channel false) lock_ok :: grants
        ++ Saved waiting'
        :: Api (channel_send channel (WaitingClosed winners)) sent_ok :: rest
    ∧ (losers = [] → rest = [])
    ∧ (∀ e, e ∈ rest → ∃ ok, e = Api (channel_send channel (BetterLuck losers)) ok)
    ∧ db r.2 = overwrite_row waiting' (db σ)
    ∧ next_id r.2 = next_id σ
    ∧ guild_rows r.2 = guild_rows σ
    ∧ outcome r.2 = outcome σ
    ∧ same_guild_view (cache σ) (cache r.2)
    ∧ message_queue r.2
      = <[channel := if r.1 then queue else []]> (message_queue σ).
Proof.
  intros queue winners losers n lock_ok grants waiting' r.
  unfold r, close_channel.
  pose proof (call_spec (set_permissions channel false) σ) as Hlock.
  cbv zeta in Hlock.
  destruct (call (set_permissions channel false) σ) as [ok1 σ1].
  cbn [fst snd] in Hlock. destruct Hlock as (T1&K1&D1&N1&G1&Q1&O1&V1).
  cbn [fst snd]. fold queue. fold winners. fold losers.
  set (σ2 := set_message_queue (<[channel:=queue]> (message_queue σ1)) σ1).
  pose proof (give_roles_spec winners (role_id waiting) waiting σ2) as Hg.
  cbv zeta in Hg.
  destruct (give_roles winners (role_id waiting) waiting σ2) as [w3 σ3].
  cbn [fst snd] in Hg. destruct Hg as (E1&E2&E3&E4&E5&E6&E7&E8&E9).
  change (trace σ2) with (trace σ1) in E1, E2.
  change (outcome σ2) with (outcome σ1) in E1, E2.
  change (db σ2) with (db σ1) in E3.
  change (next_id σ2) with (next_id σ1) in E4.
  change (guild_rows σ2) with (guild_rows σ1) in E5.
  change (message_queue σ2) with (<[channel:=queue]> (message_queue σ1)) in E6.
  change (outcome σ2) with (outcome σ1) in E7.
  change (cache σ2) with (cache σ1) in E8.
  rewrite T1, O1, length_app in E1, E2. simpl in E1, E2.
  replace (length (trace σ) + 1)%nat with (S n) in E1, E2 by (unfold n; lia).
  rewrite K1 in E2. fold lock_ok in E2. fold grants in E1, E2.
  fold waiting' in E1. subst w3. clear E9. clear σ2.
  pose proof (call_spec (channel_send channel (WaitingClosed winners))
                (save waiting' σ3)) as Hsend.
  pose proof (call_send_cache channel (WaitingClosed winners) (save waiting' σ3))
    as Csend.
  cbv zeta in Hsend.
  destruct (call (channel_send channel (WaitingClosed winners)) (save waiting' σ3))
    as [ok σ5].
  cbn [fst snd] in Hsend, Csend. destruct Hsend as (T5&_&D5&N5&G5&Q5&O5&_).
  change (trace (save waiting' σ3)) with (trace σ3 ++ [Saved waiting']) in T5.
  change (db (save waiting' σ3)) with (overwrite_row waiting' (db σ3)) in D5.
  change (next_id (save waiting' σ3)) with (next_id σ3) in N5.
  change (guild_rows (save waiting' σ3)) with (guild_rows σ3) in G5.
  change (message_queue (save waiting' σ3)) with (message_queue σ3) in Q5.
  change (outcome (save waiting' σ3)) with (outcome σ3) in O5.
  change (cache (save waiting' σ3)) with (cache σ3) in Csend.
  assert (same_guild_view (cache σ) (cache σ5)) as V5.
  { rewrite Csend. eapply same_guild_view_trans; eassumption. }
  rewrite E2 in T5. rewrite E3, D1 in D5. rewrite E4, N1 in N5.
  rewrite E5, G1 in G5. rewrite E6, Q1 in Q5. rewrite E7, O1 in O5.
  assert (trace σ5 = trace σ ++ Api (set_permissions channel false) lock_ok
            :: grants ++ [Saved waiting';
                 Api (channel_send channel (WaitingClosed winners)) ok]) as Ht5.
  { rewrite T5. by rewrite <-!app_assoc. }
  clear T5.
  destruct ok; cbn [negb].
  - destruct losers as [|l ls] eqn:Hlosers.
    + cbn [negb fst snd]. exists true, []. split_and!; try done.
      all: try (intros e He; by apply elem_of_nil in He).
      cbn. by rewrite Q5, insert_insert_eq.
    + pose proof (call_spec (channel_send channel (BetterLuck (l :: ls))) σ5)
        as Hsend'.
      pose proof (call_send_cache channel (BetterLuck (l :: ls)) σ5) as Csend'.
      cbv zeta in Hsend'.
      destruct (call (channel_send channel (BetterLuck (l :: ls))) σ5)
        as [ok' σ6].
      cbn [fst snd] in Hsend', Csend'.
      destruct Hsend' as (T6&_&D6&N6&G6&Q6&O6&_).
      exists true, [Api (channel_send channel (BetterLuck (l :: ls))) ok'].
      assert (∀ e, e ∈ [Api (channel_send channel (BetterLuck (l :: ls))) ok']
                → ∃ ok0, e = Api (channel_send channel (BetterLuck (l :: ls))) ok0)
        as Hrest.
      { intros e He. apply list_elem_of_singleton in He. eauto. }
      assert (trace σ6 = trace σ ++ Api (set_permissions channel false) lock_ok
                :: grants ++ Saved waiting'
                :: Api (channel_send channel (WaitingClosed winners)) true
                :: [Api (channel_send channel (BetterLuck (l :: ls))) ok'])
        as Ht6.
      { rewrite T6, Ht5. rewrite <-!app_assoc. simpl. by rewrite <-!app_assoc. }
      destruct ok'; cbn [negb fst snd].
      * split_and!; cbn; try done; try congruence.
        all: try (by rewrite Csend').
        by rewrite Q6, Q5, insert_insert_eq.
      * split_and!; cbn; try done; try congruence.
  - cbn [fst snd]. exists false, []. split_and!; try done.
    all: intros e He; by apply elem_of_nil in He.
Qed.

(** ** C7: grant failures are isolated and not recorded *)

Lemma successful_grants_elem o n winners role member :
  member ∈ successful_grants (grant_events o n winners role)
  ↔ Api (add_roles member role) true ∈ grant_events o n winners role.
Proof.
  revert n. induction winners as [|w ws IH]; intros n.
  - simpl. unfold successful_grants. simpl. set_solver.
  - cbn [grant_events]. unfold successful_grants in *. cbn [omap].
    destruct (o n (add_roles w role)); simpl.
    + rewrite !elem_of_cons, IH. split; intros [H|H]; auto.
      * left. by subst.
      * left. by inversion H.
    + rewrite elem_of_cons, IH. split; [auto|]. by intros [H|H].
Qed.

(** C7: when a message makes the buffer reach the limit, the handler issues
    one [add_roles] for every winner, in order, whatever the outcome of the
    earlier ones; the ids appended to [given_users] are exactly the members
    whose [add_roles] returned; that record is what is saved. *)
Theorem grant_failures_isolated message guild current_date waiting σ :
  let channel := Message.channel message in
  let author := Message.author message in
  let buffer :=
    default [] (message_queue σ !! channel)
      ++ [(author, Message.created_at message)] in
  let winners := (closure_split buffer (max_users waiting)).1 in
  let σ' := (on_message_one message guild current_date waiting σ).2 in
  last_triggered waiting = Some current_date →
  get_role (cache σ) guild (role_id waiting) = true →
  has_role (cache σ) author (role_id waiting) = false →
  author ∉ given_users waiting →
  max_users waiting <= Z.of_nat (length buffer) →
  ∃ lock_ok grants waiting' rest,
    trace σ'
    = trace σ ++ Api (set_permissions channel false) lock_ok :: grants
        ++ Saved waiting' :: rest
    ∧ Forall2 (λ winner e, ∃ ok, e = Api (add_roles winner (role_id waiting)) ok)
              winners grants
    ∧ waiting'
      = set_given_users (given_users waiting ++ successful_grants grants) waiting
    ∧ (∀ member, member ∈ successful_grants grants
                 ↔ Api (add_roles member (role_id waiting)) true ∈ grants)
    ∧ db σ' = overwrite_row waiting' (db σ).
Proof.
  intros channel author buffer winners σ' Htoday Hrole Hhas Hgiven Hfull.
  unfold σ', on_message_one. fold channel. fold author.
  rewrite Htoday, bool_decide_eq_true_2 by done.
  rewrite Hrole, Hhas. cbn [negb].
  rewrite bool_decide_eq_false_2 by done.
  cbv zeta. fold buffer.
  destruct (Z.geb_spec (Z.of_nat (length buffer)) (max_users waiting)) as [_|]; [|lia].
  pose proof (close_channel_spec channel waiting buffer
                (set_message_queue (<[channel:=buffer]> (message_queue σ)) σ)) as H.
  cbv zeta in H. destruct H as (sent_ok & rest & Ht & _ & _ & Hdb & _).
  eexists _, _, _, _. split_and!.
  - exact Ht.
  - apply grant_events_attempts.
  - reflexivity.
  - intros member. apply successful_grants_elem.
  - exact Hdb.
Qed.

(** The second of two winners is refused: only the first is recorded, and
    both were attempted. *)
Lemma grant_failures_isolated_witness :
  let m := Demo.message 2 6 in
  let w := Demo.waiting in
  let σ := on_message (Demo.message 1 5) 100
             (Demo.world [w]
                (Demo.refusing (λ c, bool_decide (c = add_roles 2 30)))) in
  let σ' := (on_message_one m 10 100 w σ).2 in
  let winners :=
    (closure_split
       (default [] (message_queue σ !! Message.channel m)
          ++ [(Message.author m, Message.created_at m)]) (max_users w)).1 in
  (winners = [1; 2] ∧ given_users <$> db σ' = [[1]])
  ∧ ∃ lock_ok grants waiting' rest,
      trace σ'
      = trace σ ++ Api (set_permissions (Message.channel m) false) lock_ok
          :: grants ++ Saved waiting' :: rest
      ∧ Forall2 (λ winner e, ∃ ok, e = Api (add_roles winner (role_id w)) ok)
                winners grants
      ∧ waiting' = set_given_users (given_users w ++ successful_grants grants) w
      ∧ (∀ member, member ∈ successful_grants grants
                   ↔ Api (add_roles member (role_id w)) true ∈ grants)
      ∧ db σ' = overwrite_row waiting' (db σ).
Proof.
  intros m w σ σ' winners. split; [by vm_compute|].
  apply (grant_failures_isolated m 10 100 w σ).
  - reflexivity.
  - vm_compute. reflexivity.
  - vm_compute. reflexivity.
  - apply (bool_decide_unpack _). vm_compute. reflexivity.
  - apply Z.leb_le. vm_compute. reflexivity.
Defined.

(** ** C1: a participant can be granted twice *)

(** C1, at the failing input: the limit is two and participant 1 sends two
    messages before anyone else.  Neither guard of the handler sees the
    first message (the role is not held yet, [given_users] is still empty),
    so both are buffered, both win, and the id is recorded twice. *)
Theorem same_participant_granted_twice :
  let σ := Demo.world [Demo.waiting] Demo.all_ok in
  let σ' := on_messages [Demo.message 1 5; Demo.message 1 6] 100 σ in
  given_users <$> db σ' = [[1; 1]]
  ∧ ¬ NoDup [1; 1]
  ∧ trace σ'
    = [Api (set_permissions 20 false) true;
       Api (add_roles 1 30) true; Api (add_roles 1 30) true;
       Saved (set_given_users [1; 1] Demo.waiting);
       Api (channel_send 20 (WaitingClosed [1; 1])) true].
Proof.
  split_and!.
  - vm_compute. reflexivity.
  - intros Hnd. apply NoDup_cons in Hnd as [Hin _]. apply Hin. by left.
  - vm_compute. reflexivity.
Qed.

(** ** C2 and C9: activation *)

Lemma overwrite_row_elem waiting' waiting d :
  id waiting' = id waiting → waiting ∈ d → waiting' ∈ overwrite_row waiting' d.
Proof.
  intros Hid Hin. unfold overwrite_row. apply list_elem_of_fmap.
  exists waiting. rewrite Hid, Z.eqb_refl. done.
Qed.

Lemma apply_call_member_roles ch b k :
  member_roles (apply_call (set_permissions ch b) k) = member_roles k.
Proof. done. Qed.

Lemma activate_waiting_spec waiting current_date σ :
  resolves waiting σ →
  let channel := channel_id waiting in
  let σ' := activate_waiting waiting current_date σ in
  let open_ok := outcome σ (S (length (trace σ))) (set_permissions channel true) in
  ∃ rest,
    trace σ'
    = trace σ ++ Saved (activated current_date waiting)
        :: Api (set_permissions channel true) open_ok :: rest
    ∧ (if open_ok
       then ∃ embed ok, rest = [Api (channel_send channel embed) ok]
       else rest = [])
    ∧ db σ' = overwrite_row (activated current_date waiting) (db σ)
    ∧ message_queue σ' = <[channel := []]> (message_queue σ)
    ∧ member_roles (cache σ') = member_roles (cache σ)
    ∧ same_guild_view (cache σ) (cache σ')
    ∧ (open_ok = false → cache σ' = cache σ).
Proof.
  intros (Hg & Hc & Hr) channel σ' open_ok.
  unfold σ', activate_waiting. rewrite Hg, Hc, Hr. cbn [negb].
  fold (activated current_date waiting).
  change (channel_id (activated current_date waiting)) with channel.
  set (σ1 := set_message_queue _ _).
  pose proof (call_spec (set_permissions channel true) σ1) as Hcall.
  cbv zeta in Hcall.
  assert (cache (call (set_permissions channel true) σ1).2
          = if (call (set_permissions channel true) σ1).1
            then apply_call (set_permissions channel true) (cache σ)
            else cache σ) as Hcache by done.
  destruct (call (set_permissions channel true) σ1) as [ok σ2].
  cbn [fst snd] in Hcall, Hcache. destruct Hcall as (T&K&D&N&G&Q&O&V).
  change (trace σ1) with (trace σ ++ [Saved (activated current_date waiting)]) in T, K.
  change (outcome σ1) with (outcome σ) in K, O.
  change (db σ1) with (overwrite_row (activated current_date waiting) (db σ)) in D.
  change (message_queue σ1) with (<[channel := []]> (message_queue σ)) in Q.
  change (cache σ1) with (cache σ) in V.
  rewrite length_app in K. simpl in K.
  replace (length (trace σ) + 1)%nat with (S (length (trace σ))) in K by lia.
  fold open_ok in K. subst ok. cbv beta iota zeta.
  destruct open_ok eqn:Hopen; cbn [negb].
  - set (embed := WaitingOpened _ _ _).
    pose proof (call_spec (channel_send channel embed) σ2) as Hsend.
    pose proof (call_send_cache channel embed σ2) as Csend.
    cbv zeta in Hsend. destruct Hsend as (T'&_&D'&_&_&Q'&_&_).
    exists [Api (channel_send channel embed) (call (channel_send channel embed) σ2).1].
    split_and!.
    + rewrite T', T. rewrite <-!app_assoc. done.
    + eauto.
    + congruence.
    + congruence.
    + by rewrite Csend, Hcache.
    + rewrite Csend. done.
    + done.
  - exists []. split_and!; try done.
    + rewrite T. by rewrite <-!app_assoc.
    + by rewrite Hcache.
Qed.

Lemma check_one_skips `{PyStr} current_date hour minute waiting σ :
  last_triggered waiting = Some current_date →
  check_one current_date hour minute waiting σ = σ.
Proof.
  intros Hlast. unfold check_one.
  destruct (parse_time (trigger_time waiting)) as [[h m]|]; [|done].
  by rewrite bool_decide_eq_true_2.
Qed.

(** C2, counterexample: the scheduler reaches 13:57 on day 100, the record
    holds a grant from an earlier cycle and was never triggered, and the
    platform refuses to open the channel.  The record is written before the
    call: [given_users] and [last_triggered] have changed, and the next tick
    of the same minute does nothing. *)
Lemma failed_open_mutates_record :
  let w := set_last_triggered None (set_given_users [7] Demo.waiting) in
  let σ := Demo.world [w]
             (Demo.refusing (λ c, bool_decide (c = set_permissions 20 true))) in
  let σ' := @check_waiting ascii_builtins 100 13 57 σ in
  db σ = [w]
  ∧ db σ' = [Demo.waiting]
  ∧ given_users Demo.waiting ≠ given_users w
  ∧ last_triggered Demo.waiting ≠ last_triggered w
  ∧ trace σ' = [Saved Demo.waiting; Api (set_permissions 20 true) false]
  ∧ trace (@check_waiting ascii_builtins 100 13 57 σ') = trace σ'.
Proof. by vm_compute. Qed.

(** C2 (amended): when the platform refuses to open the channel, the
    activation stops there, without announcement; the record has already
    been saved with [given_users] empty and [last_triggered] set to the
    current date, the buffer of the channel has been emptied, and nothing is
    rolled back.  The scheduler therefore skips the record for the rest of
    that date: there is no retry. *)
Theorem failed_open_not_rolled_back `{PyStr} waiting current_date σ :
  resolves waiting σ →
  outcome σ (S (length (trace σ))) (set_permissions (channel_id waiting) true)
  = false →
  let σ' := activate_waiting waiting current_date σ in
  let waiting' := activated current_date waiting in
  trace σ'
  = trace σ ++ [Saved waiting'; Api (set_permissions (channel_id waiting) true) false]
  ∧ given_users waiting' = []
  ∧ last_triggered waiting' = Some current_date
  ∧ db σ' = overwrite_row waiting' (db σ)
  ∧ (waiting ∈ db σ → waiting' ∈ db σ')
  ∧ message_queue σ' = <[channel_id waiting := []]> (message_queue σ)
  ∧ cache σ' = cache σ
  ∧ (∀ hour minute σ'', check_one current_date hour minute waiting' σ'' = σ'').
Proof.
  intros Hres Hfail σ' waiting'.
  destruct (activate_waiting_spec waiting current_date σ Hres)
    as (rest & Ht & Hrest & Hdb & Hq & _ & _ & Hcache).
  rewrite Hfail in Ht, Hrest, Hcache. subst rest.
  split_and!; try done.
  - intros Hin. unfold σ'. rewrite Hdb. by apply (overwrite_row_elem _ waiting).
  - by apply Hcache.
  - intros hour minute σ''. by apply check_one_skips.
Qed.

Lemma failed_open_not_rolled_back_witness :
  let w := set_last_triggered None (set_given_users [7] Demo.waiting) in
  let σ := Demo.world [w]
             (Demo.refusing (λ c, bool_decide (c = set_permissions 20 true))) in
  let σ' := activate_waiting w 100 σ in
  let w' := activated 100 w in
  trace σ' = trace σ ++ [Saved w'; Api (set_permissions (channel_id w) true) false]
  ∧ given_users w' = []
  ∧ last_triggered w' = Some 100
  ∧ db σ' = overwrite_row w' (db σ)
  ∧ (w ∈ db σ → w' ∈ db σ')
  ∧ message_queue σ' = <[channel_id w := []]> (message_queue σ)
  ∧ cache σ' = cache σ
  ∧ (∀ hour minute σ'',
       @check_one ascii_builtins 100 hour minute w' σ'' = σ'').
Proof.
  intros w σ σ' w'.
  apply (@failed_open_not_rolled_back ascii_builtins w 100 σ).
  - by vm_compute.
  - by vm_compute.
Defined.

(** C9, counterexample: the record was triggered on day 100 and lists
    members 1 and 2, who hold role 30; channel 21 of the record has since
    been deleted.  The manual trigger answers that it triggered the
    configuration, but the activation returns before it writes anything:
    [given_users] is not reset, nothing is saved and nothing is called. *)
Lemma manual_trigger_unresolved :
  let w := {| id := 1; guild_id := 10; channel_id := 21; role_id := 30;
              trigger_time := "13:57"; max_users := 2; given_users := [1; 2];
              is_active := true; Models.created_at := 0;
              last_triggered := Some 100; ping_role_id := None;
              ping_type := "here" |} in
  let k := set_member_roles [(1, 30); (2, 30)] Demo.discord in
  let σ := {| db := [w]; next_id := 3; guild_rows := [];
              message_queue := ∅; cache := k; trace := [];
              outcome := Demo.all_ok |} in
  let r := wait_test 10 1 100 σ in
  r.1 = ManuallyTriggered 1
  ∧ db r.2 = [w]
  ∧ given_users <$> db r.2 = [[1; 2]]
  ∧ given_users <$> db r.2 ≠ [[]]
  ∧ trace r.2 = [].
Proof. by vm_compute. Qed.

(** C9 (amended): a manual trigger of a record that was already triggered
    on the current date, which the scheduler would skip, runs the
    activation all the same and always answers that it triggered the
    configuration.  When the guild, the channel and the role of the record
    resolve, the record is saved with [given_users] empty and
    [last_triggered] the current date, then the channel is opened and the
    announcement sent.  When one of them does not resolve, the activation
    returns before it writes anything and the world is as it was.  In both
    cases no [remove_roles] is issued and nobody's roles change. *)
Theorem manual_trigger_drops_grants `{PyStr} ctx_guild waiting_id current_date
    waiting σ :
  head (filter (λ w, id w = waiting_id ∧ guild_id w = ctx_guild) (db σ))
  = Some waiting →
  last_triggered waiting = Some current_date →
  let r := wait_test ctx_guild waiting_id current_date σ in
  let waiting' := activated current_date waiting in
  r.1 = ManuallyTriggered waiting_id
  ∧ (∀ hour minute, check_one current_date hour minute waiting σ = σ)
  ∧ member_roles (cache r.2) = member_roles (cache σ)
  ∧ (resolves waiting σ →
     given_users waiting' = []
     ∧ last_triggered waiting' = Some current_date
     ∧ (∃ open_ok rest,
          trace r.2
          = trace σ ++ Saved waiting'
              :: Api (set_permissions (channel_id waiting) true) open_ok :: rest
          ∧ ∀ e, e ∈ rest →
                 ∃ embed ok, e = Api (channel_send (channel_id waiting) embed) ok)
     ∧ db r.2 = overwrite_row waiting' (db σ)
     ∧ waiting' ∈ db r.2)
  ∧ (¬ resolves waiting σ → r.2 = σ).
Proof.
  intros Hfound Htoday r waiting'.
  assert (waiting ∈ db σ) as Hin.
  { apply head_Some_elem_of in Hfound.
    by apply list_elem_of_filter in Hfound as [_ ?]. }
  unfold r, wait_test. destruct (filter _ (db σ)) as [|w ws]; [done|].
  simpl in Hfound. injection Hfound as ->. cbn [fst snd].
  assert (¬ resolves waiting σ → activate_waiting waiting current_date σ = σ)
    as Hearly.
  { intros Hno. unfold activate_waiting.
    destruct (get_guild _ _) eqn:Hg; [|done].
    destruct (get_channel _ _ _) eqn:Hc; [|done].
    destruct (get_role _ _ _) eqn:Hr; [|done].
    exfalso. by apply Hno. }
  split_and!; try done.
  - intros hour minute. by apply check_one_skips.
  - destruct (decide (resolves waiting σ)) as [Hres|Hno].
    + by destruct (activate_waiting_spec waiting current_date σ Hres)
        as (rest & _ & _ & _ & _ & Hroles & _).
    + by rewrite (Hearly Hno).
  - intros Hres.
    destruct (activate_waiting_spec waiting current_date σ Hres)
      as (rest & Ht & Hrest & Hdb & _ & Hroles & _).
    split_and!; try done.
    + eexists _, rest. split; [exact Ht|].
      intros e He. destruct (outcome σ _ _).
      * destruct Hrest as (embed & ok & ->).
        apply list_elem_of_singleton in He. eauto.
      * subst rest. by apply elem_of_nil in He.
    + rewrite Hdb. by apply (overwrite_row_elem _ waiting).
Qed.

(** Members 1 and 2 were granted by the automatic run of day 100; the
    manual trigger of the same day empties the record and leaves their
    roles in place. *)
Lemma manual_trigger_drops_grants_witness :
  let w := set_given_users [1; 2] Demo.waiting in
  let k := set_member_roles [(1, 30); (2, 30)] Demo.discord in
  let σ := {| db := [w]; next_id := 3; guild_rows := [];
              message_queue := ∅; cache := k; trace := [];
              outcome := Demo.all_ok |} in
  let r := wait_test 10 1 100 σ in
  let w' := activated 100 w in
  (given_users <$> db r.2 = [[]]
   ∧ member_roles (cache r.2) = [(1, 30); (2, 30)])
  ∧ r.1 = ManuallyTriggered 1
  ∧ (∀ hour minute, @check_one ascii_builtins 100 hour minute w σ = σ)
  ∧ member_roles (cache r.2) = member_roles (cache σ)
  ∧ (resolves w σ →
     given_users w' = []
     ∧ last_triggered w' = Some 100
     ∧ (∃ open_ok rest,
          trace r.2
          = trace σ ++ Saved w'
              :: Api (set_permissions (channel_id w) true) open_ok :: rest
          ∧ ∀ e, e ∈ rest →
                 ∃ embed ok, e = Api (channel_send (channel_id w) embed) ok)
     ∧ db r.2 = overwrite_row w' (db σ)
     ∧ w' ∈ db r.2)
  ∧ (¬ resolves w σ → r.2 = σ).
Proof.
  intros w k σ r w'. split; [by vm_compute|].
  apply (@manual_trigger_drops_grants ascii_builtins 10 1 100 w σ).
  - by vm_compute.
  - reflexivity.
Defined.

(** ** C5: the daily reset *)


Lemma reset_row_empty w :
  given_users w = [] → reset_row w = set_last_triggered None w.
Proof. intros H. unfold reset_row. by rewrite <-H, set_given_users_id. Qed.

Lemma reset_row_fixed w :
  given_users w = [] → last_triggered w = None → reset_row w = w.
Proof.
  intros Hg Hl. rewrite reset_row_empty by done.
  by rewrite <-Hl, set_last_triggered_id.
Qed.

Lemma take_back_spec guild role users σ :
  let σ' := take_back guild role users σ in
  db σ' = db σ
  ∧ message_queue σ' = message_queue σ
  ∧ outcome σ' = outcome σ
  ∧ same_guild_view (cache σ) (cache σ').
Proof.
  revert σ. induction users as [|u us IH]; intros σ; cbn [take_back].
  - by split_and!.
  - cbv zeta.
    destruct (get_member (cache σ) guild u && has_role (cache σ) u role).
    + destruct (IH (call (remove_roles u role) σ).2) as (D & Q & O & V).
      destruct (call_spec (remove_roles u role) σ) as (_&_&D'&_&_&Q'&O'&V').
      split_and!; try congruence.
      eapply same_guild_view_trans; eassumption.
    + apply IH.
Qed.

Lemma reset_one_spec waiting σ :
  let σ' := reset_one waiting σ in
  db σ' = (if get_guild (cache σ) (guild_id waiting)
           then overwrite_row (reset_row waiting) (db σ) else db σ)
  ∧ message_queue σ' = message_queue σ
  ∧ outcome σ' = outcome σ
  ∧ same_guild_view (cache σ) (cache σ').
Proof.
  unfold reset_one. destruct (get_guild (cache σ) (guild_id waiting)); cbn [negb].
  2: { by split_and!. }
  cbv zeta. fold (reset_row waiting).
  set (σ1 := if get_role _ _ _ then _ else σ).
  assert (db σ1 = db σ ∧ message_queue σ1 = message_queue σ
          ∧ outcome σ1 = outcome σ ∧ same_guild_view (cache σ) (cache σ1))
    as (D1 & Q1 & O1 & V1).
  { unfold σ1. destruct (get_role _ _ _); [apply take_back_spec|].
    by split_and!. }
  change (cache (save (reset_row waiting) σ1)) with (cache σ1).
  destruct (get_channel (cache σ1) _ _).
  - destruct (call_spec (set_permissions (channel_id (reset_row waiting)) false)
                (save (reset_row waiting) σ1)) as (_&_&D&_&_&Q&O&V).
    rewrite D, Q, O. rewrite save_db, D1. split_and!; try done.
    eapply same_guild_view_trans; [exact V1|exact V].
  - rewrite save_db, D1. split_and!; done.
Qed.


Lemma same_id_same_row (d : list RoleWaiting) x y :
  NoDup (id <$> d) → x ∈ d → y ∈ d → id x = id y → x = y.
Proof.
  induction d as [|r d IH]; intros Hnd Hx Hy Hid; [by apply elem_of_nil in Hx|].
  rewrite fmap_cons in Hnd. apply NoDup_cons in Hnd as [Hr Hnd].
  apply elem_of_cons in Hx as [->|Hx]; apply elem_of_cons in Hy as [->|Hy].
  - done.
  - exfalso. apply Hr. rewrite Hid. by apply list_elem_of_fmap_2.
  - exfalso. apply Hr. rewrite <-Hid. by apply list_elem_of_fmap_2.
  - by apply IH.
Qed.







(** ** C6: below the limit nothing is closed *)












(** ** C3: a burst of exactly [max_users] arrivals *)







(** ** C8 and C10: the setup wizard *)

Section Setup.
Context `{PyStr}.

Lemma parse_time_Some s hour minute :
  parse_time s = Some (hour, minute)
  ↔ ∃ a b, py_split ":" s = [a; b] ∧ py_int a = Some hour ∧ py_int b = Some minute.
Proof.
  unfold parse_time. split.
  - destruct (py_split ":" s) as [|a [|b [|c l]]]; simpl; try done.
    + by destruct (py_int a).
    + destruct (py_int a) eqn:Ea, (py_int b) eqn:Eb; try done.
      intros [= -> ->]. by exists a, b.
    + by destruct (py_int a), (py_int b).
  - intros (a & b & -> & Ea & Eb). simpl. by rewrite Ea, Eb.
Qed.

Lemma ask_time_accepts ans :
  (∃ s, ask_time ans = inr s) ↔ ∃ t, time_msg ans = Some t ∧ time_accepted t.
Proof.
  unfold ask_time, wait_for, convert, require, mbind, wizard_bind. split.
  - intros (s & Hs). destruct (time_msg ans) as [t|]; [|done].
    exists t. split; [done|].
    destruct (parse_time (py_strip t)) as [[hour minute]|] eqn:Hp; [|done].
    apply parse_time_Some in Hp as (a & b & Hsplit & Ha & Hb).
    destruct ((0 <=? hour) && (hour <=? 23) && (0 <=? minute) && (minute <=? 59))
      eqn:Hbounds; [|done].
    exists a, b, hour, minute. split_and!; try done; lia.
  - intros (t & -> & (a & b & hour & minute & Hsplit & Ha & Hb & Hh & Hm)).
    assert (parse_time (py_strip t) = Some (hour, minute)) as ->
      by (apply parse_time_Some; by exists a, b).
    assert ((0 <=? hour) && (hour <=? 23) && (0 <=? minute) && (minute <=? 59) = true)
      as -> by lia.
    by eexists.
Qed.

Lemma ask_time_rejects ans t :
  time_msg ans = Some t → ¬ time_accepted t → ask_time ans = inl InvalidTimeFormat.
Proof.
  intros Ht Hbad.
  destruct (ask_time ans) as [err|s] eqn:Hask.
  - revert Hask. unfold ask_time, wait_for, convert, require, mbind, wizard_bind.
    rewrite Ht. destruct (parse_time (py_strip t)) as [[hour minute]|]; [|congruence].
    destruct (_ && _); [done|congruence].
  - exfalso. apply Hbad.
    destruct (proj1 (ask_time_accepts ans)) as (t' & Ht' & Hacc); [by eexists|].
    congruence.
Qed.

Lemma ask_limit_accepts ans :
  (∃ n, ask_limit ans = inr n) ↔ ∃ l, limit_msg ans = Some l ∧ limit_accepted l.
Proof.
  unfold ask_limit, wait_for, convert, require, mbind, wizard_bind. split.
  - intros (n & Hn). destruct (limit_msg ans) as [l|]; [|done].
    exists l. split; [done|].
    destruct (py_int (py_strip l)) as [user_limit|] eqn:Hp; [|done].
    destruct (negb ((user_limit <? 1) || (user_limit >? 1000))) eqn:Hbounds; [|done].
    exists user_limit. split; [done|]. lia.
  - intros (l & -> & (user_limit & -> & Hb)).
    assert (negb ((user_limit <? 1) || (user_limit >? 1000)) = true) as -> by lia.
    by eexists.
Qed.

Lemma ask_limit_rejects ans l :
  limit_msg ans = Some l → ¬ limit_accepted l → ask_limit ans = inl InvalidNumber.
Proof.
  intros Hl Hbad.
  destruct (ask_limit ans) as [err|n] eqn:Hask.
  - revert Hask. unfold ask_limit, wait_for, convert, require, mbind, wizard_bind.
    rewrite Hl. destruct (py_int (py_strip l)) as [user_limit|]; [|congruence].
    destruct (negb _); [done|congruence].
  - exfalso. apply Hbad.
    destruct (proj1 (ask_limit_accepts ans)) as (l' & Hl' & Hacc); [by eexists|].
    congruence.
Qed.

(** The prompts in order: a reply is only read once the earlier steps have
    passed, and the first failing step decides the error. *)
Lemma wizard_inr ctx ans cfg :
  wizard ctx ans = inr cfg →
  (∃ s, ask_time ans = inr s) ∧ (∃ n, ask_limit ans = inr n).
Proof.
  unfold wizard, mbind, wizard_bind.
  destruct (wait_for (channel_msg ans)); [done|].
  destruct (convert _ _); [done|].
  destruct (ask_time ans); [done|].
  destruct (ask_role ctx ans); [done|].
  destruct (ask_limit ans); [done|].
  intros _. split; by eexists.
Qed.

Lemma wizard_time_error ctx ans :
  ask_time ans = inl InvalidTimeFormat →
  ∃ err, wizard ctx ans = inl err
         ∧ (err = InvalidTimeFormat ∨ stops_before_time err).
Proof.
  intros Ht. unfold wizard, mbind, wizard_bind, stops_before_time.
  unfold wait_for, convert.
  destruct (channel_msg ans); [|eauto].
  destruct (Ctx.TextChannelConverter ctx _); [|eauto].
  rewrite Ht. eauto.
Qed.

Lemma wizard_limit_error ctx ans :
  ask_limit ans = inl InvalidNumber →
  ∃ err, wizard ctx ans = inl err
         ∧ (err = InvalidNumber ∨ stops_before_limit err).
Proof.
  intros Hl. unfold wizard, mbind, wizard_bind.
  unfold stops_before_limit, stops_before_time.
  unfold wait_for at 1. unfold convert at 1.
  destruct (channel_msg ans); [|eauto 6].
  destruct (Ctx.TextChannelConverter ctx _); [|eauto 6].
  destruct (ask_time ans) as [e|trigger] eqn:Htime.
  { exists e. split; [done|]. right.
    revert Htime. unfold ask_time, wait_for, convert, require, mbind, wizard_bind.
    destruct (time_msg ans); [|intros [= <-]; eauto].
    destruct (parse_time _) as [[??]|]; [|intros [= <-]; eauto].
    destruct (_ && _); [done|intros [= <-]; eauto]. }
  destruct (ask_role ctx ans) as [e|role] eqn:Hrole.
  { exists e. split; [done|]. right.
    revert Hrole. unfold ask_role, wait_for, convert, require, mbind, wizard_bind.
    destruct (role_msg ans); [|intros [= <-]; eauto].
    destruct (Ctx.RoleConverter ctx _); [|intros [= <-]; eauto 6].
    destruct (negb (Ctx.above_me ctx _)); [|intros [= <-]; eauto 8].
    destruct (negb (_ && _)); [done|intros [= <-]; eauto 10]. }
  rewrite Hl. eauto.
Qed.

(** Whatever the result, the table changes only when the wizard completes,
    and then by one created row. *)
Lemma wait_setup_table ctx ans now σ :
  let r := wait_setup ctx ans now σ in
  (∃ w, r.1 = SetupComplete w ∧ db r.2 = db σ ++ [w] ∧ id w = next_id σ
        ∧ ∃ cfg, wizard ctx ans = inr cfg)
  ∨ ((∀ w, r.1 ≠ SetupComplete w) ∧ db r.2 = db σ ∧ next_id r.2 = next_id σ).
Proof.
  unfold wait_setup.
  destruct (Guild_get (Ctx.guild ctx) σ) as [guild_data|]; [|by right].
  destruct (negb (is_premium guild_data) && _); [by right|].
  destruct (wizard ctx ans) as [err|[[[[channel trigger] role] user_limit] [pr pt]]]
    eqn:Hwiz.
  { right. split_and!; try done. intros w Hw. cbn in Hw. subst err.
    revert Hwiz. unfold wizard, mbind, wizard_bind.
    unfold wait_for at 1. unfold convert at 1.
    destruct (channel_msg ans); [|done].
    destruct (Ctx.TextChannelConverter ctx _); [|done].
    destruct (ask_time ans) as [e|?] eqn:E1.
    { intros [= ->]. revert E1.
      unfold ask_time, wait_for, convert, require, mbind, wizard_bind.
      destruct (time_msg ans); [|done].
      destruct (parse_time _) as [[??]|]; [|done]. by destruct (_ && _). }
    destruct (ask_role ctx ans) as [e|?] eqn:E2.
    { intros [= ->]. revert E2.
      unfold ask_role, wait_for, convert, require, mbind, wizard_bind.
      destruct (role_msg ans); [|done].
      destruct (Ctx.RoleConverter ctx _); [|done].
      destruct (negb (Ctx.above_me ctx _)); [|done]. by destruct (negb (_ && _)). }
    destruct (ask_limit ans) as [e|?] eqn:E3.
    { intros [= ->]. revert E3.
      unfold ask_limit, wait_for, convert, require, mbind, wizard_bind.
      destruct (limit_msg ans); [|done].
      destruct (py_int _); [|done]. by destruct (negb _). }
    destruct (ask_ping ctx ans) as [e|?] eqn:E4; [|done].
    intros [= ->]. revert E4. unfold ask_ping, convert, mbind, wizard_bind.
    destruct (ping_msg ans); [|done].
    repeat (destruct (String.eqb _ _); [done|]).
    by destruct (Ctx.RoleConverter ctx _). }
  destruct (call_spec (set_permissions channel false) σ) as (_&_&D&N&_).
  destruct (call (set_permissions channel false) σ) as [ok σ1].
  cbn [fst snd] in D, N. destruct ok; cbn [negb].
  - left. eexists. cbn. rewrite D, N. split_and!; try done. by eexists.
  - right. by split_and!.
Qed.

(** C8: the wizard creates a record only when the reply to the time prompt
    splits at one colon into two integers with 0 <= hour <= 23 and
    0 <= minute <= 59 and the reply to the limit prompt is an integer with
    1 <= limit <= 1000.  Otherwise the command returns an error and the
    world is exactly as before: no record created or changed, no call made.
    A rejected time gives [InvalidTimeFormat] and a rejected limit
    [InvalidNumber], unless an earlier prompt had already ended the
    command. *)
Theorem setup_validation ctx ans now σ :
  let r := wait_setup ctx ans now σ in
  (db r.2 ≠ db σ → valid_input ans)
  ∧ (∀ w, r.1 = SetupComplete w → valid_input ans)
  ∧ (¬ valid_input ans → r.2 = σ ∧ ∀ w, r.1 ≠ SetupComplete w)
  ∧ (∀ t, time_msg ans = Some t → ¬ time_accepted t →
          r.1 = InvalidTimeFormat ∨ stops_before_time r.1
          ∨ r.1 = GuildDoesNotExist ∨ ∃ n, r.1 = FreeLimitReached n)
  ∧ (∀ l, limit_msg ans = Some l → ¬ limit_accepted l →
          r.1 = InvalidNumber ∨ stops_before_limit r.1
          ∨ r.1 = GuildDoesNotExist ∨ ∃ n, r.1 = FreeLimitReached n).
Proof.
  intros r.
  assert (∀ cfg, wizard ctx ans = inr cfg → valid_input ans) as Hvalid.
  { intros cfg Hcfg. apply wizard_inr in Hcfg as (Ht & Hl).
    split; [by apply ask_time_accepts|by apply ask_limit_accepts]. }
  assert (∀ w, r.1 = SetupComplete w → valid_input ans) as Hcomplete.
  { intros w Hw.
    destruct (wait_setup_table ctx ans now σ) as [(w' & _ & _ & _ & cfg & Hcfg)|(Hno & _)].
    - by apply (Hvalid cfg).
    - by destruct (Hno w). }
  split_and!.
  - intros Hdb.
    destruct (wait_setup_table ctx ans now σ) as [(w' & _ & _ & _ & cfg & Hcfg)|(_ & D & _)].
    + by apply (Hvalid cfg).
    + by destruct Hdb.
  - exact Hcomplete.
  - intros Hbad. split; [|intros w Hw; by apply Hbad, (Hcomplete w)].
    unfold r, wait_setup.
    destruct (Guild_get (Ctx.guild ctx) σ) as [guild_data|]; [|done].
    destruct (negb (is_premium guild_data) && _); [done|].
    destruct (wizard ctx ans) as [err|cfg] eqn:Hwiz; [done|].
    by destruct Hbad, (Hvalid cfg).
  - intros t Ht Hbad. unfold r, wait_setup.
    destruct (Guild_get (Ctx.guild ctx) σ) as [guild_data|]; [|cbn; eauto].
    destruct (negb (is_premium guild_data) && _); [cbn; eauto 6|].
    destruct (wizard_time_error ctx ans (ask_time_rejects ans t Ht Hbad))
      as (err & -> & Herr).
    cbn. destruct Herr; eauto.
  - intros l Hl Hbad. unfold r, wait_setup.
    destruct (Guild_get (Ctx.guild ctx) σ) as [guild_data|]; [|cbn; eauto].
    destruct (negb (is_premium guild_data) && _); [cbn; eauto 6|].
    destruct (wizard_limit_error ctx ans (ask_limit_rejects ans l Hl Hbad))
      as (err & -> & Herr).
    cbn. destruct Herr; eauto.
Qed.

(** C10: the count behind the premium check is over every configuration of
    the guild, active or not.  A guild that is not premium and has two or
    more of them gets the limit error and the world is untouched; for a
    premium guild the limit error is never returned, whatever the count. *)
Theorem premium_gate ctx ans now σ guild_data :
  Guild_get (Ctx.guild ctx) σ = Some guild_data →
  let r := wait_setup ctx ans now σ in
  let current_count := count_waitings (Ctx.guild ctx) σ in
  current_count
  = Z.of_nat (length (filter (λ w, guild_id w = Ctx.guild ctx) (db σ)))
  ∧ (is_premium guild_data = false → 2 <= current_count →
     r = (FreeLimitReached current_count, σ))
  ∧ (is_premium guild_data = true → ∀ n, r.1 ≠ FreeLimitReached n).
Proof.
  intros Hguild r current_count. split; [done|]. split.
  - intros Hfree Hcount. unfold r, wait_setup. rewrite Hguild, Hfree. cbn [negb andb].
    fold current_count. by destruct (Z.geb_spec current_count 2); [|lia].
  - intros Hpremium n Hn.
    destruct (wait_setup_table ctx ans now σ) as [(w & Hw & _)|_].
    { fold r in Hw. congruence. }
    revert Hn. unfold r, wait_setup. rewrite Hguild, Hpremium. cbn [negb andb].
    destruct (wizard ctx ans) as [err|[[[[channel trigger] role] user_limit] [pr pt]]]
      eqn:Hwiz.
    + cbn. intros ->. revert Hwiz. unfold wizard, mbind, wizard_bind.
      unfold wait_for at 1. unfold convert at 1.
      destruct (channel_msg ans); [|done].
      destruct (Ctx.TextChannelConverter ctx _); [|done].
      destruct (ask_time ans) as [e|?] eqn:E1.
      { intros [= ->]. revert E1.
        unfold ask_time, wait_for, convert, require, mbind, wizard_bind.
        destruct (time_msg ans); [|done].
        destruct (parse_time _) as [[??]|]; [|done]. by destruct (_ && _). }
      destruct (ask_role ctx ans) as [e|?] eqn:E2.
      { intros [= ->]. revert E2.
        unfold ask_role, wait_for, convert, require, mbind, wizard_bind.
        destruct (role_msg ans); [|done].
        destruct (Ctx.RoleConverter ctx _); [|done].
        destruct (negb (Ctx.above_me ctx _)); [|done]. by destruct (negb (_ && _)). }
      destruct (ask_limit ans) as [e|?] eqn:E3.
      { intros [= ->]. revert E3.
        unfold ask_limit, wait_for, convert, require, mbind, wizard_bind.
        destruct (limit_msg ans); [|done].
        destruct (py_int _); [|done]. by destruct (negb _). }
      destruct (ask_ping ctx ans) as [e|?] eqn:E4; [|done].
      intros [= ->]. revert E4. unfold ask_ping, convert, mbind, wizard_bind.
      destruct (ping_msg ans); [|done].
      repeat (destruct (String.eqb _ _); [done|]).
      by destruct (Ctx.RoleConverter ctx _).
    + destruct (call (set_permissions channel false) σ) as [[] σ1]; cbn; done.
Qed.

End Setup.

(** [24:00] is refused and nothing happens; [7:5] with limit 50 creates
    the record [07:05]. *)
Lemma setup_validation_witness :
  let σ := Demo.world [] Demo.all_ok in
  let bad := DemoSetup.answers "24:00" "50" in
  let good := DemoSetup.answers " 7:5 " "50" in
  let r := @wait_setup ascii_builtins (DemoSetup.ctx 10) bad 0 σ in
  let r' := @wait_setup ascii_builtins (DemoSetup.ctx 10) good 0 σ in
  (r.1 = InvalidTimeFormat
   ∧ trigger_time <$> db r'.2 = ["07:05"%string]
   ∧ max_users <$> db r'.2 = [50])
  ∧ r.2 = σ ∧ ∀ w, r.1 ≠ SetupComplete w.
Proof.
  intros σ bad good r r'. split; [by vm_compute|].
  apply (@setup_validation ascii_builtins (DemoSetup.ctx 10) bad 0 σ).
  intros ((t & Ht & (a & b & hour & minute & Hsplit & Ha & Hb & Hh & Hm)) & _).
  injection Ht as <-. vm_compute in Hsplit. injection Hsplit as <- <-.
  vm_compute in Ha. injection Ha as <-. lia.
Defined.

(** Guild 10 is not premium and has two stopped configurations: refused.
    Guild 11 is premium and has three: the wizard completes. *)
Lemma premium_gate_witness :
  let free := Demo.world [DemoSetup.stopped 1 10; DemoSetup.stopped 2 10] Demo.all_ok in
  let paid :=
    Demo.world [DemoSetup.stopped 1 11; DemoSetup.stopped 2 11; DemoSetup.stopped 3 11]
      Demo.all_ok in
  let ans := DemoSetup.answers "13:57" "50" in
  let r := @wait_setup ascii_builtins (DemoSetup.ctx 10) ans 0 free in
  let r' := @wait_setup ascii_builtins (DemoSetup.ctx 11) ans 0 paid in
  (length (db r'.2) = 4%nat)
  ∧ r = (FreeLimitReached (count_waitings 10 free), free)
  ∧ ∀ n, r'.1 ≠ FreeLimitReached n.
Proof.
  intros free paid ans r r'. split; [by vm_compute|]. split.
  - apply (@premium_gate ascii_builtins (DemoSetup.ctx 10) ans 0 free
             {| guild_pk := 10; is_premium := false |}).
    + by vm_compute.
    + reflexivity.
    + by vm_compute.
  - apply (@premium_gate ascii_builtins (DemoSetup.ctx 11) ans 0 paid
             {| guild_pk := 11; is_premium := true |}).
    + by vm_compute.
    + reflexivity.
Defined.

(** * Further properties of the cog *)

(** ** The closing block: first come, first served *)

Lemma py_slice_to_from {A} (l : list A) k : py_slice_to l k ++ py_slice_from l k = l.
Proof. unfold py_slice_to, py_slice_from. destruct (0 <=? k); apply take_drop. Qed.

(** X1: when a channel closes, no entry left out of the winners' slice of
    the queue has an earlier timestamp than an entry inside it, and the
    two parts together are the whole queue. *)
Theorem winners_not_later_than_rest buffer max_users winner other :
  let queue := sort_by_timestamp buffer in
  winner ∈ py_slice_to queue max_users →
  other ∈ py_slice_from queue max_users →
  winner.2 <= other.2
  ∧ winners_of queue max_users = (py_slice_to queue max_users).*1
  ∧ py_slice_to queue max_users ++ py_slice_from queue max_users ≡ₚ buffer.
Proof.
  intros queue Hw Ho. split_and!.
  - pose proof (sort_by_timestamp_sorted buffer) as Hsorted. fold queue in Hsorted.
    rewrite <-(py_slice_to_from queue max_users) in Hsorted.
    by apply (StronglySorted_app_1_elem_of _ _ _ _ _ Hsorted).
  - done.
  - rewrite py_slice_to_from. apply sort_by_timestamp_perm.
Qed.

Lemma winners_not_later_than_rest_witness :
  let queue := sort_by_timestamp [(1, 5); (2, 3); (3, 4)] in
  (queue = [(2, 3); (3, 4); (1, 5)])
  ∧ (3, 4).2 <= (1, 5).2
  ∧ winners_of queue 2 = (py_slice_to queue 2).*1
  ∧ py_slice_to queue 2 ++ py_slice_from queue 2 ≡ₚ [(1, 5); (2, 3); (3, 4)].
Proof.
  intros queue. split; [reflexivity|].
  apply (winners_not_later_than_rest [(1, 5); (2, 3); (3, 4)] 2 (3, 4) (1, 5)).
  - apply (bool_decide_unpack _). by vm_compute.
  - apply (bool_decide_unpack _). by vm_compute.
Defined.

Lemma successful_grants_length events :
  (length (successful_grants events) ≤ length events)%nat.
Proof.
  unfold successful_grants. induction events as [|e es IH]; simpl; [lia|].
  unfold omap in IH.
  destruct e as [w|w|c ok]; simpl; [lia|lia|].
  destruct c, ok; simpl; lia.
Qed.

Lemma grant_events_members o n winners role :
  Forall (λ e, ∃ winner ok, e = Api (add_roles winner role) ok ∧ winner ∈ winners)
         (grant_events o n winners role).
Proof.
  revert n. induction winners as [|w ws IH]; intros n; simpl; constructor.
  - exists w, (o n (add_roles w role)). split; [done|by left].
  - eapply Forall_impl; [apply IH|]. intros e (w' & ok & -> & Hin).
    exists w', ok. split; [done|by right].
Qed.

(** X2: one closing issues [min(max_users, len(queue))] grants, all of them
    to authors of buffered messages and for the role of the configuration,
    and nothing after the save but announcements; the record gains at most
    that many ids. *)
Theorem closure_grants_bounded channel waiting buffer σ :
  0 <= max_users waiting →
  let r := close_channel channel waiting buffer σ in
  ∃ lock_ok grants waiting' rest,
    trace r.2
    = trace σ ++ Api (set_permissions channel false) lock_ok :: grants
        ++ Saved waiting' :: rest
    ∧ Forall (λ e, ∃ winner ok, e = Api (add_roles winner (role_id waiting)) ok
                                ∧ winner ∈ buffer.*1) grants
    ∧ Forall (λ e, ∃ embed ok, e = Api (channel_send channel embed) ok) rest
    ∧ length grants = Nat.min (Z.to_nat (max_users waiting)) (length buffer)
    ∧ given_users waiting' = given_users waiting ++ successful_grants grants
    ∧ (length (given_users waiting')
       ≤ length (given_users waiting) + Z.to_nat (max_users waiting))%nat.
Proof.
  intros Hk r.
  destruct (close_channel_spec channel waiting buffer σ)
    as (sent_ok & rest & Ht & _ & Hrest & _).
  fold r in Ht.
  set (queue := sort_by_timestamp buffer) in *.
  set (winners := winners_of queue (max_users waiting)) in *.
  set (grants := grant_events (outcome σ) (S (length (trace σ))) winners
                   (role_id waiting)) in *.
  assert (length grants = Nat.min (Z.to_nat (max_users waiting)) (length buffer))
    as Hlen.
  { unfold grants. rewrite grant_events_length. unfold winners, winners_of.
    rewrite py_slice_nonneg by done.
    unfold queue. by rewrite length_fmap, length_take, sort_by_timestamp_length. }
  eexists _, grants, _, _. split_and!.
  - exact Ht.
  - eapply Forall_impl; [apply grant_events_members|].
    intros e (w & ok & -> & Hin). exists w, ok. split; [done|].
    unfold winners, winners_of in Hin.
    apply list_elem_of_fmap in Hin as (x & -> & Hx).
    apply list_elem_of_fmap. exists x. split; [done|].
    rewrite py_slice_nonneg in Hx by done. apply elem_of_take in Hx as (i & Hx & _).
    apply list_elem_of_lookup_2 in Hx.
    unfold queue in Hx. by rewrite sort_by_timestamp_perm in Hx.
  - constructor; [by eauto|].
    apply Forall_forall. intros e He. destruct (Hrest e He) as (ok & ->). eauto.
  - done.
  - done.
  - cbn [given_users set_given_users]. rewrite length_app.
    pose proof (successful_grants_length grants). lia.
Qed.

(** Limit two, three entries in the queue, the grant to member 3 refused. *)
Lemma closure_grants_bounded_witness :
  let σ := Demo.world [Demo.waiting]
             (Demo.refusing (λ c, bool_decide (c = add_roles 3 30))) in
  let buffer := [(1, 5); (2, 3); (3, 4)] in
  let r := close_channel 20 Demo.waiting buffer σ in
  given_users <$> db r.2 = [[2]]
  ∧ ∃ lock_ok grants waiting' rest,
      trace r.2
      = trace σ ++ Api (set_permissions 20 false) lock_ok :: grants
          ++ Saved waiting' :: rest
      ∧ Forall (λ e, ∃ winner ok, e = Api (add_roles winner (role_id Demo.waiting)) ok
                                  ∧ winner ∈ buffer.*1) grants
      ∧ Forall (λ e, ∃ embed ok, e = Api (channel_send 20 embed) ok) rest
      ∧ length grants
        = Nat.min (Z.to_nat (max_users Demo.waiting)) (length buffer)
      ∧ given_users waiting' = given_users Demo.waiting ++ successful_grants grants
      ∧ (length (given_users waiting')
         ≤ length (given_users Demo.waiting)
           + Z.to_nat (max_users Demo.waiting))%nat.
Proof.
  intros σ buffer r. split; [by vm_compute|].
  apply (closure_grants_bounded 20 Demo.waiting buffer σ). by vm_compute.
Defined.

(** ** The trigger time, from the wizard to the scheduler *)

Lemma parse_time_fmt hour minute :
  0 <= hour <= 23 → 0 <= minute <= 59 →
  @parse_time ascii_builtins (fmt_02d hour ++ ":" ++ fmt_02d minute)
  = Some (hour, minute).
Proof.
  intros Hh Hm.
  assert (Forall (λ h, Forall (λ m,
            @parse_time ascii_builtins (fmt_02d h ++ ":" ++ fmt_02d m)
            = Some (h, m))
            (seqZ 0 60)) (seqZ 0 24)) as Hall.
  { apply (bool_decide_unpack _). by vm_compute. }
  rewrite Forall_seqZ in Hall.
  assert (0 <= hour < 0 + 24) as Hh' by lia. specialize (Hall hour Hh').
  rewrite Forall_seqZ in Hall. apply Hall. lia.
Qed.

(** X3: the string that setup and edit store for an hour and a minute of
    the day has five characters, the width of the column, and the parser
    of the scheduler reads the same hour and minute back from it. *)
Theorem trigger_time_round_trip hour minute :
  0 <= hour <= 23 → 0 <= minute <= 59 →
  let s := (fmt_02d hour ++ ":" ++ fmt_02d minute)%string in
  @parse_time ascii_builtins s = Some (hour, minute) ∧ String.length s = 5%nat.
Proof.
  intros Hh Hm. split; [by apply parse_time_fmt|].
  assert (Forall (λ h, Forall (λ m,
            String.length (fmt_02d h ++ ":" ++ fmt_02d m) = 5%nat)
            (seqZ 0 60)) (seqZ 0 24)) as Hall.
  { apply (bool_decide_unpack _). by vm_compute. }
  rewrite Forall_seqZ in Hall.
  assert (0 <= hour < 0 + 24) as Hh' by lia. specialize (Hall hour Hh').
  rewrite Forall_seqZ in Hall. apply Hall. lia.
Qed.

Lemma trigger_time_round_trip_witness :
  @parse_time ascii_builtins (fmt_02d 7 ++ ":" ++ fmt_02d 5) = Some (7, 5)
  ∧ String.length (fmt_02d 7 ++ ":" ++ fmt_02d 5) = 5%nat.
Proof. apply (trigger_time_round_trip 7 5); lia. Defined.

Section SetupShape.
Context `{PyStr}.

Lemma ask_time_inr ans s :
  ask_time ans = inr s →
  ∃ content hour minute,
    time_msg ans = Some content
    ∧ parse_time (py_strip content) = Some (hour, minute)
    ∧ 0 <= hour <= 23 ∧ 0 <= minute <= 59
    ∧ s = (fmt_02d hour ++ ":" ++ fmt_02d minute)%string.
Proof.
  unfold ask_time, wait_for, convert, require, mbind, wizard_bind.
  destruct (time_msg ans) as [content|]; [|done].
  destruct (parse_time (py_strip content)) as [[hour minute]|] eqn:Hp; [|done].
  destruct ((0 <=? hour) && (hour <=? 23) && (0 <=? minute) && (minute <=? 59))
    eqn:Hb; [|done].
  intros [= <-]. exists content, hour, minute. split_and!; try done; lia.
Qed.

Lemma ask_limit_inr ans n :
  ask_limit ans = inr n → 1 <= n <= 1000.
Proof.
  unfold ask_limit, wait_for, convert, require, mbind, wizard_bind.
  destruct (limit_msg ans) as [content|]; [|done].
  destruct (py_int (py_strip content)) as [user_limit|]; [|done].
  destruct (negb ((user_limit <? 1) || (user_limit >? 1000))) eqn:Hb; [|done].
  intros [= <-]. lia.
Qed.

Lemma wizard_error_not_complete ctx ans err w :
  wizard ctx ans = inl err → err ≠ SetupComplete w.
Proof.
  intros Hwiz ->. revert Hwiz. unfold wizard, mbind, wizard_bind.
  unfold wait_for at 1. unfold convert at 1.
  destruct (channel_msg ans); [|done].
  destruct (Ctx.TextChannelConverter ctx _); [|done].
  destruct (ask_time ans) as [e|?] eqn:E1.
  { intros [= ->]. revert E1.
    unfold ask_time, wait_for, convert, require, mbind, wizard_bind.
    destruct (time_msg ans); [|done].
    destruct (parse_time _) as [[??]|]; [|done]. by destruct (_ && _). }
  destruct (ask_role ctx ans) as [e|?] eqn:E2.
  { intros [= ->]. revert E2.
    unfold ask_role, wait_for, convert, require, mbind, wizard_bind.
    destruct (role_msg ans); [|done].
    destruct (Ctx.RoleConverter ctx _); [|done].
    destruct (negb (Ctx.above_me ctx _)); [|done]. by destruct (negb (_ && _)). }
  destruct (ask_limit ans) as [e|?] eqn:E3.
  { intros [= ->]. revert E3.
    unfold ask_limit, wait_for, convert, require, mbind, wizard_bind.
    destruct (limit_msg ans); [|done].
    destruct (py_int _); [|done]. by destruct (negb _). }
  destruct (ask_ping ctx ans) as [e|?] eqn:E4; [|done].
  intros [= ->]. revert E4. unfold ask_ping, convert, mbind, wizard_bind.
  destruct (ping_msg ans); [|done].
  repeat (destruct (String.eqb _ _); [done|]).
  by destruct (Ctx.RoleConverter ctx _).
Qed.

(** The row of a completed setup. *)
Lemma wait_setup_complete ctx ans now σ w :
  (wait_setup ctx ans now σ).1 = SetupComplete w →
  ∃ channel trigger role limit ping_role ping,
    wizard ctx ans = inr (channel, trigger, role, limit, (ping_role, ping))
    ∧ w = {| id := next_id σ; guild_id := Ctx.guild ctx; channel_id := channel;
             role_id := role; trigger_time := trigger; max_users := limit;
             given_users := []; is_active := true; Models.created_at := now;
             last_triggered := None; ping_role_id := ping_role;
             ping_type := ping |}
    ∧ db (wait_setup ctx ans now σ).2 = db σ ++ [w]
    ∧ next_id (wait_setup ctx ans now σ).2 = next_id σ + 1.
Proof.
  unfold wait_setup.
  destruct (Guild_get (Ctx.guild ctx) σ) as [guild_data|]; [|done].
  destruct (negb (is_premium guild_data) && _); [done|].
  destruct (wizard ctx ans) as [err|[[[[channel trigger] role] limit] [pr pt]]]
    eqn:Hwiz.
  { cbn. intros ->. by destruct (wizard_error_not_complete ctx ans _ w Hwiz). }
  destruct (call_spec (set_permissions channel false) σ) as (_&_&D&N&_).
  destruct (call (set_permissions channel false) σ) as [ok σ1].
  cbn [fst snd] in D, N. destruct ok; cbn [negb]; [|done].
  cbn. intros [= <-]. rewrite D, N. by eexists _, _, _, _, _, _.
Qed.

Lemma wizard_inr_fields ctx ans channel trigger role limit ping :
  wizard ctx ans = inr (channel, trigger, role, limit, ping) →
  ask_time ans = inr trigger ∧ ask_role ctx ans = inr role
  ∧ ask_limit ans = inr limit ∧ ask_ping ctx ans = inr ping.
Proof.
  unfold wizard, mbind, wizard_bind.
  destruct (wait_for (channel_msg ans)); [done|].
  destruct (convert _ _); [done|].
  destruct (ask_time ans); [done|].
  destruct (ask_role ctx ans); [done|].
  destruct (ask_limit ans); [done|].
  destruct (ask_ping ctx ans); [done|].
  by intros [= -> -> -> -> ->].
Qed.

End SetupShape.

Lemma py_split_fmt hour minute :
  0 <= hour <= 23 → 0 <= minute <= 59 →
  py_split ":" (fmt_02d hour ++ ":" ++ fmt_02d minute)
  = [fmt_02d hour; fmt_02d minute].
Proof.
  intros Hh Hm.
  assert (Forall (λ h, Forall (λ m,
            py_split ":" (fmt_02d h ++ ":" ++ fmt_02d m)
            = [fmt_02d h; fmt_02d m])
            (seqZ 0 60)) (seqZ 0 24)) as Hall.
  { apply (bool_decide_unpack _). by vm_compute. }
  rewrite Forall_seqZ in Hall.
  assert (0 <= hour < 0 + 24) as Hh' by lia. specialize (Hall hour Hh').
  rewrite Forall_seqZ in Hall. apply Hall. lia.
Qed.

Lemma parse_time_reads_back `{PyStr} hour minute :
  int_reads_02d → 0 <= hour <= 23 → 0 <= minute <= 59 →
  parse_time (fmt_02d hour ++ ":" ++ fmt_02d minute) = Some (hour, minute).
Proof.
  intros Hint Hh Hm. unfold parse_time. rewrite py_split_fmt by done.
  cbn [fmap list_fmap]. by rewrite !Hint by lia.
Qed.

Lemma ascii_int_reads_02d : @int_reads_02d ascii_builtins.
Proof.
  intros n Hn.
  assert (Forall (λ k, ascii_int (fmt_02d k) = Some k) (seqZ 0 60)) as Hall.
  { apply (bool_decide_unpack _). by vm_compute. }
  rewrite Forall_seqZ in Hall. apply Hall. lia.
Qed.

(** X4: a configuration that setup has created is opened by the scheduler
    at the hour and minute that were entered, on any date, and at no other
    minute; its limit is within 1 to 1000 and it starts with nobody
    granted.  This holds for every [int], [strip] and [lower] such that
    [int] reads back the two digits that [:02d] writes. *)
Theorem setup_then_tick `{PyStr} ctx ans now σ w :
  int_reads_02d →
  (wait_setup ctx ans now σ).1 = SetupComplete w →
  ∃ content hour minute,
    time_msg ans = Some content
    ∧ parse_time (py_strip content) = Some (hour, minute)
    ∧ 0 <= hour <= 23 ∧ 0 <= minute <= 59
    ∧ 1 <= max_users w <= 1000
    ∧ given_users w = [] ∧ last_triggered w = None ∧ is_active w = true
    ∧ ∀ current_date current_hour current_minute σ0,
        check_one current_date current_hour current_minute w σ0
        = if (current_hour =? hour) && (current_minute =? minute)
          then activate_waiting w current_date σ0
          else σ0.
Proof.
  intros Hint Hdone.
  destruct (wait_setup_complete ctx ans now σ w Hdone)
    as (channel & trigger & role & limit & pr & pt & Hwiz & Hw & _).
  apply wizard_inr_fields in Hwiz as (Htime & _ & Hlimit & _).
  apply ask_time_inr in Htime
    as (content & hour & minute & Hmsg & Hparse & Hh & Hm & ->).
  apply ask_limit_inr in Hlimit.
  exists content, hour, minute. subst w. cbn [max_users given_users last_triggered is_active].
  split_and!; try done; try lia.
  intros d h m σ0. unfold check_one. cbn [trigger_time last_triggered].
  rewrite (parse_time_reads_back hour minute Hint Hh Hm).
  by rewrite bool_decide_eq_false_2.
Qed.

Lemma setup_then_tick_witness :
  let ans := DemoSetup.answers " 7:5 " "50" in
  let σ := Demo.world [] Demo.all_ok in
  let r := @wait_setup ascii_builtins (DemoSetup.ctx 10) ans 0 σ in
  ∃ w, r.1 = SetupComplete w
       ∧ ∃ content hour minute,
           time_msg ans = Some content
           ∧ @parse_time ascii_builtins (ascii_strip content) = Some (hour, minute)
           ∧ 0 <= hour <= 23 ∧ 0 <= minute <= 59
           ∧ 1 <= max_users w <= 1000
           ∧ given_users w = [] ∧ last_triggered w = None ∧ is_active w = true
           ∧ ∀ current_date current_hour current_minute σ0,
               @check_one ascii_builtins current_date current_hour current_minute w σ0
               = if (current_hour =? hour) && (current_minute =? minute)
                 then activate_waiting w current_date σ0
                 else σ0.
Proof.
  intros ans σ r. eexists. split; [by vm_compute|].
  apply (@setup_then_tick ascii_builtins (DemoSetup.ctx 10) ans 0 σ).
  - exact ascii_int_reads_02d.
  - by vm_compute.
Defined.

(** ** What happens to the rows *)

Lemma row_step_fields w w' :
  row_step w w' →
  id w' = id w ∧ guild_id w' = guild_id w ∧ channel_id w' = channel_id w
  ∧ role_id w' = role_id w ∧ trigger_time w' = trigger_time w
  ∧ max_users w' = max_users w ∧ is_active w' = is_active w
  ∧ Models.created_at w' = Models.created_at w
  ∧ ping_role_id w' = ping_role_id w ∧ ping_type w' = ping_type w.
Proof.
  intros [(d & ->)|[->|[->|(d & l & _ & ->)]]]; by split_and!.
Qed.

Lemma overwrite_row_ids w' d : id <$> overwrite_row w' d = id <$> d.
Proof.
  unfold overwrite_row. rewrite <-list_fmap_compose.
  apply list_fmap_ext. intros i r _. cbn [compose].
  destruct (Z.eqb_spec (id r) (id w')); congruence.
Qed.

Lemma overwrite_row_length w' d : length (overwrite_row w' d) = length d.
Proof. unfold overwrite_row. by rewrite length_fmap. Qed.

Lemma row_step_id w w' : row_step w w' → id w' = id w.
Proof. intros Hs. apply (row_step_fields _ _ Hs). Qed.

Lemma granted_more_step d w w' : granted_more d w w' → row_step w w'.
Proof. intros (granted & Ht & ->). right. right. right. by exists d, granted. Qed.

Section Overwrites.
Context (R : RoleWaiting → RoleWaiting → Prop).
Hypothesis R_id : ∀ w w', R w w' → id w' = id w.

Lemma overwrites_of_ids ws d d' : overwrites_of R ws d d' → id <$> d' = id <$> d.
Proof.
  induction 1 as [| |w w' ws d d' Hstep _ IH]; [done|done|].
  by rewrite IH, overwrite_row_ids.
Qed.

Lemma overwrites_of_Forall (P : RoleWaiting → Prop) ws d d' :
  overwrites_of R ws d d' →
  (∀ w w', R w w' → P w → P w') →
  Forall P ws → Forall P d → Forall P d'.
Proof.
  intros Hov Hstep. induction Hov as [| |w w' ws d d' Hww' _ IH]; intros Hws Hd.
  - done.
  - apply IHHov; [|done]. by apply Forall_cons in Hws as [_ ?].
  - apply Forall_cons in Hws as [Hw Hws]. apply IH; [done|].
    unfold overwrite_row. apply Forall_fmap. eapply Forall_impl; [exact Hd|].
    intros r Hr. cbn. destruct (id r =? id w'); [by apply (Hstep w)|done].
Qed.

Lemma overwrites_of_rows ws d d' :
  overwrites_of R ws d d' →
  NoDup (id <$> ws) →
  (∀ w r, w ∈ ws → r ∈ d → id r = id w → r = w) →
  Forall2 (λ r r', r' = r ∨ (r ∈ ws ∧ R r r')) d d'.
Proof.
  induction 1 as [ws d|w ws d d' _ IH|w w' ws d d' Hstep _ IH]; intros Hnd Hrows.
  - apply Forall2_same_length_lookup. split; [done|].
    intros i r r' Hr Hr'. left. congruence.
  - rewrite fmap_cons in Hnd. apply NoDup_cons in Hnd as [_ Hnd].
    eapply Forall2_impl; [apply IH; [done|]|].
    + intros w2 r Hw2. apply Hrows. by right.
    + intros r r' [->|[Hin Hs]]; [by left|]. right. split; [by right|done].
  - rewrite fmap_cons in Hnd. apply NoDup_cons in Hnd as [Hw Hnd].
    assert (id w' = id w) as Hid by (by apply R_id).
    assert (∀ w2, w2 ∈ ws → id w2 ≠ id w) as Hother.
    { intros w2 Hw2 Heq. apply Hw. rewrite <-Heq. by apply list_elem_of_fmap_2. }
    assert (Forall2 (λ r r', r' = r ∨ (r ∈ ws ∧ R r r'))
              (overwrite_row w' d) d') as Hrest.
    { apply IH; [done|]. intros w2 r Hw2 Hr Heq.
      apply list_elem_of_fmap in Hr as (r0 & -> & Hr0).
      destruct (Z.eqb_spec (id r0) (id w')) as [E|E].
      - exfalso. apply (Hother w2 Hw2). congruence.
      - apply Hrows; [by right|done|done]. }
    apply Forall2_same_length_lookup. apply Forall2_same_length_lookup in Hrest.
    destruct Hrest as [Hlen Hrest]. rewrite overwrite_row_length in Hlen.
    split; [done|]. intros i r r' Hr Hr'.
    assert (overwrite_row w' d !! i
            = Some (if id r =? id w' then w' else r)) as Hmid.
    { unfold overwrite_row. by rewrite list_lookup_fmap, Hr. }
    specialize (Hrest i _ r' Hmid Hr').
    destruct (Z.eqb_spec (id r) (id w')) as [E|E].
    + assert (r = w) as ->.
      { apply Hrows; [by left|by eapply list_elem_of_lookup_2|congruence]. }
      destruct Hrest as [->|[Hin _]].
      * right. split; [by left|done].
      * exfalso. apply (Hother w' Hin). done.
    + destruct Hrest as [->|[Hin Hs]]; [by left|].
      right. split; [by right|done].
Qed.

Lemma overwrites_of_app ws1 ws2 d1 d2 d3 :
  overwrites_of R ws1 d1 d2 → overwrites_of R ws2 d2 d3 →
  overwrites_of R (ws1 ++ ws2) d1 d3.
Proof.
  induction 1 as [ws d| |]; intros H2.
  - induction ws as [|w ws IH]; [done|]. by apply overwrites_skip.
  - apply overwrites_skip; auto.
  - eapply overwrites_save; eauto.
Qed.

Lemma overwrites_of_one w w' d :
  R w w' → overwrites_of R [w] d (overwrite_row w' d).
Proof. intros Hs. eapply overwrites_save; [exact Hs|constructor]. Qed.

(** A loop that, for each row, either leaves the table or saves a new
    state of that row. *)
Lemma foldl_overwrites (step : RoleWaiting → World → World) ws σ :
  (∀ w σ0, (db (step w σ0) = db σ0
            ∨ ∃ w', R w w' ∧ db (step w σ0) = overwrite_row w' (db σ0))
           ∧ next_id (step w σ0) = next_id σ0) →
  let σ' := foldl (λ σ w, step w σ) σ ws in
  overwrites_of R ws (db σ) (db σ') ∧ next_id σ' = next_id σ.
Proof.
  intros Hstep. revert σ. induction ws as [|w ws IH]; intros σ; cbn [foldl].
  - split; [constructor|done].
  - destruct (IH (step w σ)) as (Hov & Hn).
    destruct (Hstep w σ) as ([E|(w' & Hs & E)] & N).
    + split; [|congruence]. apply overwrites_skip. by rewrite <-E.
    + split; [|congruence]. eapply overwrites_save; [exact Hs|]. by rewrite <-E.
Qed.

End Overwrites.

Lemma overwrites_of_impl (R R' : RoleWaiting → RoleWaiting → Prop) ws d d' :
  (∀ w w', R w w' → R' w w') → overwrites_of R ws d d' → overwrites_of R' ws d d'.
Proof.
  intros Himpl. induction 1; [constructor|by apply overwrites_skip|].
  eapply overwrites_save; eauto.
Qed.

Lemma activate_waiting_table waiting current_date σ :
  let σ' := activate_waiting waiting current_date σ in
  (if get_guild (cache σ) (guild_id waiting)
      && get_channel (cache σ) (guild_id waiting) (channel_id waiting)
      && get_role (cache σ) (guild_id waiting) (role_id waiting)
   then db σ' = overwrite_row (activated current_date waiting) (db σ)
   else σ' = σ)
  ∧ next_id σ' = next_id σ
  ∧ outcome σ' = outcome σ
  ∧ same_guild_view (cache σ) (cache σ')
  ∧ member_roles (cache σ') = member_roles (cache σ).
Proof.
  unfold activate_waiting.
  destruct (get_guild (cache σ) (guild_id waiting)); cbn [negb andb];
    [|split_and!; try done; apply same_guild_view_refl].
  destruct (get_channel (cache σ) (guild_id waiting) (channel_id waiting));
    cbn [negb andb]; [|split_and!; try done; apply same_guild_view_refl].
  destruct (get_role (cache σ) (guild_id waiting) (role_id waiting));
    cbn [negb andb]; [|split_and!; try done; apply same_guild_view_refl].
  fold (activated current_date waiting).
  set (σ1 := set_message_queue _ _).
  set (c := set_permissions (channel_id (activated current_date waiting)) true).
  destruct (call_spec c σ1) as (_&_&D&N&_&_&O&V).
  assert (member_roles (cache (call c σ1).2) = member_roles (cache σ)) as M.
  { unfold c. simpl. by destruct (outcome σ _ _). }
  destruct (call c σ1) as [ok σ2]. cbn [fst snd] in *.
  destruct ok; cbn [negb].
  - set (e := channel_send _ _).
    destruct (call_spec e σ2) as (_&_&D'&N'&_&_&O'&V').
    pose proof (call_send_cache (channel_id (activated current_date waiting))
                  (WaitingOpened (role_id (activated current_date waiting))
                     (max_users (activated current_date waiting))
                     (ping_mention (activated current_date waiting) (cache σ2))) σ2)
      as C'.
    fold e in C'.
    split_and!.
    + by rewrite D', D.
    + by rewrite N', N.
    + by rewrite O', O.
    + by rewrite C'.
    + by rewrite C'.
  - by split_and!.
Qed.

Lemma check_one_table `{PyStr} d h m w σ :
  let σ' := check_one d h m w σ in
  (if due d h m (cache σ) w
   then db σ' = overwrite_row (activated d w) (db σ)
   else σ' = σ)
  ∧ next_id σ' = next_id σ
  ∧ outcome σ' = outcome σ
  ∧ same_guild_view (cache σ) (cache σ')
  ∧ member_roles (cache σ') = member_roles (cache σ).
Proof.
  unfold check_one, due.
  destruct (parse_time (trigger_time w)) as [[th tm]|];
    [|split_and!; try done; apply same_guild_view_refl].
  destruct (bool_decide (last_triggered w = Some d)); cbn [negb andb];
    [split_and!; try done; apply same_guild_view_refl|].
  destruct ((h =? th) && (m =? tm)) eqn:Hmatch.
  - cbn [andb]. apply activate_waiting_table.
  - cbn [andb]. by split_and!.
Qed.

Lemma take_back_next_id guild role users σ :
  next_id (take_back guild role users σ) = next_id σ.
Proof.
  revert σ. induction users as [|u us IH]; intros σ; cbn [take_back]; [done|].
  cbv zeta. destruct (_ && _); [|apply IH].
  rewrite IH. by destruct (call_spec (remove_roles u role) σ) as (_&_&_&N&_).
Qed.

Lemma reset_one_next_id w σ : next_id (reset_one w σ) = next_id σ.
Proof.
  unfold reset_one. destruct (get_guild _ _); cbn [negb]; [|done].
  cbv zeta. set (σ1 := if get_role _ _ _ then _ else σ).
  assert (next_id σ1 = next_id σ) as N1.
  { unfold σ1. destruct (get_role _ _ _); [apply take_back_next_id|done]. }
  destruct (get_channel _ _ _); [|done].
  destruct (call_spec (set_permissions (channel_id (reset_row w)) false)
              (save (reset_row w) σ1)) as (_&_&_&N&_).
  fold (reset_row w). by rewrite N.
Qed.

Lemma on_message_one_table message guild current_date waiting σ :
  let σ' := (on_message_one message guild current_date waiting σ).2 in
  (db σ' = db σ
   ∨ ∃ granted,
       last_triggered waiting = Some current_date
       ∧ db σ' = overwrite_row
                   (set_given_users (given_users waiting ++ granted) waiting) (db σ))
  ∧ next_id σ' = next_id σ.
Proof.
  unfold on_message_one.
  destruct (bool_decide (last_triggered waiting = Some current_date)) eqn:Ht;
    cbn [negb]; [|by split; [left|]].
  apply bool_decide_eq_true_1 in Ht.
  destruct (get_role (cache σ) guild (role_id waiting)); cbn [negb];
    [|by split; [left|]].
  destruct (has_role (cache σ) (Message.author message) (role_id waiting)).
  { cbn [snd].
    destruct (call_spec (author_send (Message.author message)) σ) as (_&_&D&N&_).
    by split; [left|]. }
  destruct (bool_decide (Message.author message ∈ given_users waiting));
    [by split; [left|]|].
  cbv zeta. set (buffer := default [] _ ++ _). set (σ1 := set_message_queue _ σ).
  destruct (Z.of_nat (length buffer) >=? max_users waiting); [|by split; [left|]].
  destruct (close_channel_spec (Message.channel message) waiting buffer σ1)
    as (sent & rest & _ & _ & _ & D & N & _).
  split; [|exact N]. right. eexists. split; [done|exact D].
Qed.

Lemma foldl_rows_exact (step : RoleWaiting → World → World)
    (g : Cache → RoleWaiting → option RoleWaiting) ws σ :
  (∀ w σ0,
     db (step w σ0)
     = match g (cache σ0) w with
       | Some w' => overwrite_row w' (db σ0)
       | None => db σ0
       end
     ∧ same_guild_view (cache σ0) (cache (step w σ0))) →
  (∀ k k' w, same_guild_view k k' → g k' w = g k w) →
  (∀ k w w', g k w = Some w' → id w' = id w) →
  NoDup (id <$> ws) →
  (∀ w r, w ∈ ws → r ∈ db σ → id r = id w → r = w) →
  let σ' := foldl (λ σ w, step w σ) σ ws in
  db σ'
  = (λ r, if bool_decide (r ∈ ws) then default r (g (cache σ) r) else r) <$> db σ
  ∧ same_guild_view (cache σ) (cache σ').
Proof.
  intros Hstep Hview Hid. revert σ.
  induction ws as [|w ws IH]; intros σ Hnd Hrows; cbn [foldl].
  - split; [|apply same_guild_view_refl].
    rewrite <-(list_fmap_id (db σ)) at 1.
    apply list_fmap_ext. intros i r _. by rewrite bool_decide_eq_false_2 by set_solver.
  - rewrite fmap_cons in Hnd. apply NoDup_cons in Hnd as [Hw Hnd].
    destruct (Hstep w σ) as (D1 & V1).
    assert (∀ w2, w2 ∈ ws → id w2 ≠ id w) as Hother.
    { intros w2 Hw2 Heq. apply Hw. rewrite <-Heq. by apply list_elem_of_fmap_2. }
    destruct (IH (step w σ) Hnd) as (D & V).
    { intros w2 r Hw2 Hr Heq. rewrite D1 in Hr.
      destruct (g (cache σ) w) as [w'|] eqn:Hg;
        [|apply Hrows; [by right|done|done]].
      apply list_elem_of_fmap in Hr as (r0 & -> & Hr0).
      pose proof (Hid _ _ _ Hg) as Hidw.
      destruct (Z.eqb_spec (id r0) (id w')) as [E|E].
      - exfalso. apply (Hother w2 Hw2). congruence.
      - apply Hrows; [by right|done|done]. }
    split; [|eapply same_guild_view_trans; eassumption].
    rewrite D, D1.
    destruct (g (cache σ) w) as [w'|] eqn:Hg.
    + pose proof (Hid _ _ _ Hg) as Hidw.
      unfold overwrite_row. rewrite <-list_fmap_compose.
      apply list_fmap_ext. intros i r Hr. apply list_elem_of_lookup_2 in Hr.
      cbn [compose].
      destruct (Z.eqb_spec (id r) (id w')) as [E|E].
      * assert (r = w) as -> by (apply Hrows; [by left|done|congruence]).
        rewrite (bool_decide_eq_true_2 (w ∈ w :: ws)) by (by left).
        rewrite Hg. cbn.
        rewrite bool_decide_eq_false_2; [done|].
        intros Hin. apply (Hother _ Hin). done.
      * rewrite (Hview _ _ r V1).
        destruct (decide (r ∈ ws)) as [Hin|Hnin].
        -- rewrite !bool_decide_eq_true_2; [done|by right|done].
        -- rewrite !bool_decide_eq_false_2; [done| |done].
           intros Hin. apply Hnin. apply elem_of_cons in Hin as [->|?]; [|done].
           congruence.
    + apply list_fmap_ext. intros i r Hr. apply list_elem_of_lookup_2 in Hr.
      rewrite (Hview _ _ r V1).
      destruct (decide (r = w)) as [->|Hne].
      * rewrite Hg. cbn. by destruct (bool_decide _), (bool_decide _).
      * destruct (decide (r ∈ ws)) as [Hin|Hnin].
        -- rewrite !bool_decide_eq_true_2; [done|by right|done].
        -- rewrite !bool_decide_eq_false_2; [done| |done].
           intros Hin. apply Hnin. apply elem_of_cons in Hin as [->|?]; done.
Qed.

(** ** The scheduler tick *)

Section Tick.
Context `{PyStr}.

Lemma due_view d h m k k' w : same_guild_view k k' → due d h m k' w = due d h m k w.
Proof.
  intros V. unfold due. destruct (parse_time _) as [[??]|]; [|done].
  by rewrite (get_guild_view _ _ _ V), (get_channel_view _ _ _ _ V),
    (get_role_view _ _ _ _ V).
Qed.

Lemma check_waiting_frame d h m ws σ :
  let σ' := foldl (λ σ w, check_one d h m w σ) σ ws in
  next_id σ' = next_id σ ∧ outcome σ' = outcome σ
  ∧ same_guild_view (cache σ) (cache σ')
  ∧ member_roles (cache σ') = member_roles (cache σ).
Proof.
  revert σ. induction ws as [|w ws IH]; intros σ; cbn [foldl].
  - by split_and!.
  - destruct (IH (check_one d h m w σ)) as (N & O & V & M).
    destruct (check_one_table d h m w σ) as (_ & N1 & O1 & V1 & M1).
    split_and!; try congruence. eapply same_guild_view_trans; eassumption.
Qed.

Lemma check_waiting_db d h m σ :
  NoDup (id <$> db σ) →
  db (check_waiting d h m σ)
  = (λ r, if is_active r && due d h m (cache σ) r then activated d r else r)
      <$> db σ.
Proof.
  intros Hnd. unfold check_waiting.
  destruct (foldl_rows_exact (check_one d h m)
              (λ k w, if due d h m k w then Some (activated d w) else None)
              (filter is_active (db σ)) σ) as (D & _).
  - intros w σ0. destruct (check_one_table d h m w σ0) as (T & _ & _ & V0 & _).
    split; [|done]. destruct (due d h m (cache σ0) w); [done|by rewrite T].
  - intros k k' w Hv. by rewrite (due_view _ _ _ _ _ _ Hv).
  - intros k w w'. destruct (due d h m k w); [|done]. by intros [= <-].
  - eapply sublist_NoDup; [exact Hnd|]. apply fmap_sublist, sublist_filter.
  - intros w r Hw Hr Hid. apply list_elem_of_filter in Hw as [_ Hw].
    by apply (same_id_same_row (db σ)).
  - rewrite D.
    apply list_fmap_ext. intros i r Hr. apply list_elem_of_lookup_2 in Hr.
    destruct (is_active r) eqn:Ha; cbn [andb].
    + rewrite bool_decide_eq_true_2.
      * by destruct (due d h m (cache σ) r).
      * apply list_elem_of_filter. split; [by rewrite Ha|done].
    + rewrite bool_decide_eq_false_2; [done|].
      intros Hin. apply list_elem_of_filter in Hin as [Hact _]. by rewrite Ha in Hact.
Qed.

(** X5: one tick of the scheduler opens exactly the active rows that are
    due: trigger time readable and equal to the current hour and minute,
    not yet opened on the current date, guild, channel and role in the
    cache.  Each of them is saved with no grants and the current date; the
    other rows are untouched, no row is created or deleted, and nobody's
    roles change. *)
Theorem check_waiting_opens_due d h m σ :
  NoDup (id <$> db σ) →
  let σ' := check_waiting d h m σ in
  db σ'
  = (λ r, if is_active r && due d h m (cache σ) r then activated d r else r)
      <$> db σ
  ∧ next_id σ' = next_id σ
  ∧ member_roles (cache σ') = member_roles (cache σ)
  ∧ same_guild_view (cache σ) (cache σ').
Proof.
  intros Hnd σ'. unfold σ'.
  destruct (check_waiting_frame d h m (filter is_active (db σ)) σ) as (N & _ & V & M).
  split_and!; try done. by apply check_waiting_db.
Qed.

Lemma foldl_fixed {A B} (f : A → B → A) (a : A) (l : list B) :
  (∀ b, b ∈ l → f a b = a) → foldl f a l = a.
Proof.
  induction l as [|b l IH]; intros Hf; [done|]. cbn [foldl].
  rewrite (Hf b) by (by left). apply IH. intros b' Hb'. apply Hf. by right.
Qed.

(** X6: the scheduler does not fire twice.  A second tick for the same
    date, hour and minute leaves the world exactly as the first one left
    it: no save, no call, whether or not the platform let the channels be
    opened. *)
Theorem check_waiting_idempotent d h m σ :
  NoDup (id <$> db σ) →
  check_waiting d h m (check_waiting d h m σ) = check_waiting d h m σ.
Proof.
  intros Hnd. pose proof (check_waiting_db d h m σ Hnd) as D.
  destruct (check_waiting_frame d h m (filter is_active (db σ)) σ) as (_ & _ & V & _).
  fold (check_waiting d h m σ) in V.
  set (σ1 := check_waiting d h m σ) in *.
  unfold check_waiting at 1. apply foldl_fixed.
  intros r1 Hr1. apply list_elem_of_filter in Hr1 as [Hact Hr1].
  destruct (check_one_table d h m r1 σ1) as (T & _).
  assert (due d h m (cache σ1) r1 = false) as Hdue; [|by rewrite Hdue in T].
  rewrite (due_view _ _ _ _ _ _ V).
  rewrite D in Hr1. apply list_elem_of_fmap in Hr1 as (r & -> & Hr).
  destruct (is_active r && due d h m (cache σ) r) eqn:E.
  - unfold due. destruct (parse_time _) as [[??]|]; [|done].
    cbn [last_triggered activated set_last_triggered].
    by rewrite bool_decide_eq_true_2.
  - apply andb_false_iff in E as [E|E]; [|done].
    rewrite E in Hact. done.
Qed.

End Tick.

(** Two rows due at 13:57 of day 100; the platform refuses to open the
    channel of the first. *)
Lemma check_waiting_opens_due_witness :
  let σ := Demo.world
             [set_last_triggered None (Demo.config 1 30 2);
              set_last_triggered (Some 99) (Demo.config 2 31 5)]
             (Demo.refusing (λ c, bool_decide (c = set_permissions 20 true))) in
  let σ' := @check_waiting ascii_builtins 100 13 57 σ in
  (last_triggered <$> db σ' = [Some 100; Some 100])
  ∧ db σ'
    = (λ r, if is_active r && @due ascii_builtins 100 13 57 (cache σ) r
            then activated 100 r else r) <$> db σ
  ∧ next_id σ' = next_id σ
  ∧ member_roles (cache σ') = member_roles (cache σ)
  ∧ same_guild_view (cache σ) (cache σ').
Proof.
  intros σ σ'. split; [by vm_compute|].
  apply (@check_waiting_opens_due ascii_builtins 100 13 57 σ).
  apply (bool_decide_unpack _). by vm_compute.
Defined.

Lemma check_waiting_idempotent_witness :
  let σ := Demo.world
             [set_last_triggered None (Demo.config 1 30 2);
              set_last_triggered (Some 99) (Demo.config 2 31 5)]
             Demo.all_ok in
  length (trace (@check_waiting ascii_builtins 100 13 57 σ)) = 6%nat
  ∧ @check_waiting ascii_builtins 100 13 57 (@check_waiting ascii_builtins 100 13 57 σ)
    = @check_waiting ascii_builtins 100 13 57 σ.
Proof.
  intros σ. split; [by vm_compute|].
  apply (@check_waiting_idempotent ascii_builtins 100 13 57 σ).
  apply (bool_decide_unpack _). by vm_compute.
Defined.

(** ** The takeback loop *)

Lemma successful_removals_app e1 e2 :
  successful_removals (e1 ++ e2) = successful_removals e1 ++ successful_removals e2.
Proof. apply omap_app. Qed.

Lemma take_back_count_spec guild role users n σ :
  let r := take_back_count guild role users n σ in
  ∃ events,
    trace r.2 = trace σ ++ events
    ∧ Forall (removal_of role users) events
    ∧ r.1 = n + Z.of_nat (length (successful_removals events))
    ∧ (length events ≤ length users)%nat
    ∧ db r.2 = db σ
    ∧ next_id r.2 = next_id σ
    ∧ guild_rows r.2 = guild_rows σ
    ∧ message_queue r.2 = message_queue σ
    ∧ outcome r.2 = outcome σ
    ∧ same_guild_view (cache σ) (cache r.2).
Proof.
  revert n σ. induction users as [|u us IH]; intros n σ; cbn [take_back_count].
  - exists []. rewrite app_nil_r. cbn. split_and!; try done; lia.
  - destruct (get_member (cache σ) guild u && has_role (cache σ) u role).
    + destruct (call_spec (remove_roles u role) σ) as (T&_&D&N&G&Q&O&V).
      destruct (call (remove_roles u role) σ) as [ok σ1]. cbn [fst snd] in *.
      destruct (IH (if ok then n + 1 else n) σ1)
        as (ev & T' & F' & C' & L' & D' & N' & G' & Q' & O' & V').
      exists (Api (remove_roles u role) ok :: ev). split_and!.
      * rewrite T', T. by rewrite <-app_assoc.
      * constructor.
        -- exists u, ok. split; [done|by left].
        -- eapply Forall_impl; [exact F'|]. intros e (u' & ok' & -> & Hin).
           exists u', ok'. split; [done|by right].
      * rewrite C'. unfold successful_removals. cbn [omap list_omap].
        fold (successful_removals ev). destruct ok; cbn [length]; lia.
      * cbn [length]. lia.
      * congruence.
      * congruence.
      * congruence.
      * congruence.
      * congruence.
      * eapply same_guild_view_trans; eassumption.
    + destruct (IH n σ) as (ev & T' & F' & C' & L' & D' & N' & G' & Q' & O' & V').
      exists ev. split_and!; try done.
      * eapply Forall_impl; [exact F'|]. intros e (u' & ok' & -> & Hin).
        exists u', ok'. split; [done|by right].
      * cbn [length]. lia.
Qed.

Lemma on_message_loop_table message guild current_date waitings σ :
  let σ' := on_message_loop message guild current_date waitings σ in
  overwrites_of (granted_more current_date) waitings (db σ) (db σ')
  ∧ next_id σ' = next_id σ.
Proof.
  revert σ. induction waitings as [|w ws IH]; intros σ; cbn [on_message_loop].
  - split; [constructor|done].
  - destruct (on_message_one_table message guild current_date w σ) as (D & N).
    destruct (on_message_one message guild current_date w σ) as [raised σ1].
    cbn [snd] in D, N.
    assert (overwrites_of (granted_more current_date) [w] (db σ) (db σ1)) as H1.
    { destruct D as [->|(granted & Ht & ->)]; [constructor|].
      apply overwrites_of_one. by exists granted. }
    destruct raised.
    + split; [|done]. apply (overwrites_of_app _ [w] ws _ _ _ H1). constructor.
    + destruct (IH σ1) as (D' & N'). split; [|congruence].
      by apply (overwrites_of_app _ [w] ws _ _ _ H1).
Qed.

Lemma takeback_all_loop_table ctx_guild waitings total processed σ :
  let r := takeback_all_loop ctx_guild waitings total processed σ in
  overwrites_of row_step waitings (db σ) (db r.2) ∧ next_id r.2 = next_id σ.
Proof.
  revert total processed σ.
  induction waitings as [|w ws IH]; intros total processed σ;
    cbn [takeback_all_loop].
  - split; [constructor|done].
  - destruct (given_users w) as [|u us] eqn:Hgiven.
    { destruct (IH total processed σ) as (D & N).
      split; [by apply overwrites_skip|done]. }
    destruct (get_role (cache σ) ctx_guild (role_id w)); cbn [negb].
    2: { destruct (IH total processed σ) as (D & N).
         split; [by apply overwrites_skip|done]. }
    destruct (take_back_count_spec ctx_guild (role_id w) (u :: us) total σ)
      as (ev & _ & _ & _ & _ & D1 & N1 & _).
    destruct (take_back_count ctx_guild (role_id w) (u :: us) total σ) as [total' σ1].
    cbn [fst snd] in D1, N1.
    destruct (IH total' (processed + 1) (save (set_given_users [] w) σ1)) as (D & N).
    split; [|by rewrite N].
    eapply overwrites_save; [|by rewrite save_db, D1 in D].
    right. right. by left.
Qed.

Section Frame.
Context `{PyStr}.

Lemma found_in_db ctx_guild waiting_id σ w :
  find_waiting ctx_guild waiting_id σ = Some w →
  w ∈ db σ ∧ id w = waiting_id ∧ guild_id w = ctx_guild.
Proof.
  unfold find_waiting. intros Hf. apply head_Some_elem_of in Hf.
  apply list_elem_of_filter in Hf as [[? ?] ?]. done.
Qed.

Lemma filter_ids_NoDup (P : RoleWaiting → Prop) `{!∀ r, Decision (P r)} d :
  NoDup (id <$> d) → NoDup (id <$> filter P d).
Proof.
  intros Hnd. eapply sublist_NoDup; [exact Hnd|].
  apply fmap_sublist, sublist_filter.
Qed.

(** The rows a command works on, and what it does to the table. *)
Lemma housekeeping_table c σ :
  housekeeping c = true →
  ∃ ws,
    (∀ w, w ∈ ws → w ∈ db σ)
    ∧ (NoDup (id <$> db σ) → NoDup (id <$> ws))
    ∧ overwrites_of row_step ws (db σ) (db (run c σ))
    ∧ next_id (run c σ) = next_id σ.
Proof.
  destruct c as [d h m|h m|message d| | | | |g wid|g prompt|g wid d];
    try done; intros _; cbn [run].
  - (* check_waiting *)
    exists (filter is_active (db σ)). split_and!.
    + intros w Hw. by apply list_elem_of_filter in Hw as [_ ?].
    + apply filter_ids_NoDup.
    + unfold check_waiting. apply foldl_overwrites. intros w σ0.
      destruct (check_one_table d h m w σ0) as (T & N & _). split; [|done].
      destruct (due d h m (cache σ0) w); [|left; by rewrite T].
      right. exists (activated d w). split; [|done]. left. by exists d.
    + unfold check_waiting.
      by destruct (check_waiting_frame d h m (filter is_active (db σ)) σ) as (N & _).
  - (* daily_reset *)
    exists (filter is_active (db σ)).
    assert (∀ w σ0,
              (db (reset_one w σ0) = db σ0
               ∨ ∃ w', row_step w w'
                       ∧ db (reset_one w σ0) = overwrite_row w' (db σ0))
              ∧ next_id (reset_one w σ0) = next_id σ0) as Hstep.
    { intros w σ0. split; [|apply reset_one_next_id].
      destruct (reset_one_spec w σ0) as (D & _).
      destruct (get_guild _ _); [|by left].
      right. exists (reset_row w). split; [|done]. right. by left. }
    split_and!.
    + intros w Hw. by apply list_elem_of_filter in Hw as [_ ?].
    + apply filter_ids_NoDup.
    + unfold daily_reset. destruct (_ && _); [|constructor].
      by apply (foldl_overwrites row_step).
    + unfold daily_reset. destruct (_ && _); [|done].
      by apply (foldl_overwrites row_step).
  - (* on_message *)
    unfold on_message. destruct (Message.guild message) as [guild|].
    2: { exists []. split_and!; try done; [set_solver|constructor|constructor]. }
    destruct (Message.bot message).
    { exists []. split_and!; try done; [set_solver|constructor|constructor]. }
    exists (waitings_of guild (Message.channel message) (db σ)). split_and!.
    + intros w Hw. by apply list_elem_of_filter in Hw as [_ ?].
    + apply filter_ids_NoDup.
    + eapply overwrites_of_impl; [apply granted_more_step|].
      apply on_message_loop_table.
    + apply on_message_loop_table.
  - (* wait_takeback *)
    unfold wait_takeback.
    destruct (find_waiting g wid σ) as [w|] eqn:Hfind.
    2: { exists []. split_and!; try done; [set_solver|constructor|constructor]. }
    apply found_in_db in Hfind as (Hin & _).
    exists [w]. split_and!.
    + intros w' Hw'. by apply list_elem_of_singleton in Hw' as ->.
    + intros _. cbn. apply NoDup_singleton.
    + destruct (given_users w) as [|u us] eqn:Hgiven; [constructor|].
      destruct (get_role (cache σ) g (role_id w)); cbn [negb]; [|constructor].
      destruct (take_back_count_spec g (role_id w) (u :: us) 0 σ)
        as (ev & _ & _ & _ & _ & D1 & _).
      destruct (take_back_count g (role_id w) (u :: us) 0 σ) as [n σ1].
      cbn [fst snd] in *. rewrite save_db, D1.
      apply overwrites_of_one. right. right. by left.
    + destruct (given_users w) as [|u us] eqn:Hgiven; [done|].
      destruct (get_role (cache σ) g (role_id w)); cbn [negb]; [|done].
      destruct (take_back_count_spec g (role_id w) (u :: us) 0 σ)
        as (ev & _ & _ & _ & _ & _ & N1 & _).
      destruct (take_back_count g (role_id w) (u :: us) 0 σ) as [n σ1].
      cbn [fst snd] in *. done.
  - (* wait_takeback_all *)
    unfold wait_takeback_all.
    exists (filter (λ w, guild_id w = g) (db σ)).
    split; [intros w Hw; by apply list_elem_of_filter in Hw as [_ ?]|].
    split; [apply filter_ids_NoDup|].
    destruct (filter (λ w, guild_id w = g) (db σ)) as [|w0 ws0] eqn:Hws;
      [split; [constructor|done]|].
    destruct (_ =? 0); [split; [constructor|done]|].
    destruct prompt; cbn [negb]; [|split; [constructor|done]].
    destruct (takeback_all_loop_table g (w0 :: ws0) 0 0 σ) as (D & N).
    destruct (takeback_all_loop g (w0 :: ws0) 0 0 σ) as [[t p] σ1].
    by cbn [fst snd] in *.
  - (* wait_test *)
    unfold wait_test.
    destruct (filter (λ w, id w = wid ∧ guild_id w = g) (db σ)) as [|w ws] eqn:Hf.
    { exists []. split_and!; try done; [set_solver|constructor|constructor]. }
    assert (w ∈ db σ) as Hin.
    { assert (w ∈ filter (λ w, id w = wid ∧ guild_id w = g) (db σ)) as Hw
        by (rewrite Hf; by left).
      by apply list_elem_of_filter in Hw as [_ ?]. }
    exists [w]. cbn [snd].
    destruct (activate_waiting_table w d σ) as (T & N & _).
    split_and!.
    + intros w' Hw'. by apply list_elem_of_singleton in Hw' as ->.
    + intros _. cbn. apply NoDup_singleton.
    + destruct (_ && _ && _).
      * rewrite T. apply overwrites_of_one. left. by exists d.
      * rewrite T. constructor.
    + done.
Qed.

End Frame.

(** ** Editing *)

Section Edit.
Context `{PyStr}.

Lemma edited_fields ctx edit_choice value_msg w w' :
  edited ctx edit_choice value_msg w = inr w' →
  id w' = id w ∧ guild_id w' = guild_id w ∧ given_users w' = given_users w
  ∧ last_triggered w' = last_triggered w ∧ is_active w' = is_active w
  ∧ Models.created_at w' = Models.created_at w.
Proof.
  unfold edited.
  repeat (destruct (String.eqb edit_choice _));
    try done;
    destruct value_msg as [content|]; try done.
  - destruct (Ctx.TextChannelConverter ctx content); [|done]. by intros [= <-].
  - destruct (parse_time _) as [[??]|]; [|done].
    destruct (_ && _); [|done]. by intros [= <-].
  - destruct (Ctx.RoleConverter ctx content); [|done].
    destruct (Ctx.above_me ctx _); [done|]. by intros [= <-].
  - destruct (py_int _); [|done]. destruct (_ || _); [done|]. by intros [= <-].
  - cbv zeta. repeat (destruct (String.eqb (py_lower _) _); [by intros [= <-]|]).
    destruct (Ctx.RoleConverter ctx content); [|done]. by intros [= <-].
Qed.

Lemma edited_error ctx edit_choice value_msg w err w' :
  edited ctx edit_choice value_msg w = inl err → err ≠ Updated w'.
Proof.
  unfold edited. intros He ->. revert He.
  repeat (destruct (String.eqb edit_choice _));
    try done;
    destruct value_msg as [content|]; try done.
  - by destruct (Ctx.TextChannelConverter ctx content).
  - destruct (parse_time _) as [[??]|]; [|done]. by destruct (_ && _).
  - destruct (Ctx.RoleConverter ctx content); [|done].
    by destruct (Ctx.above_me ctx _).
  - destruct (py_int _); [|done]. by destruct (_ || _).
  - cbv zeta. repeat (destruct (String.eqb (py_lower _) _); [done|]).
    by destruct (Ctx.RoleConverter ctx content).
Qed.

Lemma wait_edit_table ctx waiting_id choice_msg value_msg σ :
  let r := wait_edit ctx waiting_id choice_msg value_msg σ in
  (∃ w w' content,
     find_waiting (Ctx.guild ctx) waiting_id σ = Some w
     ∧ choice_msg = Some content
     ∧ edited ctx (py_lower (py_strip content)) value_msg w = inr w'
     ∧ r = (Updated w', save w' σ))
  ∨ (r.2 = σ ∧ ∀ w', r.1 ≠ Updated w').
Proof.
  unfold wait_edit.
  destruct (find_waiting (Ctx.guild ctx) waiting_id σ) as [w|]; [|by right].
  destruct choice_msg as [content|]; [|by right].
  cbv zeta. destruct (String.eqb _ "cancel"); [by right|].
  destruct (edited ctx _ value_msg w) as [err|w'] eqn:He.
  - right. split; [done|]. intros w'. cbn. by eapply edited_error.
  - left. by exists w, w', content.
Qed.

End Edit.

(** ** Invariants of the table *)

Section Invariants.
Context `{PyStr}.

(** X7: the timers, the listener, the manual trigger and the takebacks
    keep every row in place and change at most its [given_users] and
    [last_triggered], in one of four ways: opened for a date, reset,
    grants cleared, grants appended to an open row.  They create and
    delete nothing. *)
Theorem housekeeping_rows c σ :
  housekeeping c = true →
  NoDup (id <$> db σ) →
  Forall2 (λ r r', r' = r ∨ row_step r r') (db σ) (db (run c σ))
  ∧ next_id (run c σ) = next_id σ.
Proof.
  intros Hc Hnd.
  destruct (housekeeping_table c σ Hc) as (ws & Hin & Hnd' & Hov & Hn).
  split; [|done].
  eapply Forall2_impl.
  - apply (overwrites_of_rows row_step row_step_id ws); [done|by apply Hnd'|].
    intros w r Hw Hr Hid. apply (same_id_same_row (db σ)); auto.
  - intros r r' [->|[_ Hs]]; auto.
Qed.

Lemma run_ids_fresh c σ : ids_fresh σ → ids_fresh (run c σ).
Proof.
  intros (Hnd & Hlt).
  destruct (housekeeping c) eqn:Hc.
  { destruct (housekeeping_table c σ Hc) as (ws & _ & _ & Hov & Hn).
    pose proof (overwrites_of_ids row_step _ _ _ Hov) as Hids.
    split; [by rewrite Hids|].
    intros r Hr. rewrite Hn.
    assert (id r ∈ id <$> db σ) as Hid
      by (rewrite <-Hids; by apply list_elem_of_fmap_2).
    apply list_elem_of_fmap in Hid as (r0 & -> & Hr0). by apply Hlt. }
  destruct c as [| | |ctx ans now|ctx wid choice value|g wid|g prompt| | |];
    try done; cbn [run].
  - (* wait_setup *)
    destruct (wait_setup_table ctx ans now σ) as [(w & Hw & _)|(_ & D & N)].
    + destruct (wait_setup_complete ctx ans now σ w Hw)
        as (ch & tr & ro & li & pr & pt & _ & Hrow & D & N).
      assert (id w = next_id σ) as Hid by (by subst w).
      split.
      * rewrite D, fmap_app. apply NoDup_app. split; [done|]. split.
        -- intros x Hx Hx'. apply list_elem_of_singleton in Hx'.
           apply list_elem_of_fmap in Hx as (r0 & -> & Hr0).
           specialize (Hlt r0 Hr0). lia.
        -- apply NoDup_singleton.
      * intros r Hr. rewrite N. rewrite D in Hr.
        apply elem_of_app in Hr as [Hr|Hr].
        -- specialize (Hlt r Hr). lia.
        -- apply list_elem_of_singleton in Hr as ->. lia.
    + split; [by rewrite D|]. intros r Hr. rewrite N. rewrite D in Hr. by apply Hlt.
  - (* wait_edit *)
    destruct (wait_edit_table ctx wid choice value σ)
      as [(w & w' & content & _ & _ & He & ->)|(-> & _)]; [|done].
    cbn [snd]. split.
    + by rewrite save_db, overwrite_row_ids.
    + intros r Hr. cbn [next_id save log set_db].
      assert (id r ∈ id <$> db σ) as Hid.
      { rewrite <-(overwrite_row_ids w'). rewrite <-save_db.
        by apply list_elem_of_fmap_2. }
      apply list_elem_of_fmap in Hid as (r0 & -> & Hr0). by apply Hlt.
  - (* wait_delete *)
    unfold wait_delete. destruct (find_waiting g wid σ) as [w|]; [|done].
    cbn [snd delete_row db next_id set_db]. split.
    + by apply filter_ids_NoDup.
    + intros r Hr. apply list_elem_of_filter in Hr as [_ Hr]. by apply Hlt.
  - (* wait_clear *)
    unfold wait_clear. cbv zeta.
    destruct (_ =? 0); [done|]. destruct prompt; cbn [negb]; [|done].
    cbn [snd db next_id set_db]. split.
    + by apply filter_ids_NoDup.
    + intros r Hr. apply list_elem_of_filter in Hr as [_ Hr]. by apply Hlt.
Qed.

Lemma run_next_id_mono c σ : next_id σ <= next_id (run c σ).
Proof.
  destruct (housekeeping c) eqn:Hc.
  { destruct (housekeeping_table c σ Hc) as (ws & _ & _ & _ & Hn). lia. }
  destruct c as [| | |ctx ans now|ctx wid choice value|g wid|g prompt| | |];
    try done; cbn [run].
  - destruct (wait_setup_table ctx ans now σ) as [(w & Hw & _)|(_ & _ & N)]; [|lia].
    destruct (wait_setup_complete ctx ans now σ w Hw)
      as (ch & tr & ro & li & pr & pt & _ & _ & _ & N). lia.
  - destruct (wait_edit_table ctx wid choice value σ)
      as [(w & w' & content & _ & _ & He & ->)|(-> & _)]; [|lia].
    cbn. lia.
  - unfold wait_delete. destruct (find_waiting g wid σ) as [w|]; cbn; lia.
  - unfold wait_clear. cbv zeta.
    destruct (_ =? 0); [cbn; lia|]. destruct prompt; cbn; lia.
Qed.

(** X8: primary keys stay unique and below the next key of the sequence
    through every history of the cog, and that next key never goes down:
    a command never reuses a key, not even the key of a deleted
    configuration. *)
Theorem ids_stay_fresh cs σ :
  ids_fresh σ →
  ids_fresh (run_all cs σ) ∧ next_id σ <= next_id (run_all cs σ).
Proof.
  revert σ. induction cs as [|c cs IH]; intros σ Hσ; [split; [done|cbn; lia]|].
  unfold run_all. cbn [foldl].
  destruct (IH (run c σ) (run_ids_fresh c σ Hσ)) as (Hf & Hle).
  split; [exact Hf|]. pose proof (run_next_id_mono c σ). unfold run_all in Hle. lia.
Qed.

End Invariants.

Lemma ids_stay_fresh_witness :
  let σ := Demo.world [] Demo.all_ok in
  let history :=
    [WaitSetup (DemoSetup.ctx 10) (DemoSetup.answers "13:57" "2") 0;
     WaitSetup (DemoSetup.ctx 10) (DemoSetup.answers "14:30" "5") 0;
     WaitDelete 10 4;
     WaitSetup (DemoSetup.ctx 10) (DemoSetup.answers "9:05" "1") 0;
     CheckWaiting 100 13 57] in
  id <$> db (@run_all ascii_builtins history σ) = [3; 5]
  ∧ ids_fresh (@run_all ascii_builtins history σ)
  ∧ next_id σ <= next_id (@run_all ascii_builtins history σ).
Proof.
  intros σ history. split; [by vm_compute|].
  apply (@ids_stay_fresh ascii_builtins history σ).
  split; [constructor|]. intros r Hr. by apply elem_of_nil in Hr.
Defined.

Lemma housekeeping_rows_witness :
  let σ := Demo.world [Demo.config 1 30 2; Demo.config 2 31 5] Demo.all_ok in
  let c := OnMessage (Demo.message 1 5) 100 in
  Forall2 (λ r r', r' = r ∨ row_step r r') (db σ) (db (@run ascii_builtins c σ))
  ∧ next_id (@run ascii_builtins c σ) = next_id σ.
Proof.
  intros σ c. apply (@housekeeping_rows ascii_builtins c σ).
  - reflexivity.
  - apply (bool_decide_unpack _). by vm_compute.
Defined.

Lemma row_step_ok `{PyStr} w w' : row_step w w' → row_ok w → row_ok w'.
Proof.
  intros Hs (Hmax & Hact & Htime & Hping & Hgiven).
  destruct Hs as [(d & ->)|[->|[->|(d & l & Ht & ->)]]];
    split_and!; try done; try (cbn; lia).
  cbn. intros _. by rewrite Ht.
Qed.

Lemma ask_ping_inr `{PyStr} ctx ans ping_role ping :
  ask_ping ctx ans = inr (ping_role, ping) →
  ping = "role"%string ∧ ping_role ≠ None
  ∨ ping ∈ ["here"; "everyone"; "none"]%string ∧ ping_role = None.
Proof.
  unfold ask_ping, convert, mbind, wizard_bind.
  destruct (ping_msg ans) as [content|].
  2: { intros [= <- <-]. right. split; [by apply (bool_decide_unpack _)|done]. }
  cbv zeta.
  destruct (String.eqb _ "here"); [intros [= <- <-]; right; split; [by apply (bool_decide_unpack _)|done]|].
  destruct (String.eqb _ "everyone");
    [intros [= <- <-]; right; split; [by apply (bool_decide_unpack _)|done]|].
  destruct (String.eqb _ "none"); [intros [= <- <-]; right; split; [by apply (bool_decide_unpack _)|done]|].
  destruct (Ctx.RoleConverter ctx content); [|done].
  intros [= <- <-]. by left.
Qed.

Lemma setup_row_ok `{PyStr} ctx ans now σ w :
  int_reads_02d →
  (wait_setup ctx ans now σ).1 = SetupComplete w →
  row_ok w.
Proof.
  intros Hint Hdone.
  destruct (wait_setup_complete ctx ans now σ w Hdone)
    as (channel & trigger & role & limit & pr & pt & Hwiz & Hw & _).
  apply wizard_inr_fields in Hwiz as (Htime & _ & Hlimit & Hping).
  apply ask_time_inr in Htime
    as (content & hour & minute & Hmsg & Hparse & Hh & Hm & ->).
  apply ask_limit_inr in Hlimit.
  apply ask_ping_inr in Hping.
  subst w. split_and!; try done; try (cbn; lia).
  exists hour, minute. split; [|done].
  cbn. by rewrite (parse_time_reads_back hour minute Hint Hh Hm).
Qed.

Lemma edited_row_ok `{PyStr} ctx edit_choice value_msg w w' :
  int_reads_02d →
  edited ctx edit_choice value_msg w = inr w' →
  row_ok w → row_ok w'.
Proof.
  intros Hint He (Hmax & Hact & Htime & Hping & Hgiven). revert He. unfold edited.
  destruct (String.eqb edit_choice "channel").
  { destruct value_msg as [content|]; [|done].
    destruct (Ctx.TextChannelConverter ctx content); [|done].
    intros [= <-]. split_and!; cbn; done || lia. }
  destruct (String.eqb edit_choice "time").
  { destruct value_msg as [content|]; [|done].
    destruct (parse_time (py_strip content)) as [[hour minute]|]; [|done].
    destruct ((0 <=? hour) && (hour <=? 23) && (0 <=? minute) && (minute <=? 59))
      eqn:Hb; [|done].
    intros [= <-]. split_and!; cbn; try done; try lia.
    assert (0 <= hour <= 23) as Hh by lia. assert (0 <= minute <= 59) as Hm by lia.
    exists hour, minute. split; [|done].
    cbn. by rewrite (parse_time_reads_back hour minute Hint Hh Hm). }
  destruct (String.eqb edit_choice "role").
  { destruct value_msg as [content|]; [|done].
    destruct (Ctx.RoleConverter ctx content); [|done].
    destruct (Ctx.above_me ctx _); [done|]. intros [= <-]. split_and!; cbn; done || lia. }
  destruct (String.eqb edit_choice "limit").
  { destruct value_msg as [content|]; [|done].
    destruct (py_int _) as [n|]; [|done].
    destruct ((n <? 1) || (n >? 1000)) eqn:Hb; [done|].
    intros [= <-]. split_and!; cbn; try done; try lia. }
  destruct (String.eqb edit_choice "ping"); [|done].
  destruct value_msg as [content|]; [|done]. cbv zeta.
  destruct (String.eqb _ "here").
  { intros [= <-]. split_and!; cbn; try done; try lia. right. split; [by apply (bool_decide_unpack _)|done]. }
  destruct (String.eqb _ "everyone").
  { intros [= <-]. split_and!; cbn; try done; try lia. right. split; [by apply (bool_decide_unpack _)|done]. }
  destruct (String.eqb _ "none").
  { intros [= <-]. split_and!; cbn; try done; try lia. right. split; [by apply (bool_decide_unpack _)|done]. }
  destruct (Ctx.RoleConverter ctx content); [|done].
  intros [= <-]. split_and!; cbn; try done; try lia. by left.
Qed.

Lemma run_rows_ok `{PyStr} c σ :
  int_reads_02d →
  Forall row_ok (db σ) → Forall row_ok (db (run c σ)).
Proof.
  intros Hint Hok.
  destruct (housekeeping c) eqn:Hc.
  { destruct (housekeeping_table c σ Hc) as (ws & Hin & _ & Hov & _).
    apply (overwrites_of_Forall row_step _ ws (db σ)); try done.
    - intros w w'. apply row_step_ok.
    - apply Forall_forall. intros w Hw.
      apply (proj1 (Forall_forall _ _) Hok). by apply Hin. }
  destruct c as [| | |ctx ans now|ctx wid choice value|g wid|g prompt| | |];
    try done; cbn [run].
  - destruct (wait_setup_table ctx ans now σ)
      as [(w & Hw & D & _)|(_ & D & _)]; rewrite D; [|done].
    apply Forall_app. split; [done|]. constructor; [|constructor].
    by apply (setup_row_ok ctx ans now σ).
  - destruct (wait_edit_table ctx wid choice value σ)
      as [(w & w' & content & Hfind & _ & He & ->)|(-> & _)]; [|done].
    cbn [snd]. rewrite save_db. unfold overwrite_row. apply Forall_fmap.
    apply found_in_db in Hfind as (Hin & _).
    pose proof (proj1 (Forall_forall _ _) Hok w Hin) as Hw.
    eapply Forall_impl; [exact Hok|]. intros r Hr. cbn.
    destruct (id r =? id w'); [|done]. by eapply edited_row_ok.
  - unfold wait_delete. destruct (find_waiting g wid σ) as [w|]; [|done].
    cbn. apply Forall_forall. intros r Hr.
    apply list_elem_of_filter in Hr as [_ Hr].
    by apply (proj1 (Forall_forall _ _) Hok).
  - unfold wait_clear. cbv zeta.
    destruct (_ =? 0); [done|]. destruct prompt; cbn [negb]; [|done].
    cbn. apply Forall_forall. intros r Hr.
    apply list_elem_of_filter in Hr as [_ Hr].
    by apply (proj1 (Forall_forall _ _) Hok).
Qed.

(** X9: every row that the wizard creates and the commands then work on
    stays well formed through every history of the cog: its limit is from
    1 to 1000, it is active, the scheduler can read its trigger time as an
    hour and a minute of the day, its ping type is one of the four with a
    ping role exactly for type [role], and it holds grants only if it has
    been opened.  This holds for every [int], [strip] and [lower] such
    that [int] reads back the two digits that [:02d] writes. *)
Theorem rows_stay_ok `{PyStr} cs σ :
  int_reads_02d →
  Forall row_ok (db σ) → Forall row_ok (db (run_all cs σ)).
Proof.
  intros Hint. revert σ. induction cs as [|c cs IH]; intros σ Hσ; [done|].
  unfold run_all. cbn [foldl]. apply IH. by apply run_rows_ok.
Qed.

Lemma rows_stay_ok_witness :
  let σ := Demo.world [] Demo.all_ok in
  let history :=
    [WaitSetup (DemoSetup.ctx 10) (DemoSetup.answers "13:57" "2") 0;
     WaitEdit (DemoSetup.ctx 10) 3 (Some "time"%string) (Some "9:5"%string);
     WaitEdit (DemoSetup.ctx 10) 3 (Some "limit"%string) (Some "1001"%string);
     CheckWaiting 100 9 5;
     OnMessage (Demo.message 1 5) 100;
     OnMessage (Demo.message 2 6) 100] in
  (trigger_time <$> db (@run_all ascii_builtins history σ) = ["09:05"%string]
   ∧ given_users <$> db (@run_all ascii_builtins history σ) = [[1; 2]])
  ∧ Forall (@row_ok ascii_builtins) (db (@run_all ascii_builtins history σ)).
Proof.
  intros σ history. split; [by vm_compute|].
  apply (@rows_stay_ok ascii_builtins history σ).
  - exact ascii_int_reads_02d.
  - constructor.
Defined.

(** ** The management commands *)

Lemma filter_ext_in {A} (P Q : A → Prop) `{!∀ x, Decision (P x)}
    `{!∀ x, Decision (Q x)} (l : list A) :
  (∀ x, x ∈ l → (P x ↔ Q x)) → filter P l = filter Q l.
Proof.
  induction l as [|a l IH]; intros Hl; [done|].
  rewrite !filter_cons.
  rewrite IH by (intros x Hx; apply Hl; by right).
  assert (P a ↔ Q a) as Ha by (apply Hl; by left).
  destruct (decide (P a)) as [Hp|Hp], (decide (Q a)) as [Hq|Hq]; try done.
  - exfalso. by apply Hq, Ha.
  - exfalso. by apply Hp, Ha.
Qed.

Lemma filter_all {A} (P : A → Prop) `{!∀ x, Decision (P x)} (l : list A) :
  (∀ x, x ∈ l → P x) → filter P l = l.
Proof.
  induction l as [|a l IH]; intros Hl; [done|].
  rewrite filter_cons_True by (apply Hl; by left).
  f_equal. apply IH. intros x Hx. apply Hl. by right.
Qed.

Lemma not_found_in_db g wid σ :
  find_waiting g wid σ = None →
  ∀ w, w ∈ db σ → ¬ (id w = wid ∧ guild_id w = g).
Proof.
  unfold find_waiting. intros Hn w Hw Hp. apply head_None in Hn.
  by apply (filter_nil_not_elem_of _ _ w Hn).
Qed.

(** X10: [wait_delete] stops a configuration only for the guild that owns
    it.  With primary keys unique, the command answers [Stopped] exactly
    when the guild has a row with this id, the table afterwards is the old
    one without that row, in the old order, and an id of another guild
    removes nothing.  The command calls nothing on the platform and leaves
    the cache alone. *)
Theorem wait_delete_own_guild g wid σ :
  NoDup (id <$> db σ) →
  let r := wait_delete g wid σ in
  (r.1 = Stopped wid ↔ ∃ w, w ∈ db σ ∧ id w = wid ∧ guild_id w = g)
  ∧ db r.2 = filter (λ row, ¬ (id row = wid ∧ guild_id row = g)) (db σ)
  ∧ trace r.2 = trace σ ∧ cache r.2 = cache σ ∧ next_id r.2 = next_id σ.
Proof.
  intros Hnd r. unfold r, wait_delete.
  destruct (find_waiting g wid σ) as [w|] eqn:Hf; cbn [fst snd].
  - apply found_in_db in Hf as (Hin & Hid & Hg).
    split_and!; try done.
    + split; [intros _; by exists w|done].
    + cbn. apply filter_ext_in. intros row Hrow. split.
      * intros Hne [Hi _]. apply Hne. congruence.
      * intros Hn Hi. apply Hn.
        assert (row = w) as -> by
          (apply (same_id_same_row (db σ)); [done..|congruence]).
        done.
  - pose proof (not_found_in_db _ _ _ Hf) as Hnone.
    split_and!; try done.
    + split; [done|]. intros (w & Hw & Hi & Hg). exfalso. by apply (Hnone w).
    + symmetry. by apply filter_all.
Qed.

Lemma wait_delete_own_guild_witness :
  let σ := Demo.world [Demo.config 1 30 2; Demo.config 2 31 5] Demo.all_ok in
  ((wait_delete 11 1 σ).1 = DeleteNoConfig 1 ∧ (wait_delete 10 2 σ).1 = Stopped 2)
  ∧ let r := wait_delete 11 1 σ in
    (r.1 = Stopped 1 ↔ ∃ w, w ∈ db σ ∧ id w = 1 ∧ guild_id w = 11)
    ∧ db r.2 = filter (λ row, ¬ (id row = 1 ∧ guild_id row = 11)) (db σ)
    ∧ trace r.2 = trace σ ∧ cache r.2 = cache σ ∧ next_id r.2 = next_id σ.
Proof.
  intros σ. split; [by vm_compute|].
  apply (wait_delete_own_guild 11 1 σ).
  apply (bool_decide_unpack _). by vm_compute.
Defined.

Lemma wizard_error_not_limit `{PyStr} ctx ans err n :
  wizard ctx ans = inl err → err ≠ FreeLimitReached n.
Proof.
  intros Hwiz ->. revert Hwiz. unfold wizard, mbind, wizard_bind.
  unfold wait_for at 1. unfold convert at 1.
  destruct (channel_msg ans); [|done].
  destruct (Ctx.TextChannelConverter ctx _); [|done].
  destruct (ask_time ans) as [e|?] eqn:E1.
  { intros [= ->]. revert E1.
    unfold ask_time, wait_for, convert, require, mbind, wizard_bind.
    destruct (time_msg ans); [|done].
    destruct (parse_time _) as [[??]|]; [|done]. by destruct (_ && _). }
  destruct (ask_role ctx ans) as [e|?] eqn:E2.
  { intros [= ->]. revert E2.
    unfold ask_role, wait_for, convert, require, mbind, wizard_bind.
    destruct (role_msg ans); [|done].
    destruct (Ctx.RoleConverter ctx _); [|done].
    destruct (negb (Ctx.above_me ctx _)); [|done]. by destruct (negb (_ && _)). }
  destruct (ask_limit ans) as [e|?] eqn:E3.
  { intros [= ->]. revert E3.
    unfold ask_limit, wait_for, convert, require, mbind, wizard_bind.
    destruct (limit_msg ans); [|done].
    destruct (py_int _); [|done]. by destruct (negb _). }
  destruct (ask_ping ctx ans) as [e|?] eqn:E4; [|done].
  intros [= ->]. revert E4. unfold ask_ping, convert, mbind, wizard_bind.
  destruct (ping_msg ans); [|done].
  repeat (destruct (String.eqb _ _); [done|]).
  by destruct (Ctx.RoleConverter ctx _).
Qed.

Lemma filter_filter_neg {A} (P : A → Prop) `{!∀ x, Decision (P x)} (l : list A) :
  filter P (filter (λ x, ¬ P x) l) = [].
Proof.
  induction l as [|a l IH]; [done|].
  rewrite (filter_cons (λ x, ¬ P x)).
  destruct (decide (¬ P a)) as [Hn|Hn]; [|done].
  by rewrite filter_cons_False.
Qed.

(** X11: a confirmed [wait_clear] removes every configuration of the guild
    and none of another guild, and it gives the guild its quota back: the
    setup that follows is never refused with the limit of the free plan,
    whatever the guild had before.  A declined prompt changes nothing. *)
Theorem wait_clear_frees_quota `{PyStr} ctx ans now σ :
  let g := Ctx.guild ctx in
  let σ1 := (wait_clear g true σ).2 in
  db σ1 = filter (λ r, guild_id r ≠ g) (db σ)
  ∧ count_waitings g σ1 = 0
  ∧ (∀ n, (wait_setup ctx ans now σ1).1 ≠ FreeLimitReached n)
  ∧ (wait_clear g false σ).2 = σ.
Proof.
  intros g σ1.
  assert (db σ1 = filter (λ r, guild_id r ≠ g) (db σ)) as D.
  { unfold σ1, wait_clear. cbv zeta.
    destruct (count_waitings g σ =? 0) eqn:E; [|done].
    cbn [snd]. symmetry. apply filter_all. intros r Hr Hg.
    apply Z.eqb_eq in E. unfold count_waitings in E.
    assert (filter (λ w, guild_id w = g) (db σ) = []) as Hnil
      by (apply length_zero_iff_nil; lia).
    by apply (filter_nil_not_elem_of _ _ r Hnil). }
  assert (count_waitings g σ1 = 0) as C.
  { unfold count_waitings. rewrite D.
    by rewrite (filter_filter_neg (λ w, guild_id w = g)). }
  split_and!; try done.
  - intros n. unfold wait_setup. fold g. rewrite C.
    destruct (Guild_get g σ1) as [guild_data|]; [|done].
    rewrite andb_false_r.
    destruct (wizard ctx ans) as [err|[[[[channel trigger] role] limit] [pr pt]]]
      eqn:Hwiz.
    + cbn. by apply (wizard_error_not_limit ctx ans).
    + by destruct (call _ _) as [[] ?].
  - unfold wait_clear. cbv zeta. by destruct (_ =? 0).
Qed.

(** X12: the report of [wait_takeback] counts the [remove_roles] calls
    that returned.  The command calls [remove_roles] only, for the role of
    the row and members of its list, at most once per entry, and then
    saves the row with an empty list, also when removals failed.  Every
    other answer leaves the world as it was. *)
Theorem wait_takeback_report g wid σ :
  let r := wait_takeback g wid σ in
  (∃ w events,
     find_waiting g wid σ = Some w
     ∧ r.1 = Removed (role_id w) (Z.of_nat (length (successful_removals events)))
     ∧ trace r.2 = trace σ ++ events ++ [Saved (set_given_users [] w)]
     ∧ Forall (removal_of (role_id w) (given_users w)) events
     ∧ (length events ≤ length (given_users w))%nat
     ∧ db r.2 = overwrite_row (set_given_users [] w) (db σ))
  ∨ (r.2 = σ ∧ ∀ role n, r.1 ≠ Removed role n).
Proof.
  intros r. unfold r, wait_takeback.
  destruct (find_waiting g wid σ) as [w|]; [|by right].
  destruct (given_users w) as [|u us] eqn:Hg; [by right|].
  destruct (negb (get_role _ _ _)); [by right|].
  left.
  pose proof (take_back_count_spec g (role_id w) (u :: us) 0 σ) as Hs.
  destruct (take_back_count g (role_id w) (u :: us) 0 σ) as [n σ1].
  cbn [fst snd] in *. destruct Hs as (events & T & F & C & L & D & _).
  exists w, events. rewrite Hg. split_and!; try done.
  - cbn. f_equal. lia.
  - cbn. rewrite T. by rewrite <- app_assoc.
  - cbn. unfold overwrite_row. by rewrite D.
Qed.

(** ** Revocation *)

Lemma only_revokes_refl σ : only_revokes σ σ.
Proof. split_and!; [apply same_guild_view_refl|done|done]. Qed.

Lemma only_revokes_trans σ1 σ2 σ3 :
  only_revokes σ1 σ2 → only_revokes σ2 σ3 → only_revokes σ1 σ3.
Proof.
  intros (V1 & R1 & T1) (V2 & R2 & T2). split_and!.
  - eapply same_guild_view_trans; eassumption.
  - intros m r Hr. by apply R1, R2.
  - by etrans.
Qed.

Lemma call_remove_only_revokes user role σ :
  only_revokes σ (call (remove_roles user role) σ).2.
Proof.
  split_and!.
  - apply call_guild_view.
  - intros m r. cbn. destruct (outcome σ _ _); [|done]. cbn.
    unfold has_role. cbn. intros Hr. apply bool_decide_eq_true in Hr.
    apply bool_decide_eq_true. by apply list_elem_of_filter in Hr as [_ Hr].
  - cbn. by apply prefix_app_r.
Qed.

Lemma call_set_permissions_only_revokes channel b σ :
  only_revokes σ (call (set_permissions channel b) σ).2.
Proof.
  split_and!.
  - apply call_guild_view.
  - intros m r. cbn. by destruct (outcome σ _ _).
  - cbn. by apply prefix_app_r.
Qed.

Lemma save_only_revokes w σ : only_revokes σ (save w σ).
Proof.
  split_and!; [apply same_guild_view_refl|done|]. cbn. by apply prefix_app_r.
Qed.

Lemma refused_removal_widen member role σ0 σ1 σ2 σ3 :
  only_revokes σ0 σ1 → refused_removal member role σ1 σ2 → only_revokes σ2 σ3 →
  refused_removal member role σ0 σ3.
Proof.
  intros (_ & _ & T1) (i & Hi & He) (_ & _ & T2).
  exists i. split.
  - apply prefix_length in T1. lia.
  - by eapply prefix_lookup_Some.
Qed.

Lemma get_member_view k k' g m :
  same_guild_view k k' → get_member k' g m = get_member k g m.
Proof. intros (_ & _ & _ & M). unfold get_member. by rewrite M. Qed.

(** The loop of the reset: a listed member of the guild who still holds
    the role afterwards was refused by the platform. *)
Lemma take_back_revokes guild role users σ :
  let σ' := take_back guild role users σ in
  only_revokes σ σ'
  ∧ ∀ user, user ∈ users → get_member (cache σ) guild user = true →
      has_role (cache σ') user role = true → refused_removal user role σ σ'.
Proof.
  revert σ. induction users as [|a users IH]; intros σ; cbn [take_back].
  { split; [apply only_revokes_refl|]. intros user Hu. by apply elem_of_nil in Hu. }
  cbv zeta.
  destruct (get_member (cache σ) guild a && has_role (cache σ) a role) eqn:Hc.
  - set (σ1 := (call (remove_roles a role) σ).2).
    pose proof (call_remove_only_revokes a role σ) as R1. fold σ1 in R1.
    destruct (IH σ1) as (R2 & Hrev).
    split; [by eapply only_revokes_trans|].
    intros user Hu Hm Hr. apply elem_of_cons in Hu as [->|Hu].
    + destruct R2 as (_ & Mono & T2). apply Mono in Hr.
      exists (length (trace σ)). split; [done|].
      eapply prefix_lookup_Some; [|exact T2].
      unfold σ1 in Hr |- *. cbn in Hr |- *.
      destruct (outcome σ (length (trace σ)) (remove_roles a role)).
      * exfalso. unfold has_role in Hr. cbn in Hr.
        apply bool_decide_eq_true in Hr.
        by apply list_elem_of_filter in Hr as [Hne _].
      * by rewrite lookup_app_r, Nat.sub_diag.
    + eapply refused_removal_widen; [exact R1| |apply only_revokes_refl].
      apply Hrev; [done| |done].
      destruct R1 as (V & _). by rewrite (get_member_view _ _ _ _ V).
  - destruct (IH σ) as (R2 & Hrev). split; [done|].
    intros user Hu Hm Hr. apply elem_of_cons in Hu as [->|Hu]; [|by apply Hrev].
    exfalso. destruct R2 as (_ & Mono & _). apply Mono in Hr.
    rewrite Hm, Hr in Hc. done.
Qed.

Lemma take_back_count_world guild role users n σ :
  (take_back_count guild role users n σ).2 = take_back guild role users σ.
Proof.
  revert n σ. induction users as [|a users IH]; intros n σ; [done|].
  cbn [take_back_count take_back]. cbv zeta.
  destruct (_ && _); [|apply IH].
  destruct (call (remove_roles a role) σ) as [ok σ1]. apply IH.
Qed.

(** X13: a manual takeback forgets every member of the list, but a listed
    member of the guild who still holds the role afterwards is one whose
    removal the platform refused: where every removal returned, none of
    them holds it any more. *)
Theorem takeback_revokes g wid σ w user :
  find_waiting g wid σ = Some w →
  get_role (cache σ) g (role_id w) = true →
  user ∈ given_users w →
  get_member (cache σ) g user = true →
  let σ' := (wait_takeback g wid σ).2 in
  has_role (cache σ') user (role_id w) = true →
  refused_removal user (role_id w) σ σ'.
Proof.
  intros Hf Hrole Hu Hm σ'. unfold σ', wait_takeback. rewrite Hf, Hrole.
  destruct (given_users w) as [|u us] eqn:Hg; [by apply elem_of_nil in Hu|].
  cbn [negb].
  pose proof (take_back_count_world g (role_id w) (u :: us) 0 σ) as Hw.
  destruct (take_back_count g (role_id w) (u :: us) 0 σ) as [n σ1].
  cbn [snd] in Hw. subst σ1. cbn [snd].
  destruct (take_back_revokes g (role_id w) (u :: us) σ) as (_ & Hrev).
  intros Hr.
  eapply refused_removal_widen;
    [apply only_revokes_refl| |apply save_only_revokes].
  by apply Hrev.
Qed.

(** Members 1 and 2 won role 30; the platform refuses to take it back from
    member 1. *)
Lemma takeback_revokes_witness :
  let σ0 := Demo.world [Demo.waiting]
              (Demo.refusing (λ c, bool_decide (c = remove_roles 1 30))) in
  let σ := on_messages [Demo.message 1 5; Demo.message 2 6] 100 σ0 in
  let σ' := (wait_takeback 10 1 σ).2 in
  (has_role (cache σ') 1 30 = true ∧ has_role (cache σ') 2 30 = false
   ∧ given_users <$> db σ' = [[]])
  ∧ (has_role (cache σ') 1 30 = true → refused_removal 1 30 σ σ').
Proof.
  intros σ0 σ σ'. split; [by vm_compute|].
  apply (takeback_revokes 10 1 σ (set_given_users [1; 2] Demo.waiting) 1).
  - by vm_compute.
  - by vm_compute.
  - apply (bool_decide_unpack _). by vm_compute.
  - by vm_compute.
Defined.

Lemma reset_one_only_revokes waiting σ : only_revokes σ (reset_one waiting σ).
Proof.
  unfold reset_one. destruct (negb _); [apply only_revokes_refl|]. cbv zeta.
  set (σ1 := if get_role _ _ _ then _ else σ).
  assert (only_revokes σ σ1) as R1.
  { unfold σ1. destruct (get_role _ _ _); [|apply only_revokes_refl].
    apply take_back_revokes. }
  eapply only_revokes_trans; [exact R1|].
  eapply only_revokes_trans; [apply save_only_revokes|].
  destruct (get_channel _ _ _); [|apply only_revokes_refl].
  apply call_set_permissions_only_revokes.
Qed.

Lemma foldl_reset_only_revokes ws σ :
  only_revokes σ (foldl (λ σ waiting, reset_one waiting σ) σ ws).
Proof.
  revert σ. induction ws as [|w ws IH]; intros σ; [apply only_revokes_refl|].
  cbn [foldl]. eapply only_revokes_trans; [apply reset_one_only_revokes|apply IH].
Qed.

(** X14: the daily reset takes the role back.  For an active row whose
    guild and role resolve at four o'clock, a listed member of the guild
    who still holds the role after the reset is one whose removal the
    platform refused during this reset. *)
Theorem daily_reset_revokes hour minute σ w user :
  hour = 4 → minute < 5 →
  w ∈ db σ → is_active w = true →
  get_guild (cache σ) (guild_id w) = true →
  get_role (cache σ) (guild_id w) (role_id w) = true →
  user ∈ given_users w →
  get_member (cache σ) (guild_id w) user = true →
  let σ' := daily_reset hour minute σ in
  has_role (cache σ') user (role_id w) = true →
  refused_removal user (role_id w) σ σ'.
Proof.
  intros -> Hmin Hw Hact Hguild Hrole Hu Hm σ'. unfold σ', daily_reset.
  assert ((4 =? 4) && (minute <? 5) = true) as -> by (apply andb_true_iff; lia).
  assert (w ∈ filter is_active (db σ)) as Hin.
  { apply list_elem_of_filter. split; [by rewrite Hact|done]. }
  apply list_elem_of_split in Hin as (l1 & l2 & ->).
  rewrite foldl_app. cbn [foldl].
  set (σ1 := foldl _ σ l1).
  pose proof (foldl_reset_only_revokes l1 σ) as R1. fold σ1 in R1.
  pose proof (foldl_reset_only_revokes l2 (reset_one w σ1)) as R3.
  set (σ3 := foldl _ (reset_one w σ1) l2) in *.
  intros Hr.
  destruct R1 as (V1 & M1 & T1).
  assert (only_revokes σ σ1) as R1 by done.
  pose proof R3 as (_ & M3 & _). apply M3 in Hr.
  revert Hr R3. unfold reset_one.
  rewrite (get_guild_view _ _ _ V1), Hguild. cbn [negb]. cbv zeta.
  rewrite (get_role_view _ _ _ _ V1), Hrole.
  set (σt := take_back (guild_id w) (role_id w) (given_users w) σ1).
  set (waiting := set_last_triggered None (set_given_users [] w)).
  set (σ2 := if get_channel _ _ _ then _ else save waiting σt).
  assert (only_revokes σt σ2) as R2.
  { unfold σ2. eapply only_revokes_trans; [apply (save_only_revokes waiting)|].
    destruct (get_channel _ _ _); [|apply only_revokes_refl].
    apply call_set_permissions_only_revokes. }
  intros Hr R3. destruct R2 as (V2 & M2 & T2). apply M2 in Hr.
  destruct (take_back_revokes (guild_id w) (role_id w) (given_users w) σ1)
    as (_ & Hrev).
  eapply refused_removal_widen; [exact R1| |].
  - apply Hrev; [done| |exact Hr]. by rewrite (get_member_view _ _ _ _ V1).
  - eapply only_revokes_trans; [|exact R3]. by split_and!.
Qed.

Lemma daily_reset_revokes_witness :
  let σ0 := Demo.world [Demo.waiting]
              (Demo.refusing (λ c, bool_decide (c = remove_roles 1 30))) in
  let σ := on_messages [Demo.message 1 5; Demo.message 2 6] 100 σ0 in
  let σ' := daily_reset 4 0 σ in
  (has_role (cache σ') 1 30 = true ∧ has_role (cache σ') 2 30 = false
   ∧ given_users <$> db σ' = [[]])
  ∧ (has_role (cache σ') 1 30 = true → refused_removal 1 30 σ σ').
Proof.
  intros σ0 σ σ'. split; [by vm_compute|].
  apply (daily_reset_revokes 4 0 σ (set_given_users [1; 2] Demo.waiting) 1).
  - reflexivity.
  - lia.
  - apply (bool_decide_unpack _). by vm_compute.
  - reflexivity.
  - by vm_compute.
  - by vm_compute.
  - apply (bool_decide_unpack _). by vm_compute.
  - by vm_compute.
Defined.

(** ** The takeback of a whole guild *)

Lemma successful_removals_le events :
  (length (successful_removals events) ≤ length events)%nat.
Proof.
  induction events as [|e events IH]; [done|].
  unfold successful_removals in *. cbn [omap list_omap].
  destruct e as [| |[] []]; cbn [length]; lia.
Qed.

Lemma saved_rows_app e1 e2 : saved_rows (e1 ++ e2) = saved_rows e1 ++ saved_rows e2.
Proof. apply omap_app. Qed.

Lemma saved_rows_removals role users events :
  Forall (removal_of role users) events → saved_rows events = [].
Proof.
  induction 1 as [|e events (u & ok & -> & _) _ IH]; [done|].
  unfold saved_rows in *. cbn [omap list_omap]. exact IH.
Qed.

Lemma successful_removals_saved w : successful_removals [Saved w] = [].
Proof. done. Qed.

Lemma total_users_nonneg ws : 0 <= total_users_with_roles ws.
Proof.
  induction ws as [|w ws IH]; [done|].
  unfold total_users_with_roles in *. cbn [foldr]. lia.
Qed.

Lemma takeback_all_loop_spec g ws total processed σ :
  let r := takeback_all_loop g ws total processed σ in
  ∃ events,
    trace r.2 = trace σ ++ events
    ∧ r.1.1 = total + Z.of_nat (length (successful_removals events))
    ∧ r.1.2 = processed + Z.of_nat (length (saved_rows events))
    ∧ Z.of_nat (length (successful_removals events)) <= total_users_with_roles ws
    ∧ (length (saved_rows events) ≤ length ws)%nat
    ∧ Forall (λ w, ∃ w0, w0 ∈ ws ∧ given_users w0 ≠ [] ∧ w = set_given_users [] w0)
        (saved_rows events).
Proof.
  revert total processed σ.
  induction ws as [|w ws IH]; intros total processed σ; cbn [takeback_all_loop].
  { exists []. rewrite app_nil_r. cbn. split_and!; try done; lia. }
  assert (∀ σ0 t p,
    let r := takeback_all_loop g ws t p σ0 in
    ∃ events,
      trace r.2 = trace σ0 ++ events
      ∧ r.1.1 = t + Z.of_nat (length (successful_removals events))
      ∧ r.1.2 = p + Z.of_nat (length (saved_rows events))
      ∧ Z.of_nat (length (successful_removals events))
        <= total_users_with_roles (w :: ws)
      ∧ (length (saved_rows events) ≤ length (w :: ws))%nat
      ∧ Forall (λ w', ∃ w0, w0 ∈ w :: ws ∧ given_users w0 ≠ []
                            ∧ w' = set_given_users [] w0)
          (saved_rows events)) as Hskip.
  { intros σ0 t p. destruct (IH t p σ0) as (ev & T & C & P & L & S & F).
    exists ev. split_and!; try done.
    - unfold total_users_with_roles in *. cbn [foldr]. lia.
    - cbn [length]. lia.
    - eapply Forall_impl; [exact F|]. intros w' (w0 & Hin & Hne & ->).
      exists w0. split_and!; [by right|done|done]. }
  destruct (given_users w) as [|u us] eqn:Hgiven; [apply Hskip|].
  destruct (get_role (cache σ) g (role_id w)); cbn [negb]; [|apply Hskip].
  destruct (take_back_count_spec g (role_id w) (u :: us) total σ)
    as (ev1 & T1 & F1 & C1 & L1 & _).
  destruct (take_back_count g (role_id w) (u :: us) total σ) as [total' σ1].
  cbn [fst snd] in T1, C1.
  destruct (IH total' (processed + 1) (save (set_given_users [] w) σ1))
    as (ev & T & C & P & L & S & F).
  exists (ev1 ++ Saved (set_given_users [] w) :: ev).
  pose proof (successful_removals_le ev1) as Hle.
  pose proof (saved_rows_removals _ _ _ F1) as Hs1.
  change (Saved (set_given_users [] w) :: ev)
    with ([Saved (set_given_users [] w)] ++ ev).
  rewrite !successful_removals_app, !saved_rows_app, Hs1,
    successful_removals_saved.
  cbn [app]. change (saved_rows [Saved (set_given_users [] w)])
    with [set_given_users [] w]. cbn [app length].
  split_and!.
  - rewrite T. cbn. rewrite T1. by rewrite <- !app_assoc.
  - rewrite C, C1. rewrite length_app. lia.
  - rewrite P. lia.
  - unfold total_users_with_roles in *. cbn [foldr]. rewrite Hgiven.
    rewrite length_app. cbn [length] in L1 |- *. lia.
  - lia.
  - constructor.
    + exists w. split_and!; [by left|by rewrite Hgiven|done].
    + eapply Forall_impl; [exact F|]. intros w' (w0 & Hin & Hne & ->).
      exists w0. split_and!; [by right|done|done].
Qed.

(** X15: [wait_takeback_all] acts only after a confirmed prompt.  Its
    report counts the [remove_roles] calls that returned and the rows it
    saved; the first number is never above the number of users announced
    in the warning, the second never above the number of configurations
    of the guild, and each saved row is a configuration of the guild that
    had users, saved with an empty list.  Every other answer leaves the
    world as it was. *)
Theorem wait_takeback_all_report g prompt σ :
  let waitings := filter (λ w, guild_id w = g) (db σ) in
  let r := wait_takeback_all g prompt σ in
  (∃ events,
     prompt = true
     ∧ trace r.2 = trace σ ++ events
     ∧ r.1 = TakebackAllCompleted (Z.of_nat (length (successful_removals events)))
               (Z.of_nat (length (saved_rows events)))
     ∧ Z.of_nat (length (successful_removals events))
       <= total_users_with_roles waitings
     ∧ (length (saved_rows events) ≤ length waitings)%nat
     ∧ Forall (λ w, ∃ w0, w0 ∈ waitings ∧ given_users w0 ≠ []
                          ∧ w = set_given_users [] w0)
         (saved_rows events))
  ∨ (r.2 = σ ∧ ∀ total processed, r.1 ≠ TakebackAllCompleted total processed).
Proof.
  intros waitings r. unfold r, wait_takeback_all. fold waitings.
  destruct waitings as [|w ws] eqn:Hws; [by right|]. cbv zeta.
  destruct (total_users_with_roles (w :: ws) =? 0); [by right|].
  destruct prompt; cbn [negb]; [|by right].
  left.
  destruct (takeback_all_loop_spec g (w :: ws) 0 0 σ) as (ev & T & C & P & L & S & F).
  destruct (takeback_all_loop g (w :: ws) 0 0 σ) as [[total processed] σ'].
  cbn [fst snd] in T, C, P. exists ev. cbn [fst snd].
  split_and!; try done. f_equal; lia.
Qed.

(** ** Messages the listener does not take *)

Lemma on_message_loop_closed message guild current_date waitings σ :
  Forall (closed_to message guild current_date (cache σ)) waitings →
  on_message_loop message guild current_date waitings σ = σ.
Proof.
  induction 1 as [|w ws Hw _ IH]; [done|].
  cbn [on_message_loop]. unfold on_message_one.
  destruct Hw as [Hd|[Hr|[Hh Hg]]].
  - rewrite bool_decide_eq_false_2 by done. cbn [negb]. exact IH.
  - destruct (bool_decide _); cbn [negb]; [|exact IH].
    rewrite Hr. cbn [negb]. exact IH.
  - destruct (bool_decide (last_triggered w = _)); cbn [negb]; [|exact IH].
    destruct (get_role _ _ _); cbn [negb]; [|exact IH].
    rewrite Hh. rewrite bool_decide_eq_true_2 by done. exact IH.
Qed.

(** X16: the listener takes nothing from a message that no configuration
    of its channel is open to.  A direct message, a message of a bot, and
    a message in a channel where every active configuration either was
    not opened on the current date, or lost its role, or already lists
    the author, changes nothing: no buffer entry, no call, no save. *)
Theorem on_message_ignores message current_date σ :
  (∀ guild, Message.guild message = Some guild → Message.bot message = false →
     Forall (closed_to message guild current_date (cache σ))
       (waitings_of guild (Message.channel message) (db σ))) →
  on_message message current_date σ = σ.
Proof.
  intros Hclosed. unfold on_message.
  destruct (Message.guild message) as [guild|]; [|done].
  destruct (Message.bot message) eqn:Hbot; [done|].
  apply on_message_loop_closed. by apply Hclosed.
Qed.

(** The waiting was opened on day 100; member 1 writes on day 101 before
    the scheduler has opened it again. *)
Lemma on_message_ignores_witness :
  let σ := Demo.world [Demo.waiting] Demo.all_ok in
  on_message (Demo.message 1 5) 100 σ ≠ σ
  ∧ on_message (Demo.message 1 5) 101 σ = σ.
Proof.
  intros σ. split.
  - intros Heq. apply (f_equal message_queue) in Heq.
    apply (f_equal (lookup 20)) in Heq. by vm_compute in Heq.
  - apply (on_message_ignores (Demo.message 1 5) 101 σ).
    intros guild [= <-] _. apply (bool_decide_unpack _). by vm_compute.
Defined.

(** ** Edits *)

(** X17: an edit writes one field of one row.  A successful [wait_edit]
    saves the row once, with its id, guild, list of granted users, date
    of the last opening, active flag and creation time as they were, so
    a waiting that is open stays open with its grants; the other rows are
    not touched and nothing is called on the platform.  Every other
    answer, a role above the bot included, leaves the world as it was. *)
Theorem wait_edit_one_row `{PyStr} ctx waiting_id choice_msg value_msg σ :
  let r := wait_edit ctx waiting_id choice_msg value_msg σ in
  (∃ w w',
     find_waiting (Ctx.guild ctx) waiting_id σ = Some w
     ∧ r.1 = Updated w'
     ∧ trace r.2 = trace σ ++ [Saved w']
     ∧ db r.2 = overwrite_row w' (db σ)
     ∧ cache r.2 = cache σ
     ∧ id w' = id w ∧ guild_id w' = guild_id w ∧ given_users w' = given_users w
     ∧ last_triggered w' = last_triggered w ∧ is_active w' = is_active w
     ∧ Models.created_at w' = Models.created_at w)
  ∨ (r.2 = σ ∧ ∀ w', r.1 ≠ Updated w').
Proof.
  intros r.
  destruct (wait_edit_table ctx waiting_id choice_msg value_msg σ)
    as [(w & w' & content & Hfind & _ & He & Hr)|Hno]; [|by right].
  left. exists w, w'. fold r in Hr. rewrite Hr. cbn [fst snd].
  apply edited_fields in He as (? & ? & ? & ? & ? & ?).
  by split_and!.
Qed.
